(** * Perceptual-hash robustness benchmark: scoring pipeline and evaluation driver

  A shallow embedding of [utils.py] (feature extraction, matching, scoring,
  [detect_matches]) and of the evaluation part of [detect.py] ([main] up to
  the selection of the hardest manipulation), followed by the properties of
  the scoring pipeline and of the result table.

  Conventions.
  - Python exceptions are values of [exn]; a call returns [Ok v] or
    [Raise e].
  - Every call into os, PIL and imagehash is recorded in a trace of
    [event]s, so that "X is not invoked" is a statement about the trace;
    what the file system and PIL answer is given by a [World].  pandas is
    modelled by plain operations on columns.
  - Scores are rationals.  The only float computation of the scorer is
    [(64 - d) / 64 * 100] with [d] an integer in [0, 64]; its binary64
    evaluation is exact ([Binary64.score], [binary64_score_exact]), so the
    float that Python returns is this rational.  Column and row means are
    the exact quotients; pandas returns the binary64 nearest to them.
  - [manipulate.py] and the loop of [fetch_images.py] are embedded as
    [Script] computations, whose library calls may answer differently
    each time.  The PIL, numpy and OpenCV operations are taken as given;
    every call on the file system is explicit. *)

From Stdlib Require Import String Ascii List ZArith QArith Lia Bool.
From Stdlib Require Import Permutation Sorted.
From Stdlib Require Import Floats.SpecFloat.
From Stdlib Require Import Lqa.
From Stdlib Require Import DecimalString.
Import ListNotations.

Local Open Scope string_scope.
Local Open Scope list_scope.

(** ** Python values, exceptions and ordered dictionaries *)

Module Py.

(** The exception classes that the modelled calls can raise.
    [FileNotFoundError] and PIL's [UnidentifiedImageError] are subclasses of
    [OSError]; [IOError] is an alias of [OSError] in Python 3. *)
Inductive exn : Type :=
  | OSError
  | FileNotFoundError
  | UnidentifiedImageError
  | DecompressionBombError
  | TypeError
  | ValueError
  | KeyError.

Definition isinstance_OSError (e : exn) : bool :=
  match e with
  | OSError | FileNotFoundError | UnidentifiedImageError => true
  | _ => false
  end.

Definition isinstance_FileNotFoundError (e : exn) : bool :=
  match e with
  | FileNotFoundError => true
  | _ => false
  end.

Inductive result (A : Type) : Type :=
  | Ok (a : A)
  | Raise (e : exn).
Arguments Ok {A} a.
Arguments Raise {A} e.

Definition is_ok {A} (r : result A) : bool :=
  match r with Ok _ => true | Raise _ => false end.

Definition rbind {A B} (r : result A) (f : A -> result B) : result B :=
  match r with Ok a => f a | Raise e => Raise e end.

Fixpoint mapR {A B} (f : A -> result B) (l : list A) : result (list B) :=
  match l with
  | [] => Ok []
  | x :: l' => rbind (f x) (fun y => rbind (mapR f l') (fun ys => Ok (y :: ys)))
  end.

Fixpoint foldR {A S} (f : S -> A -> result S) (l : list A) (s : S)
  : result S :=
  match l with
  | [] => Ok s
  | x :: l' => rbind (f s x) (foldR f l')
  end.

(** A Python float: a number (see the header on exactness) or NaN. *)
Inductive pyfloat : Type :=
  | Fin (q : Q)
  | NaN.

(** [a < b] on floats: false as soon as one side is NaN. *)
Definition float_lt (a b : pyfloat) : bool :=
  match a, b with
  | Fin x, Fin y => negb (Qle_bool y x)
  | _, _ => false
  end.

(** [a < b] where a side may be [None] (TypeError). *)
Definition lt_opt (a b : option pyfloat) : result bool :=
  match a, b with
  | Some x, Some y => Ok (float_lt x y)
  | _, _ => Raise TypeError
  end.

(** The loop of the builtin [min(iterable, key=...)]: the running minimum is
    replaced only by a strictly smaller key. *)
Fixpoint min_loop {A K} (lt : K -> K -> result bool) (key : A -> K)
  (best : A) (best_val : K) (l : list A) : result A :=
  match l with
  | [] => Ok best
  | x :: l' =>
      let v := key x in
      rbind (lt v best_val) (fun b =>
      if b then min_loop lt key x v l' else min_loop lt key best best_val l')
  end.

Definition py_min {A K} (lt : K -> K -> result bool) (l : list A)
  (key : A -> K) : result A :=
  match l with
  | [] => Raise ValueError
  | x :: l' => min_loop lt key x (key x) l'
  end.

(** A [dict] keeps insertion order; assigning to an existing key keeps the
    key's position. *)
Definition dict (V : Type) : Type := list (string * V).

Fixpoint dict_get {V} (d : dict V) (k : string) : option V :=
  match d with
  | [] => None
  | (k', v) :: d' => if String.eqb k' k then Some v else dict_get d' k
  end.

Fixpoint dict_set {V} (d : dict V) (k : string) (v : V) : dict V :=
  match d with
  | [] => [(k, v)]
  | (k', v') :: d' =>
      if String.eqb k' k then (k', v) :: d' else (k', v') :: dict_set d' k v
  end.

Definition keys {V} (d : dict V) : list string := map fst d.
Definition values {V} (d : dict V) : list V := map snd d.

(** [str.lower] on the bytes of the name.  Only the ASCII letters matter
    for the suffix test it feeds. *)
Definition lower_ascii (c : ascii) : ascii :=
  let n := nat_of_ascii c in
  if (65 <=? n)%nat && (n <=? 90)%nat then ascii_of_nat (n + 32) else c.

Fixpoint lower (s : string) : string :=
  match s with
  | EmptyString => EmptyString
  | String c s' => String (lower_ascii c) (lower s')
  end.

Definition endswith (s suffix : string) : bool :=
  (String.length suffix <=? String.length s)%nat
  && String.eqb
       (substring (String.length s - String.length suffix)
                  (String.length suffix) s)
       suffix.

(** [s.endswith((a, b, ...))] *)
Definition endswith_any (s : string) (suffixes : list string) : bool :=
  existsb (endswith s) suffixes.

Definition startswith (s pre : string) : bool := String.prefix pre s.

(** [s.rfind(c)], [-1] when [c] does not occur. *)
Fixpoint rfind_from (c : ascii) (s : string) (i : Z) (last : Z) : Z :=
  match s with
  | EmptyString => last
  | String c' s' =>
      rfind_from c s' (i + 1) (if Ascii.eqb c' c then i else last)
  end.

Definition rfind (c : ascii) (s : string) : Z := rfind_from c s 0 (-1).

Definition slice_to (s : string) (n : nat) : string := substring 0 n s.
Definition slice_from (s : string) (n : nat) : string :=
  substring n (String.length s - n) s.

(** The loop of [genericpath._splitext] that skips leading dots: is there
    a character other than ['.'] among the [n] characters starting at
    [filenameIndex]? *)
Fixpoint splitext_scan (p : string) (filenameIndex n : nat) : bool :=
  match n with
  | O => false
  | S n' =>
      match String.get filenameIndex p with
      | Some c =>
          if Ascii.eqb c "." then splitext_scan p (S filenameIndex) n'
          else true
      | None => false
      end
  end.

(** [os.path.splitext] (posix). *)
Definition os_path_splitext (p : string) : string * string :=
  let sepIndex := rfind "/" p in
  let dotIndex := rfind "." p in
  if (sepIndex <? dotIndex)%Z then
    let filenameIndex := Z.to_nat (sepIndex + 1) in
    if splitext_scan p filenameIndex (Z.to_nat dotIndex - filenameIndex)
    then (slice_to p (Z.to_nat dotIndex), slice_from p (Z.to_nat dotIndex))
    else (p, "")
  else (p, "").

(** [os.path.join] with two components (posix). *)
Definition os_path_join (a b : string) : string :=
  if startswith b "/" then b
  else if String.eqb a "" || endswith a "/" then a ++ b
  else a ++ "/" ++ b.

(** [sorted] on a list of [str].  The order on strings is total and
    antisymmetric, so every sorting algorithm returns the same list. *)
Fixpoint insert_sorted (x : string) (l : list string) : list string :=
  match l with
  | [] => [x]
  | y :: l' => if String.leb x y then x :: l else y :: insert_sorted x l'
  end.

Definition sorted (l : list string) : list string :=
  fold_right insert_sorted [] l.

(** No string occurs twice in [l]. *)
Fixpoint distinct (l : list string) : bool :=
  match l with
  | [] => true
  | x :: l' => negb (existsb (String.eqb x) l') && distinct l'
  end.

(** [a <= b] on [str]. *)
Definition str_le (a b : string) : Prop := String.leb a b = true.

End Py.
Export Py.

(** ** imagehash.ImageHash *)

Module ImageHash.

(** The hash is a boolean array ([8 x 8] for [phash] with its default
    [hash_size]); [t] is the flattened array. *)
Definition t : Type := list bool.

(** [a.flatten() != b.flatten()], elementwise. *)
Definition not_equal (a b : t) : list bool :=
  map (fun p => xorb (fst p) (snd p)) (combine a b).

Definition count_nonzero (l : list bool) : nat :=
  List.length (filter (fun x => x) l).

(** [ImageHash.__sub__]: refuses hashes of different sizes, otherwise
    counts the positions where they differ. *)
Definition sub (a b : t) : result Z :=
  if (List.length a =? List.length b)%nat
  then Ok (Z.of_nat (count_nonzero (not_equal a b)))
  else Raise TypeError.

(** Hamming distance as the glossary words it: the number of positions at
    which two bit vectors of equal length differ. *)
Fixpoint hamming (a b : list bool) : nat :=
  match a, b with
  | x :: a', y :: b' => (if Bool.eqb x y then 0 else 1) + hamming a' b'
  | _, _ => 0
  end.

End ImageHash.

(** ** IEEE 754 binary64, for the one formula of the scorer *)

Module Binary64.

Definition prec : Z := 53.
Definition emax : Z := 1024.

Definition of_int (z : Z) : spec_float :=
  binary_normalize prec emax z 0 false.

(** The rational that a finite float denotes. *)
Definition to_Q (f : spec_float) : option Q :=
  match f with
  | S754_zero _ => Some 0%Q
  | S754_finite s m e =>
      let v := match e with
               | Z0 => inject_Z (Zpos m)
               | Zpos p => inject_Z (Zpos m * 2 ^ Zpos p)
               | Zneg p => (Zpos m # (2 ^ p))%Q
               end in
      Some (if s then Qopp v else v)
  | _ => None
  end.

(** [(64 - distance) / 64 * 100] evaluated in binary64, left to right. *)
Definition score (distance : Z) : spec_float :=
  SFmul prec emax
    (SFdiv prec emax (of_int (64 - distance)) (of_int 64))
    (of_int 100).

Definition score_is_exact (distance : Z) : bool :=
  match to_Q (score distance) with
  | Some q => Qeq_bool q (inject_Z (64 - distance) / 64 * 100)
  | None => false
  end.

End Binary64.

(** ** utils.py *)

Module Utils.

Definition MANIPULATION_TYPES : dict string :=
  [ ("a", "crop_20");
    ("b", "rotate_10");
    ("c", "flip_h");
    ("d", "brightness_1.3");
    ("e", "contrast_0.7");
    ("f", "gaussian_blur");
    ("g", "noise_saltpepper");
    ("h", "color_filter");
    ("i", "watermark");
    ("j", "canvas_expand");
    ("k", "jpeg_compression");
    ("l", "collage");
    ("m", "text_obfuscation");
    ("n", "invert_colors") ].

Record MockMatch : Type := mkMockMatch { distance : Z }.

(** The second component of [extract_features]'s result is always [None]. *)
Definition keypoints : Type := option unit.

Section WithWorld.

(** PIL images and numpy arrays are opaque to the repository. *)
Context {Image ndarray : Type}.

Inductive img_arg : Type :=
  | PIL (i : Image)
  | NdArray (a : ndarray).

(** What the file system and the imaging libraries answer.  Each field is
    a function: re-reading an unchanged file gives the same answer. *)
Record World : Type := mkWorld {
    os_makedirs : string -> result unit;
    os_listdir : string -> result (list string);
    os_path_exists : string -> bool;
    Image_open : string -> result Image;
    Image_convert : Image -> string -> result Image;
    Image_fromarray : ndarray -> result Image;
    phash : Image -> result ImageHash.t
  }.

(** Calls that leave the repository. *)
Inductive event : Type :=
  | call_makedirs (p : string)
  | call_listdir (p : string)
  | call_exists (p : string)
  | call_Image_open (p : string)
  | call_convert (i : Image) (mode : string)
  | call_fromarray (a : ndarray)
  | call_phash (i : Image)
  | call_hash_sub (h1 h2 : ImageHash.t).

(** Computations: a result or an exception, and the calls made. *)
Definition M (A : Type) : Type := (result A * list event)%type.

Definition ret {A} (a : A) : M A := (Ok a, []).

Definition raise {A} (e : exn) : M A := (Raise e, []).

Definition bind {A B} (m : M A) (f : A -> M B) : M B :=
    match m with
    | (Ok a, t) => let '(r, t') := f a in (r, t ++ t')
    | (Raise e, t) => (Raise e, t)
    end.

Definition call {A} (ev : event) (r : result A) : M A := (r, [ev]).

(** [try: body / except <catches>: handler] followed by [cont]; the
    handler returns from the function. *)
Definition try_except {A B} (body : M A) (catches : exn -> bool)
             (handler : M B) (cont : A -> M B) : M B :=
    match body with
    | (Ok a, t) => let '(r, t') := cont a in (r, t ++ t')
    | (Raise e, t) =>
        if catches e then let '(r, t') := handler in (r, t ++ t')
        else (Raise e, t)
    end.

Fixpoint foldM {A S} (f : S -> A -> M S) (l : list A) (s : S) : M S :=
    match l with
    | [] => ret s
    | x :: l' => bind (f s x) (foldM f l')
    end.

Variable w : World.

Definition extract_features (img : img_arg) (method : string)
    : M (option ImageHash.t * keypoints) :=
    if String.eqb method "phash" then
      bind (match img with
            | NdArray a => call (call_fromarray a) (Image_fromarray w a)
            | PIL i => ret i
            end) (fun img' =>
      bind (call (call_phash img') (phash w img')) (fun hash_value =>
      ret (Some hash_value, None)))
    else ret (None, None).

Definition match_features (desc1 desc2 : option ImageHash.t)
             (method : string) : M (list MockMatch) :=
    match desc1, desc2 with
    | Some d1, Some d2 =>
        if String.eqb method "phash" then
          bind (call (call_hash_sub d1 d2) (ImageHash.sub d1 d2))
               (fun distance => ret [mkMockMatch distance])
        else ret []
    | _, _ => ret []
    end.

Definition calculate_match_score (matches : list MockMatch)
             (method : string) (threshold : Q) : Q :=
    match matches with
    | [] => 0
    | m0 :: _ =>
        if String.eqb method "phash" then
          (inject_Z (64 - distance m0) / 64 * 100)%Q
        else 0
    end.

Definition default_threshold : Q := 3 # 4.

Definition detect_matches (original_path manipulated_path : string)
             (method : string) : M Q :=
    try_except
      (bind (call (call_Image_open original_path)
                  (Image_open w original_path)) (fun img1 =>
       bind (call (call_Image_open manipulated_path)
                  (Image_open w manipulated_path)) (fun img2 =>
       ret (img1, img2))))
      (fun e => isinstance_OSError e || isinstance_FileNotFoundError e)
      (ret 0%Q)
      (fun '(img1, img2) =>
       bind (call (call_convert img1 "L") (Image_convert w img1 "L"))
            (fun img1_gray =>
       bind (call (call_convert img2 "L") (Image_convert w img2 "L"))
            (fun img2_gray =>
       bind (extract_features (PIL img1_gray) method) (fun '(hash1, _) =>
       bind (extract_features (PIL img2_gray) method) (fun '(hash2, _) =>
       bind (match_features hash1 hash2 method) (fun matches =>
       ret (calculate_match_score matches method default_threshold))))))).

(** The file at [p] can be decoded: [Image.open] identifies it and
    [convert], which loads the pixel data, succeeds.  ([Image.open] is
    lazy: it reads the header and leaves the pixel data to the first
    operation that needs it.) *)
Definition decodable (p : string) : Prop :=
  exists i g, Image_open w p = Ok i /\ Image_convert w i "L" = Ok g.

(** A world in which nothing fails once a file is open: [Image.open]
    raises nothing but [OSError]s, every open image converts, and every
    image hashes to 64 bits. *)
Definition well_behaved : Prop :=
  (forall p e, Image_open w p = Raise e -> isinstance_OSError e = true)
  /\ (forall i, is_ok (Image_convert w i "L") = true)
  /\ (forall g, exists h, phash w g = Ok h /\ List.length h = 64%nat).


End WithWorld.

Arguments World : clear implicits.
Arguments event : clear implicits.
Arguments img_arg : clear implicits.
Arguments M : clear implicits.

Definition get_all_manipulation_types : list string :=
  values MANIPULATION_TYPES.

End Utils.

(** ** pandas, as far as [main] uses it *)

Module Pandas.

Inductive cell : Type :=
  | Str (s : string)
  | Flt (x : pyfloat).

Definition Num (q : Q) : cell := Flt (Fin q).

Record DataFrame : Type := mkDataFrame {
  columns : dict (list cell);
  nrows : nat
}.

(** [pd.DataFrame(data)] for a dict of lists: all lists must have one
    length. *)
Definition DataFrame_of_dict (data : dict (list cell)) : result DataFrame :=
  match data with
  | [] => Ok (mkDataFrame [] 0)
  | (_, c) :: rest =>
      if forallb (fun kc => (List.length (snd kc) =? List.length c)%nat) rest
      then Ok (mkDataFrame data (List.length c))
      else Raise ValueError
  end.

(** [df[k]] *)
Definition getitem (df : DataFrame) (k : string) : result (list cell) :=
  match dict_get (columns df) k with
  | Some col => Ok col
  | None => Raise KeyError
  end.

(** [df[k] = scalar] *)
Definition setitem_scalar (df : DataFrame) (k : string) (v : cell)
  : DataFrame :=
  mkDataFrame (dict_set (columns df) k (repeat v (nrows df))) (nrows df).

(** [df[k] = series] *)
Definition setitem (df : DataFrame) (k : string) (col : list cell)
  : DataFrame :=
  mkDataFrame (dict_set (columns df) k col) (nrows df).

(** The numbers of a column, NaN skipped; text is refused. *)
Fixpoint numbers (col : list cell) : result (list Q) :=
  match col with
  | [] => Ok []
  | Str _ :: _ => Raise TypeError
  | Flt NaN :: col' => numbers col'
  | Flt (Fin q) :: col' => rbind (numbers col') (fun qs => Ok (q :: qs))
  end.

Definition is_Flt (c : cell) : Prop :=
  match c with Flt _ => True | Str _ => False end.

Definition Qsum (l : list Q) : Q := fold_left Qplus l 0%Q.

(** [Series.mean()]: NaN for a column without numbers. *)
Definition mean (col : list cell) : result pyfloat :=
  rbind (numbers col) (fun qs =>
  match qs with
  | [] => Ok NaN
  | _ => Ok (Fin (Qsum qs / inject_Z (Z.of_nat (List.length qs))))
  end).

(** [df[k].mean()] *)
Definition column_mean (df : DataFrame) (k : string) : result pyfloat :=
  rbind (getitem df k) mean.

(** [df[ks].mean(axis=1)]: for each row, the mean over the selected
    columns. *)
Definition mean_axis1 (df : DataFrame) (ks : list string)
  : result (list cell) :=
  rbind (mapR (getitem df) ks) (fun cols =>
  mapR (fun i => rbind (mean (map (fun col => nth i col (Flt NaN)) cols))
                       (fun m => Ok (Flt m)))
       (seq 0 (nrows df))).

End Pandas.

(** ** detect.py *)

Module Detect.
Import Utils Pandas.

Definition is_original (f : string) : bool :=
  endswith_any (lower f) [".jpg"; ".jpeg"; ".png"].

Section Driver.

Context {Image ndarray : Type}.
Variable w : World Image ndarray.

(** The catalogue that [main] iterates; [main] below is the driver at
    [MANIPULATION_TYPES]. *)
Variable catalogue : dict string.

Local Abbreviation M := (Utils.M Image ndarray).

(** [results[k].append(v)] *)
Definition append_to (results : dict (list cell)) (k : string) (v : cell)
  : M (dict (list cell)) :=
  match dict_get results k with
  | Some col => ret (dict_set results k (col ++ [v]))
  | None => raise KeyError
  end.

(** The body of the inner loop of [main]. *)
Definition process_cell (manipulated orig_path image_id : string)
  (results : dict (list cell)) (item : string * string)
  : M (dict (list cell)) :=
  let '(letter, manip_name) := item in
  let manip_file := (image_id ++ letter ++ ".jpg")%string in
  let manip_path := os_path_join manipulated manip_file in
  bind (call (call_exists manip_path) (Ok (os_path_exists w manip_path)))
       (fun present =>
  if negb present then append_to results manip_name (Num 0)
  else
    bind (detect_matches w orig_path manip_path "phash") (fun score =>
    append_to results manip_name (Num score))).

(** The body of the outer loop of [main]. *)
Definition process_original (originals manipulated : string)
  (results : dict (list cell)) (orig_file : string)
  : M (dict (list cell)) :=
  let orig_path := os_path_join originals orig_file in
  let image_id := fst (os_path_splitext orig_file) in
  bind (append_to results "image_id" (Str image_id)) (fun results =>
  foldM (process_cell manipulated orig_path image_id) catalogue results).

(** [{manip_name: [] for manip_name in manipulation_types}] followed by
    [results['image_id'] = []].  Each key gets a list of its own. *)
Definition initial_results (manipulation_types : list string)
  : dict (list cell) :=
  dict_set (fold_left (fun d n => dict_set d n []) manipulation_types [])
           "image_id" [].

(** [main] from [os.makedirs] to [df['avg_score'] = ...]: the result
    table. *)
Definition evaluate (originals manipulated output : string) : M DataFrame :=
  bind (call (call_makedirs output) (os_makedirs w output)) (fun _ =>
  bind (call (call_listdir originals) (os_listdir w originals))
       (fun listing =>
  let original_files := sorted (filter is_original listing) in
  let manipulation_types := values catalogue in
  let results := initial_results manipulation_types in
  bind (foldM (process_original originals manipulated) original_files
              results) (fun results =>
  bind (DataFrame_of_dict results, []) (fun df =>
  let df := setitem_scalar df "method" (Str "phash") in
  bind (mean_axis1 df manipulation_types, []) (fun avg =>
  ret (setitem df "avg_score" avg)))))).

(** [avg_scores = {manip_name: df[manip_name].mean() for ...}] *)
Definition average_scores (df : DataFrame) (manipulation_types : list string)
  : result (dict pyfloat) :=
  foldR (fun acc n =>
           rbind (column_mean df n) (fun m => Ok (dict_set acc n m)))
        manipulation_types [].

(** [hardest_manip = min(avg_scores, key=avg_scores.get)] and
    [hardest_score = avg_scores[hardest_manip]]. *)
Definition hardest (avg_scores : dict pyfloat) : result (string * pyfloat) :=
  rbind (py_min lt_opt (keys avg_scores) (dict_get avg_scores))
        (fun hardest_manip =>
  match dict_get avg_scores hardest_manip with
  | Some hardest_score => Ok (hardest_manip, hardest_score)
  | None => Raise KeyError
  end).

(** [main] up to the report: the table, the means and the hardest
    manipulation.  Writing the CSV, the summary and the plots is left out. *)
Definition run (originals manipulated output : string)
  : M (DataFrame * dict pyfloat * (string * pyfloat)) :=
  bind (evaluate originals manipulated output) (fun df =>
  bind (average_scores df (values catalogue), []) (fun avg_scores =>
  bind (hardest avg_scores, []) (fun h =>
  ret (df, avg_scores, h)))).

(** *** Vocabulary for the statements about the table *)

(** The names that [main] gives to its own columns. *)
Definition own_columns : list string := ["image_id"; "method"; "avg_score"].

(** The score that [process_cell] appends, apart from the append. *)
Definition cell_score (manipulated orig_path image_id letter : string)
  : M Q :=
  let manip_file := (image_id ++ letter ++ ".jpg")%string in
  let manip_path := os_path_join manipulated manip_file in
  bind (call (call_exists manip_path) (Ok (os_path_exists w manip_path)))
       (fun present =>
  if negb present then ret 0%Q
  else detect_matches w orig_path manip_path "phash").

(** The score of the cell of [orig_file] and [letter]; 0 stands for a cell
    whose evaluation raises (the statements below exclude such cells). *)
Definition cell_value (originals manipulated orig_file letter : string) : Q :=
  match fst (cell_score manipulated (os_path_join originals orig_file)
                        (fst (os_path_splitext orig_file)) letter) with
  | Ok q => q
  | Raise _ => 0%Q
  end.

(** Every manipulated file that is present can be scored: [detect_matches]
    does not raise on it.  Nothing is asked of the missing ones. *)
Definition present_cells_scored (originals manipulated : string)
  (original_files : list string) : Prop :=
  forall orig_file letter manip_name,
    In orig_file original_files ->
    In (letter, manip_name) catalogue ->
    let image_id := fst (os_path_splitext orig_file) in
    let manip_path :=
      os_path_join manipulated (image_id ++ letter ++ ".jpg")%string in
    os_path_exists w manip_path = true ->
    is_ok (fst (detect_matches w (os_path_join originals orig_file)
                               manip_path "phash")) = true.

(** [present_cells_scored], as a test. *)
Definition present_cells_scoredb (originals manipulated : string)
  (original_files : list string) : bool :=
  forallb (fun orig_file =>
    forallb (fun item : string * string =>
      let image_id := fst (os_path_splitext orig_file) in
      let manip_path :=
        os_path_join manipulated (image_id ++ fst item ++ ".jpg")%string in
      implb (os_path_exists w manip_path)
            (is_ok (fst (detect_matches w (os_path_join originals orig_file)
                                        manip_path "phash"))))
      catalogue) original_files.

End Driver.

Definition main {Image ndarray} (w : World Image ndarray)
  (originals manipulated output : string) :=
  run w MANIPULATION_TYPES originals manipulated output.

End Detect.

(** ** Sample worlds, used to run the model on concrete inputs *)

Module Samples.
Import Utils.

(** Images are numbered; the hash of image [i] has its first [i] bits set
    (at most 64). *)
Definition sample_hash (i : nat) : ImageHash.t :=
  (repeat true (Nat.min i 64) ++ repeat false (64 - Nat.min i 64))%list.

Definition small_listing : list string := ["b.png"; "notes.txt"; "a.jpg"].

(** Three rows and two manipulation types: all [rotate] files present, two
    [flip] files missing. *)
Definition three_rows : Pandas.DataFrame :=
  Pandas.mkDataFrame
    [("rotate", [Pandas.Num 90; Pandas.Num 85; Pandas.Num 92]);
     ("flip", [Pandas.Num 70; Pandas.Num 0; Pandas.Num 0]);
     ("image_id", [Pandas.Str "x"; Pandas.Str "y"; Pandas.Str "z"])]
    3.

(** Two originals; for [a.jpg] the variants [a] (readable) and [b] (present,
    not identified as an image by [Image.open]) exist, for [b.png] none. *)
Definition small_world : World nat unit := {|
  os_makedirs := fun _ => Ok tt;
  os_listdir := fun d =>
  if String.eqb d "originals" then Ok small_listing
  else Raise FileNotFoundError;
  os_path_exists := fun p =>
  existsb (String.eqb p) ["manipulated/aa.jpg"; "manipulated/ab.jpg"];
  Image_open := fun p =>
  if String.eqb p "originals/a.jpg" then Ok 1%nat
  else if String.eqb p "originals/b.png" then Ok 2%nat
  else if String.eqb p "manipulated/aa.jpg" then Ok 3%nat
  else if String.eqb p "manipulated/ab.jpg" then Raise UnidentifiedImageError
  else Raise FileNotFoundError;
  Image_convert := fun i _ => Ok (i + 10)%nat;
  Image_fromarray := fun _ => Ok 0%nat;
  phash := fun i => Ok (sample_hash i)
|}.

(** As [small_world], but [manipulated/ab.jpg] has a valid header and
    truncated pixel data: [Image.open], which only reads the header,
    returns image 4, and decoding it in [convert] raises [OSError]. *)
Definition truncated_world : World nat unit := {|
  os_makedirs := os_makedirs small_world;
  os_listdir := os_listdir small_world;
  os_path_exists := os_path_exists small_world;
  Image_open := fun p =>
  if String.eqb p "manipulated/ab.jpg" then Ok 4%nat
  else Image_open small_world p;
  Image_convert := fun i _ =>
  if (i =? 4)%nat then Raise OSError else Ok (i + 10)%nat;
  Image_fromarray := Image_fromarray small_world;
  phash := phash small_world
|}.

(** As [small_world], with nothing under the manipulated directory. *)
Definition bare_world : World nat unit := {|
  os_makedirs := os_makedirs small_world;
  os_listdir := os_listdir small_world;
  os_path_exists := fun _ => false;
  Image_open := Image_open small_world;
  Image_convert := Image_convert small_world;
  Image_fromarray := Image_fromarray small_world;
  phash := phash small_world
|}.

(** A catalogue of which [three_rows] has two types and lacks the third. *)
Definition three_types : dict string :=
  [("r", "rotate"); ("f", "flip"); ("c", "crop")].

Definition two_types : dict string := [("r", "rotate"); ("f", "flip")].

Definition two_means : dict pyfloat :=
  [("rotate", Fin (267 # 3)); ("flip", Fin (70 # 3))].

(** A square root rounded down to a multiple of the inverse of the
    denominator. *)
Definition sample_sqrt (q : Q) : Q :=
  Z.sqrt (Qnum q * Zpos (Qden q)) # Qden q.

End Samples.

(** ** utils.py: the catalogue helpers and [analyze_results] *)

Module Helpers.
Import Utils Pandas.

Section WithCatalogue.

(** The table that the helpers read; in [utils.py] it is
    [MANIPULATION_TYPES]. *)
Variable catalogue : dict string.

(** [MANIPULATION_TYPES.get(letter_code, 'unknown')] *)
Definition get_manipulation_name (letter_code : string) : string :=
  match dict_get catalogue letter_code with
  | Some name => name
  | None => "unknown"
  end.

Definition get_all_manipulation_types : list string := values catalogue.

(** The loop of [get_manipulation_letter_code] over [.items()]. *)
Fixpoint letter_code_loop (items : list (string * string))
  (manip_name : string) : option string :=
  match items with
  | [] => None
  | (letter, name) :: items' =>
      if String.eqb name manip_name then Some letter
      else letter_code_loop items' manip_name
  end.

Definition get_manipulation_letter_code (manip_name : string)
  : option string :=
  letter_code_loop catalogue manip_name.

(** [pd.DataFrame(columns=columns)]: the labels, no rows. *)
Definition empty_frame (labels : list string) : DataFrame :=
  mkDataFrame (map (fun c => (c, [])) labels) 0.

Definition create_results_dataframe : DataFrame :=
  let columns :=
    (["image_id"] ++ get_all_manipulation_types ++ ["method"; "avg_score"])%list
  in
  empty_frame columns.

(** *** The statistics of [analyze_results] *)

(** The binary64 square root, on the rationals that stand for floats. *)
Variable fsqrt : Q -> Q.

Record stats : Type := mkStats {
  stat_mean : pyfloat;
  stat_median : pyfloat;
  stat_std : pyfloat;
  stat_min : pyfloat;
  stat_max : pyfloat
}.

Fixpoint insert_Q (x : Q) (l : list Q) : list Q :=
  match l with
  | [] => [x]
  | y :: l' => if Qle_bool x y then x :: l else y :: insert_Q x l'
  end.

Definition sort_Q (l : list Q) : list Q := fold_right insert_Q [] l.

(** [Series.median()]: the middle of the sorted numbers, the mean of the
    two middle ones when their count is even; NaN without numbers. *)
Definition median_of (qs : list Q) : pyfloat :=
  match qs with
  | [] => NaN
  | _ =>
      let sorted_qs := sort_Q qs in
      let n := List.length sorted_qs in
      if Nat.even n
      then Fin ((nth (n / 2 - 1) sorted_qs 0 + nth (n / 2) sorted_qs 0) / 2)%Q
      else Fin (nth (n / 2) sorted_qs 0%Q)
  end.

Definition median (col : list cell) : result pyfloat :=
  rbind (numbers col) (fun qs => Ok (median_of qs)).

(** [Series.std()]: the sample standard deviation, NaN below two numbers. *)
Definition std_of (qs : list Q) : pyfloat :=
  match qs with
  | [] | [_] => NaN
  | _ =>
      let n := inject_Z (Z.of_nat (List.length qs)) in
      let m := (Qsum qs / n)%Q in
      Fin (fsqrt (Qsum (map (fun x => (x - m) * (x - m))%Q qs) / (n - 1))%Q)
  end.

Definition std (col : list cell) : result pyfloat :=
  rbind (numbers col) (fun qs => Ok (std_of qs)).

Definition Qmin (a b : Q) : Q := if Qle_bool a b then a else b.
Definition Qmax (a b : Q) : Q := if Qle_bool a b then b else a.

(** [Series.min()] and [Series.max()]. *)
Definition min_of (qs : list Q) : pyfloat :=
  match qs with
  | [] => NaN
  | q :: qs' => Fin (fold_left Qmin qs' q)
  end.

Definition max_of (qs : list Q) : pyfloat :=
  match qs with
  | [] => NaN
  | q :: qs' => Fin (fold_left Qmax qs' q)
  end.

Definition col_min (col : list cell) : result pyfloat :=
  rbind (numbers col) (fun qs => Ok (min_of qs)).

Definition col_max (col : list cell) : result pyfloat :=
  rbind (numbers col) (fun qs => Ok (max_of qs)).

(** The dictionary [{'mean': ..., 'median': ..., 'std': ..., 'min': ...,
    'max': ...}] of one column, its entries computed in this order. *)
Definition describe (df : DataFrame) (manip : string) : result stats :=
  rbind (rbind (getitem df manip) mean) (fun v_mean =>
  rbind (rbind (getitem df manip) median) (fun v_median =>
  rbind (rbind (getitem df manip) std) (fun v_std =>
  rbind (rbind (getitem df manip) col_min) (fun v_min =>
  rbind (rbind (getitem df manip) col_max) (fun v_max =>
  Ok (mkStats v_mean v_median v_std v_min v_max)))))).

(** [manip in df.columns] *)
Definition in_columns (df : DataFrame) (manip : string) : bool :=
  existsb (String.eqb manip) (keys (columns df)).

(** The loop of [analyze_results] that fills [summary]. *)
Definition summarize (df : DataFrame) (manipulation_types : list string)
  : result (dict stats) :=
  foldR (fun summary manip =>
           if in_columns df manip
           then rbind (describe df manip) (fun st =>
                Ok (dict_set summary manip st))
           else Ok summary)
        manipulation_types [].

(** [a < b] on two floats, as a comparison that cannot raise. *)
Definition lt_float (a b : pyfloat) : result bool := Ok (float_lt a b).

(** The statistics of a column that cannot be described. *)
Definition no_stats : stats := mkStats NaN NaN NaN NaN NaN.

Definition analyze_results (df : DataFrame) (method : string)
  : result (dict stats * (string * stats)) :=
  let manipulation_types := get_all_manipulation_types in
  rbind (summarize df manipulation_types) (fun summary =>
  rbind (py_min lt_float summary (fun x => stat_mean (snd x)))
        (fun hardest_manip =>
  Ok (summary, hardest_manip))).

End WithCatalogue.

End Helpers.

(** ** detect.py: what the report and the plots read from the table *)

Module Report.
Import Utils Pandas.

(** A stable sort by score that compares with [<] only, as [sorted] does:
    an entry goes before the first entry that is not smaller than it.  On
    scores without NaN the order is total and the result is the one of
    every stable sort. *)
Fixpoint insert_by_score (x : string * pyfloat)
  (l : list (string * pyfloat)) : list (string * pyfloat) :=
  match l with
  | [] => [x]
  | y :: l' =>
      if float_lt (snd y) (snd x) then y :: insert_by_score x l'
      else x :: l
  end.

(** [sorted(avg_scores.items(), key=lambda x: x[1])], the order of the
    lines of the summary. *)
Definition summary_order (avg_scores : dict pyfloat)
  : list (string * pyfloat) :=
  fold_right insert_by_score [] avg_scores.

(** [a] is listed with a score at most the score of [b]. *)
Definition score_le (a b : string * pyfloat) : Prop :=
  match snd a, snd b with
  | Fin x, Fin y => (x <= y)%Q
  | _, _ => False
  end.

Definition is_Fin (v : pyfloat) : Prop :=
  match v with Fin _ => True | NaN => False end.

(** The first statement of [save_visualization]:
    [[col for col in df.columns
      if col not in ['image_id', 'method', 'avg_score']]]. *)
Definition plotted_columns (df : DataFrame) : list string :=
  filter (fun col =>
            negb (existsb (String.eqb col)
                          ["image_id"; "method"; "avg_score"]))
         (keys (columns df)).

(** The path that the driver tests for an original and a catalogue
    entry. *)
Definition variant_path (manipulated orig_file : string)
    (item : string * string) : string :=
  os_path_join manipulated
    (fst (os_path_splitext orig_file) ++ fst item ++ ".jpg")%string.

Definition in_range (q : Q) : Prop := (0 <= q)%Q /\ (q <= 100)%Q.

(** A score between 0 and 100. *)
Definition score_cell (c : cell) : Prop :=
  match c with
  | Flt (Fin q) => (0 <= q)%Q /\ (q <= 100)%Q
  | _ => False
  end.

(** A call that touches nothing but the file system. *)
Definition is_fs_call {Image ndarray} (ev : event Image ndarray) : Prop :=
  match ev with
  | call_makedirs _ | call_listdir _ | call_exists _ => True
  | _ => False
  end.

(** The paths of the existence tests of a trace, in order. *)
Fixpoint tested_paths {Image ndarray} (tr : list (event Image ndarray))
  : list string :=
  match tr with
  | [] => []
  | call_exists p :: tr' => p :: tested_paths tr'
  | _ :: tr' => tested_paths tr'
  end.

End Report.

(** ** Scripts whose library calls may depend on what happened before *)

Module Script.

Section WithEvents.

Context {E : Type}.

(** A computation reads the calls made so far in the run and gives a
    result or an exception together with the calls it makes itself. *)
Definition prog (A : Type) : Type := list E -> result A * list E.

Definition done {A} (a : A) : prog A := fun _ => (Ok a, []).

Definition lift {A} (r : result A) : prog A := fun _ => (r, []).

Definition andthen {A B} (m : prog A) (f : A -> prog B) : prog B :=
  fun past =>
    match m past with
    | (Ok a, t) => let '(r, t') := f a (past ++ t) in (r, t ++ t')
    | (Raise e, t) => (Raise e, t)
    end.

(** A call that leaves the repository: the library answers from the calls
    made so far, and the call is recorded. *)
Definition invoke {A} (ev : E) (answer : list E -> result A) : prog A :=
  fun past => (answer past, [ev]).

(** [try: body / except Exception: handler], where both end the iteration
    with a value.  Every class of [exn] derives from [Exception]. *)
Definition except_Exception {A} (body handler : prog A) : prog A :=
  fun past =>
    match body past with
    | (Ok a, t) => (Ok a, t)
    | (Raise _, t) => let '(r, t') := handler (past ++ t) in (r, t ++ t')
    end.

(** A [for] loop without [break] that threads a state. *)
Fixpoint for_each {A S} (f : S -> A -> prog S) (l : list A) (s : S)
  : prog S :=
  match l with
  | [] => done s
  | x :: l' => andthen (f s x) (for_each f l')
  end.

End WithEvents.

(** [a] is an initial segment of [b]. *)
Definition initial_segment {X} (a b : list X) : Prop :=
  exists rest, b = a ++ rest.

End Script.

(** ** [manipulate.py]: the manipulations and the loop that writes them *)

Module Manipulate.
Import Script.

Definition MANIPULATION_TYPES : dict string :=
  [ ("a", "crop_20");
    ("b", "rotate_10");
    ("c", "flip_h");
    ("d", "brightness_1.3");
    ("e", "contrast_0.7");
    ("f", "gaussian_blur");
    ("g", "noise_saltpepper");
    ("h", "color_filter");
    ("i", "watermark");
    ("j", "canvas_expand");
    ("k", "jpeg_compression");
    ("l", "collage");
    ("m", "text_obfuscation");
    ("n", "invert_colors") ].

Definition FONT_PATH : string :=
  "/usr/share/fonts/truetype/dejavu/DejaVuSans-Bold.ttf".

(** [f.endswith(('.jpg', '.jpeg', '.png'))]: the name is not lowered. *)
Definition is_source_image (f : string) : bool :=
  endswith_any f [".jpg"; ".jpeg"; ".png"].

(** [s.split(sep)] for a separator of one character. *)
Fixpoint split (sep : ascii) (s : string) : list string :=
  match s with
  | EmptyString => [EmptyString]
  | String c s' =>
      if Ascii.eqb c sep then EmptyString :: split sep s'
      else match split sep s' with
           | [] => [String c EmptyString]
           | part :: parts => String c part :: parts
           end
  end.

(** [manipulation.split('_')[1]].  Without a second part Python raises
    IndexError, which [exn] does not list; it is recorded as [KeyError],
    the other LookupError.  No handler of this file tells them apart. *)
Definition parameter (manipulation : string) : result string :=
  match nth_error (split "_" manipulation) 1 with
  | Some p => Ok p
  | None => Raise KeyError
  end.

Fixpoint remove_at {A} (i : nat) (l : list A) : list A :=
  match l, i with
  | [], _ => []
  | _ :: l', O => l'
  | x :: l', S i' => x :: remove_at i' l'
  end.

(** [k] draws without replacement from [l]: the draws are at distinct
    positions, and [outcome] numbers which ones they are. *)
Fixpoint draw (k outcome : nat) (l : list string) : list string :=
  match k with
  | O => []
  | S k' =>
      match l with
      | [] => []
      | _ :: _ =>
          let n := List.length l in
          nth (outcome mod n) l ""
          :: draw k' (outcome / n) (remove_at (outcome mod n) l)
      end
  end.

(** The scratch file of the manipulation ['jpeg_compression']. *)
Definition scratch_files (manipulation : string) : list string :=
  if String.eqb manipulation "jpeg_compression" then ["temp.jpg"] else [].

Definition is_scratch (p : string) : bool := String.eqb p "temp.jpg".

(** The files that a run over [files] writes when nothing fails: for each
    file and each catalogue entry the scratch file, if the manipulation
    has one, and then the variant. *)
Definition written_files (catalogue : dict string) (output_dir : string)
  (files : list string) : list string :=
  flat_map (fun f =>
    flat_map (fun item =>
      scratch_files (snd item) ++ [Report.variant_path output_dir f item])
      catalogue) files.

(** The variants alone. *)
Definition variant_paths (catalogue : dict string) (output_dir : string)
  (files : list string) : list string :=
  flat_map (fun f => map (Report.variant_path output_dir f) catalogue) files.

Section WithLib.

(** PIL images and fonts and Python floats are opaque to the file. *)
Context {Image Font Float : Type}.

(** The computations on pixels.  Each stands for consecutive PIL, numpy
    and OpenCV calls of a branch of [apply_manipulation], with the
    arithmetic on [img.size] that feeds them: [Copy] is [img.copy()]
    with [ImageDraw.Draw], [Watermark] and [Obfuscation] are [draw.text],
    [ResizeLike img] is [resize(img.size)], [Collage] is [Image.new] with
    the four [paste]s.  None of them touches the file system; the calls
    that do are events of their own. *)
Inductive operation : Type :=
  | Crop (percent : Z)
  | Rotate (angle : Z)
  | FlipLeftRight
  | Brightness (factor : Float)
  | Contrast (factor : Float)
  | GaussianBlur
  | SaltPepperNoise
  | ColorFilter
  | Copy
  | Watermark (font : Font)
  | Expand
  | ResizeLike (img : Image)
  | Collage (imgs : list Image)
  | Obfuscation (font : Font)
  | Invert.

Inductive event : Type :=
  | do_makedirs (p : string)
  | do_listdir (p : string)
  | do_open (p : string)
  | do_convert (i : Image) (mode : string)
  | do_truetype (path : string) (size : Z)
  | do_choice (files : list string)
  | do_operation (op : operation) (i : Image)
  | do_save (i : Image) (p : string) (quality : option Z) (returned : bool).

(** What the run depends on.  [py_int] and [py_float] are the builtins
    [int] and [float] on a [str].  [os.makedirs] is called once, so its
    answer is a function of the path.  The other fields answer from the
    calls made so far: a directory listed twice may have changed, and a
    file may be readable only once it has been written.  [random_outcome]
    numbers the outcome of a draw of [np.random.choice]. *)
Record Lib : Type := mkLib {
    py_int : string -> result Z;
    py_float : string -> result Float;
    os_makedirs : string -> result unit;
    os_listdir : list event -> string -> result (list string);
    Image_open : list event -> string -> result Image;
    convert : list event -> Image -> string -> result Image;
    truetype : list event -> string -> Z -> result Font;
    random_outcome : list event -> nat;
    operate : list event -> operation -> Image -> result Image;
    save : list event -> Image -> string -> option Z -> result unit
  }.

Variable lib : Lib.

(** The catalogue that the loop iterates; [apply_manipulations] of the
    source is the loop at [MANIPULATION_TYPES]. *)
Variable catalogue : dict string.

Definition call_operation (op : operation) (img : Image) : prog Image :=
  invoke (do_operation op img) (fun past => operate lib past op img).

(** [ImageFont.truetype(FONT_PATH, size)] *)
Definition load_font (size : Z) : prog Font :=
  invoke (do_truetype FONT_PATH size)
         (fun past => truetype lib past FONT_PATH size).

(** [Image.open(path)] *)
Definition open_image (path : string) : prog Image :=
  invoke (do_open path) (fun past => Image_open lib past path).

(** [os.listdir(path)] *)
Definition listdir (path : string) : prog (list string) :=
  invoke (do_listdir path) (fun past => os_listdir lib past path).

(** [img.save(path)] and [img.save(path, quality=q)], recorded with
    whether it returned. *)
Definition save_image (img : Image) (path : string) (quality : option Z)
  : prog unit :=
  fun past =>
    let r := save lib past img path quality in
    (r, [do_save img path quality (is_ok r)]).

(** [np.random.choice(files, k, replace=False)]: ValueError when there
    are fewer than [k] files. *)
Definition random_choice (files : list string) (k : nat)
  : prog (list string) :=
  invoke (do_choice files) (fun past =>
    if (List.length files <? k)%nat then Raise ValueError
    else Ok (draw k (random_outcome lib past) files)).

(** [int(manipulation.split('_')[1])] and the same with [float]. *)
Definition int_parameter (manipulation : string) : prog (E := event) Z :=
  lift (rbind (parameter manipulation) (py_int lib)).

Definition float_parameter (manipulation : string)
  : prog (E := event) Float :=
  lift (rbind (parameter manipulation) (py_float lib)).

Definition apply_manipulation (img : Image)
  (manipulation originals_dir : string) : prog Image :=
  if startswith manipulation "crop" then
    andthen (int_parameter manipulation) (fun percent =>
    call_operation (Crop percent) img)
  else if startswith manipulation "rotate" then
    andthen (int_parameter manipulation) (fun angle =>
    call_operation (Rotate angle) img)
  else if String.eqb manipulation "flip_h" then
    call_operation FlipLeftRight img
  else if startswith manipulation "brightness" then
    andthen (float_parameter manipulation) (fun factor =>
    call_operation (Brightness factor) img)
  else if startswith manipulation "contrast" then
    andthen (float_parameter manipulation) (fun factor =>
    call_operation (Contrast factor) img)
  else if String.eqb manipulation "gaussian_blur" then
    call_operation GaussianBlur img
  else if String.eqb manipulation "noise_saltpepper" then
    call_operation SaltPepperNoise img
  else if String.eqb manipulation "color_filter" then
    call_operation ColorFilter img
  else if String.eqb manipulation "watermark" then
    andthen (call_operation Copy img) (fun img_copy =>
    andthen (load_font 36) (fun font =>
    call_operation (Watermark font) img_copy))
  else if String.eqb manipulation "canvas_expand" then
    call_operation Expand img
  else if String.eqb manipulation "jpeg_compression" then
    let tmp_path := "temp.jpg" in
    andthen (save_image img tmp_path (Some 20%Z)) (fun _ =>
    open_image tmp_path)
  else if String.eqb manipulation "collage" then
    andthen (listdir originals_dir) (fun listing =>
    let files := filter is_source_image listing in
    andthen (random_choice files 3) (fun chosen =>
    andthen (for_each (fun imgs c =>
               andthen (open_image (os_path_join originals_dir c))
                       (fun opened =>
               andthen (call_operation (ResizeLike img) opened)
                       (fun resized =>
               done (imgs ++ [resized])))) chosen []) (fun imgs =>
    call_operation (Collage imgs) img)))
  else if String.eqb manipulation "text_obfuscation" then
    andthen (call_operation Copy img) (fun img_copy =>
    andthen (load_font 50) (fun font =>
    call_operation (Obfuscation font) img_copy))
  else if String.eqb manipulation "invert_colors" then
    call_operation Invert img
  else done img.

(** The body of the inner loop. *)
Definition write_variant (output_dir originals_dir name : string)
  (img : Image) (_ : unit) (item : string * string) : prog unit :=
  let '(letter, manipulation) := item in
  let output_filename := (name ++ letter ++ ".jpg")%string in
  let output_path := os_path_join output_dir output_filename in
  andthen (apply_manipulation img manipulation originals_dir)
          (fun manipulated_img =>
  save_image manipulated_img output_path None).

(** The body of the outer loop. *)
Definition process_file (output_dir originals_dir : string) (_ : unit)
  (filename : string) : prog unit :=
  let img_path := os_path_join originals_dir filename in
  andthen (open_image img_path) (fun img =>
  andthen (invoke (do_convert img "RGB")
             (fun past => convert lib past img "RGB")) (fun img =>
  let name := fst (os_path_splitext filename) in
  for_each (write_variant output_dir originals_dir name img) catalogue tt)).

Definition run (originals_dir output_dir : string) : prog unit :=
  andthen (invoke (do_makedirs output_dir)
             (fun _ => os_makedirs lib output_dir)) (fun _ =>
  andthen (listdir originals_dir) (fun listing =>
  let original_files := sorted (filter is_source_image listing) in
  for_each (process_file output_dir originals_dir) original_files tt)).

(** The paths of the files that were written, in order. *)
Fixpoint saved_paths (tr : list event) : list string :=
  match tr with
  | [] => []
  | do_save _ p _ true :: tr' => p :: saved_paths tr'
  | _ :: tr' => saved_paths tr'
  end.

(** A computation that writes no file. *)
Definition saves_nothing {A} (m : prog (E := event) A) : Prop :=
  forall past, saved_paths (snd (m past)) = [].

End WithLib.

Arguments operation : clear implicits.
Arguments event : clear implicits.
Arguments Lib : clear implicits.

Definition apply_manipulations {Image Font Float}
  (lib : Lib Image Font Float) : prog unit :=
  run lib MANIPULATION_TYPES "originals" "manipulated".

End Manipulate.

(** ** [fetch_images.py]: the download loop *)

Module FetchImages.
Import Script.

Definition SEARCH_QUERY : string := "art".
Definition IMAGES_TO_DOWNLOAD : nat := 600.
Definition ORIGINALS_FOLDER : string := "originals".

(** [str(n)] for a non-negative [int]. *)
Definition str (n : nat) : string :=
  NilEmpty.string_of_uint (Nat.to_uint n).

(** [name.startswith("art_") and
     name.endswith((".jpg", ".jpeg", ".png"))] *)
Definition is_art_image (name : string) : bool :=
  startswith name "art_" && endswith_any name [".jpg"; ".jpeg"; ".png"].

(** What iterating over [data['hits']] yields: a JSON object with its two
    address fields, or some other value.  A field is [None] when the key
    is absent or null. *)
Inductive hit : Type :=
  | Entry (largeImageURL webformatURL : option string)
  | NotAnObject.

(** Truth value of an address field. *)
Definition truthy (v : option string) : bool :=
  match v with
  | Some s => negb (String.eqb s "")
  | None => false
  end.

(** [a or b] *)
Definition py_or (a b : option string) : option string :=
  if truthy a then a else b.

(** [image_data.get('largeImageURL') or image_data.get('webformatURL')];
    [.get] on a value that is not an object raises (AttributeError, which
    like every class of [exn] derives from [Exception]). *)
Definition hit_url (image_data : hit) : result (option string) :=
  match image_data with
  | Entry large web => Ok (py_or large web)
  | NotAnObject => Raise TypeError
  end.

(** [f"art_{n}.jpg"] under the folder of the originals. *)
Definition art_path (n : nat) : string :=
  os_path_join ORIGINALS_FOLDER ("art_" ++ str n ++ ".jpg")%string.

(** How [fetch_images_from_pixabay] ends: the early [return], or the end
    of the function with the final count.  [OutOfFuel] is not a way the
    source ends: it marks a loop model that was given too few rounds. *)
Inductive outcome : Type :=
  | AlreadyEnough (existing_images : nat)
  | Completed (downloaded_count : nat)
  | OutOfFuel.

Section WithNet.

Context {Image bytes : Type}.

Variable PIXABAY_API_KEY : string.

Inductive event : Type :=
  | do_exists (p : string)
  | do_makedirs (p : string)
  | do_listdir (p : string)
  | get_page (url : string)
  | get_image (url : string)
  | do_open (content : bytes)
  | do_convert (i : Image) (mode : string)
  | do_thumbnail (i : Image)
  | do_save (i : Image) (p : string) (returned : bool).

(** What the run depends on.  The three calls on the folder are made at
    most once, so their answer is a function of the path.  Requests and
    PIL calls answer from the calls made so far: the same address may be
    served differently each time.  [api_get] is [requests.get] on the API
    together with what [response.json()] then gives: the entries of
    ['hits'], [None] when the object has no such key, an exception when
    the body is not of this shape. *)
Record Net : Type := mkNet {
    os_path_exists : string -> bool;
    os_makedirs : string -> result unit;
    os_listdir : string -> result (list string);
    api_get :
      list event -> string -> result (Z * result (option (list hit)));
    image_get : list event -> string -> result (Z * bytes);
    Image_open : list event -> bytes -> result Image;
    mode : Image -> string;
    convert : list event -> Image -> string -> result Image;
    thumbnail : list event -> Image -> result Image;
    save : list event -> Image -> string -> result unit
  }.

Variable net : Net.

Definition url : string :=
  ("https://pixabay.com/api/?key=" ++ PIXABAY_API_KEY ++ "&q="
   ++ SEARCH_QUERY ++ "&image_type=photo&per_page=200")%string.

(** [f"{url}&page={page}"] *)
Definition page_url (page : nat) : string :=
  (url ++ "&page=" ++ str page)%string.

(** [img.save(img_path, "JPEG", quality=85)], recorded with whether it
    returned. *)
Definition save_image (img : Image) (img_path : string) : prog unit :=
  fun past =>
    let r := save net past img img_path in
    (r, [do_save img img_path (is_ok r)]).

(** The [try] block of the inner loop; a [continue] leaves the count as
    it is. *)
Definition download_one (downloaded_count : nat) (image_data : hit)
  : prog nat :=
  andthen (lift (hit_url image_data)) (fun image_url =>
  match image_url with
  | None => done downloaded_count
  | Some image_url =>
      if String.eqb image_url "" then done downloaded_count
      else
        andthen (invoke (get_image image_url)
                   (fun past => image_get net past image_url))
                (fun img_response =>
        let '(status_code, content) := img_response in
        if negb (status_code =? 200)%Z then done downloaded_count
        else
          andthen (invoke (do_open content)
                     (fun past => Image_open net past content)) (fun img =>
          andthen (if String.eqb (mode net img) "RGB" then done img
                   else invoke (do_convert img "RGB")
                          (fun past => convert net past img "RGB"))
                  (fun img =>
          andthen (invoke (do_thumbnail img)
                     (fun past => thumbnail net past img)) (fun img =>
          let img_path := art_path (downloaded_count + 1)%nat in
          andthen (save_image img img_path) (fun _ =>
          done (downloaded_count + 1)%nat)))))
  end).

(** The body of the inner loop after the test of the count. *)
Definition process_hit (downloaded_count : nat) (image_data : hit)
  : prog nat :=
  except_Exception (download_one downloaded_count image_data)
                   (done downloaded_count).

(** [for image_data in data['hits']: if downloaded_count >=
    IMAGES_TO_DOWNLOAD: break ...] *)
Fixpoint hits_loop (hits : list hit) (downloaded_count : nat) : prog nat :=
  match hits with
  | [] => done downloaded_count
  | image_data :: rest =>
      if (IMAGES_TO_DOWNLOAD <=? downloaded_count)%nat
      then done downloaded_count
      else andthen (process_hit downloaded_count image_data)
                   (hits_loop rest)
  end.

(** The [while] loop, with a bound on its rounds. *)
Fixpoint pages_loop (fuel page downloaded_count : nat) : prog outcome :=
  if (downloaded_count <? IMAGES_TO_DOWNLOAD)%nat then
    match fuel with
    | O => done OutOfFuel
    | S fuel' =>
        andthen (invoke (get_page (page_url page))
                   (fun past => api_get net past (page_url page)))
                (fun response =>
        let '(status_code, json) := response in
        if negb (status_code =? 200)%Z then done (Completed downloaded_count)
        else
          andthen (lift json) (fun data =>
          match data with
          | None | Some [] => done (Completed downloaded_count)
          | Some hits =>
              andthen (hits_loop hits downloaded_count)
                      (fun downloaded_count =>
              let page := (page + 1)%nat in
              if (50 <? page)%nat then done (Completed downloaded_count)
              else pages_loop fuel' page downloaded_count)
          end))
    end
  else done (Completed downloaded_count).

Definition fetch (fuel : nat) : prog outcome :=
  andthen (invoke (do_exists ORIGINALS_FOLDER)
             (fun _ => Ok (os_path_exists net ORIGINALS_FOLDER)))
          (fun present =>
  andthen (if negb present
           then invoke (do_makedirs ORIGINALS_FOLDER)
                  (fun _ => os_makedirs net ORIGINALS_FOLDER)
           else done tt) (fun _ =>
  andthen (invoke (do_listdir ORIGINALS_FOLDER)
             (fun _ => os_listdir net ORIGINALS_FOLDER)) (fun listing =>
  let existing_images := List.length (filter is_art_image listing) in
  if (IMAGES_TO_DOWNLOAD <=? existing_images)%nat
  then done (AlreadyEnough existing_images)
  else pages_loop fuel 1 existing_images))).

(** The loop leaves through the test of [page] after at most 50 rounds. *)
Definition fetch_images_from_pixabay : prog outcome := fetch 50.

(** The addresses of the API requests of a trace, in order. *)
Fixpoint page_requests (tr : list event) : list string :=
  match tr with
  | [] => []
  | get_page u :: tr' => u :: page_requests tr'
  | _ :: tr' => page_requests tr'
  end.

(** The paths of the images that were saved, in order. *)
Fixpoint saved_paths (tr : list event) : list string :=
  match tr with
  | [] => []
  | do_save _ p true :: tr' => p :: saved_paths tr'
  | _ :: tr' => saved_paths tr'
  end.

(** A call on the folder of the originals, not on the network or PIL. *)
Definition is_folder_call (ev : event) : Prop :=
  match ev with
  | do_exists _ | do_makedirs _ | do_listdir _ => True
  | _ => False
  end.

(** The existing images that the run counts. *)
Definition existing_images : nat :=
  match os_listdir net ORIGINALS_FOLDER with
  | Ok listing => List.length (filter is_art_image listing)
  | Raise _ => 0
  end.

End WithNet.

Arguments event : clear implicits.
Arguments Net : clear implicits.

End FetchImages.

(** ** Sample libraries and networks *)

Module MoreSamples.
Import Script.

Definition gallery_listing : list string :=
  ["b.png"; "notes.txt"; "a.jpg"; "c.jpeg"].

(** As [small_world], with a third original. *)
Definition gallery_world : Utils.World nat unit := {|
  Utils.os_makedirs := Utils.os_makedirs Samples.small_world;
  Utils.os_listdir := fun d =>
  if String.eqb d "originals" then Ok gallery_listing
  else Raise FileNotFoundError;
  Utils.os_path_exists := Utils.os_path_exists Samples.small_world;
  Utils.Image_open := fun p =>
  if String.eqb p "originals/c.jpeg" then Ok 5%nat
  else Utils.Image_open Samples.small_world p;
  Utils.Image_convert := Utils.Image_convert Samples.small_world;
  Utils.Image_fromarray := Utils.Image_fromarray Samples.small_world;
  Utils.phash := Utils.phash Samples.small_world
|}.

(** [int] and [float] on the parameters of the catalogue. *)
Definition sample_int (s : string) : result Z :=
  if String.eqb s "20" then Ok 20%Z
  else if String.eqb s "10" then Ok 10%Z
  else Raise ValueError.

Definition sample_float (s : string) : result Q :=
  if String.eqb s "1.3" then Ok (13 # 10)
  else if String.eqb s "0.7" then Ok (7 # 10)
  else Raise ValueError.

(** A library for [manipulate.py] over a folder with the given listing:
    the originals decode as in [gallery_world], the scratch file decodes
    once it has been written, and an operation gives an image with a
    number of its own.  The draws vary with the number of calls made. *)
Definition lib_over (listing : list string) (room : nat)
  : Manipulate.Lib nat unit Q := {|
  Manipulate.py_int := sample_int;
  Manipulate.py_float := sample_float;
  Manipulate.os_makedirs := fun _ => Ok tt;
  Manipulate.os_listdir := fun _ d =>
  if String.eqb d "originals" then Ok listing
  else Raise FileNotFoundError;
  Manipulate.Image_open := fun past p =>
  if String.eqb p "temp.jpg" then
    if existsb (String.eqb "temp.jpg") (Manipulate.saved_paths past)
    then Ok 99%nat else Raise FileNotFoundError
  else Utils.Image_open gallery_world p;
  Manipulate.convert := fun _ i mode =>
  Utils.Image_convert gallery_world i mode;
  Manipulate.truetype := fun _ _ _ => Ok tt;
  Manipulate.random_outcome := fun past => List.length past;
  Manipulate.operate := fun past _ i => Ok (100 * i + List.length past)%nat;
  Manipulate.save := fun past _ _ _ =>
  if (room <=? List.length (Manipulate.saved_paths past))%nat
  then Raise OSError else Ok tt
|}.

(** Three originals and room for every file. *)
Definition gallery_lib : Manipulate.Lib nat unit Q :=
  lib_over gallery_listing 1000.

(** The same folder on a disk that is full once three files are
    written. *)
Definition full_disk_lib : Manipulate.Lib nat unit Q :=
  lib_over gallery_listing 3.

(** The folders as the run of [gallery_lib] leaves them: the files under
    [manipulated] are those that the run has written, and they decode. *)
Definition generated_world : Utils.World nat unit := {|
  Utils.os_makedirs := Utils.os_makedirs gallery_world;
  Utils.os_listdir := Utils.os_listdir gallery_world;
  Utils.os_path_exists := fun p =>
  existsb (String.eqb p)
    (Manipulate.saved_paths (snd (Manipulate.apply_manipulations
                                    gallery_lib [])));
  Utils.Image_open := fun p =>
  if startswith p "originals/" then Utils.Image_open gallery_world p
  else if existsb (String.eqb p)
            (Manipulate.saved_paths (snd (Manipulate.apply_manipulations
                                            gallery_lib [])))
  then Ok (String.length p) else Raise FileNotFoundError;
  Utils.Image_convert := Utils.Image_convert gallery_world;
  Utils.Image_fromarray := Utils.Image_fromarray gallery_world;
  Utils.phash := Utils.phash gallery_world
|}.

(** The two originals of [small_world]: too few for a collage. *)
Definition small_lib : Manipulate.Lib nat unit Q :=
  lib_over Samples.small_listing 1000.

Definition sample_key : string := "k".

(** A page of results: two usable entries, an entry without address, a
    value that is not an object, an address that is gone and an address
    that does not serve an image. *)
Definition sample_hits : list FetchImages.hit :=
  [ FetchImages.Entry (Some "http://img/1-large") (Some "http://img/1");
    FetchImages.Entry None (Some "http://img/2");
    FetchImages.Entry (Some "") None;
    FetchImages.NotAnObject;
    FetchImages.Entry None (Some "http://img/gone");
    FetchImages.Entry (Some "http://img/broken") None ].

(** Two images are present; the API has one page of results; an image is
    named by the content served. *)
Definition small_net : FetchImages.Net string string := {|
  FetchImages.os_path_exists := fun _ => true;
  FetchImages.os_makedirs := fun _ => Raise OSError;
  FetchImages.os_listdir := fun _ =>
  Ok ["art_1.jpg"; "art_2.jpg"; "readme.txt"];
  FetchImages.api_get := fun _ u =>
  if String.eqb u (FetchImages.page_url sample_key 1)
  then Ok (200%Z, Ok (Some sample_hits))
  else Ok (200%Z, Ok (Some []));
  FetchImages.image_get := fun _ u =>
  if String.eqb u "http://img/gone" then Ok (404%Z, "")
  else Ok (200%Z, u);
  FetchImages.Image_open := fun _ content =>
  if String.eqb content "http://img/broken"
  then Raise UnidentifiedImageError else Ok content;
  FetchImages.mode := fun _ => "RGB";
  FetchImages.convert := fun _ i _ => Ok i;
  FetchImages.thumbnail := fun _ i => Ok i;
  FetchImages.save := fun _ _ _ => Ok tt
|}.

(** As [small_net], with 600 images present. *)
Definition stocked_net : FetchImages.Net string string := {|
  FetchImages.os_path_exists := FetchImages.os_path_exists small_net;
  FetchImages.os_makedirs := FetchImages.os_makedirs small_net;
  FetchImages.os_listdir := fun _ =>
  Ok (map (fun n => ("art_" ++ FetchImages.str n ++ ".jpg")%string)
          (seq 1 600));
  FetchImages.api_get := FetchImages.api_get small_net;
  FetchImages.image_get := FetchImages.image_get small_net;
  FetchImages.Image_open := FetchImages.Image_open small_net;
  FetchImages.mode := FetchImages.mode small_net;
  FetchImages.convert := FetchImages.convert small_net;
  FetchImages.thumbnail := FetchImages.thumbnail small_net;
  FetchImages.save := FetchImages.save small_net
|}.

End MoreSamples.

(** ** Ordered dictionaries, [sorted] and [min] *)

Module PyFacts.

Section Dict.

Context {V : Type}.
Implicit Types (d : dict V) (k : string) (v : V).

Lemma dict_get_set_same d k v : dict_get (dict_set d k v) k = Some v.
Proof.
  induction d as [|[k' v'] d IH]; simpl.
  - now rewrite String.eqb_refl.
  - destruct (String.eqb k' k) eqn:E; simpl; rewrite E; auto.
Qed.

Lemma dict_get_set_other d k k' v :
  k <> k' -> dict_get (dict_set d k v) k' = dict_get d k'.
Proof.
  intros Hne. induction d as [|[k0 v0] d IH]; simpl.
  - apply String.eqb_neq in Hne. now rewrite Hne.
  - destruct (String.eqb k0 k) eqn:E; simpl.
    + apply String.eqb_eq in E. subst k0.
      apply String.eqb_neq in Hne. now rewrite Hne.
    + now rewrite IH.
Qed.

Lemma dict_get_None d k : dict_get d k = None <-> ~ In k (keys d).
Proof.
  induction d as [|[k0 v0] d IH]; simpl; [tauto|].
  destruct (String.eqb k0 k) eqn:E.
  - apply String.eqb_eq in E. split; [discriminate | tauto].
  - apply String.eqb_neq in E. rewrite IH. tauto.
Qed.

Lemma dict_get_In d k v : dict_get d k = Some v -> In k (keys d).
Proof.
  intros H. destruct (in_dec string_dec k (keys d)) as [Hin|Hout]; auto.
  apply dict_get_None in Hout. congruence.
Qed.

Lemma keys_set_present d k v :
  In k (keys d) -> keys (dict_set d k v) = keys d.
Proof.
  induction d as [|[k0 v0] d IH]; simpl; [tauto|].
  intros Hin. destruct (String.eqb k0 k) eqn:E; simpl; [reflexivity|].
  apply String.eqb_neq in E. f_equal. apply IH. tauto.
Qed.

Lemma keys_set_absent d k v :
  ~ In k (keys d) -> keys (dict_set d k v) = (keys d ++ [k])%list.
Proof.
  induction d as [|[k0 v0] d IH]; simpl; [reflexivity|].
  intros Hout. destruct (String.eqb k0 k) eqn:E; simpl.
  - apply String.eqb_eq in E. tauto.
  - f_equal. apply IH. tauto.
Qed.

(** In a dictionary without repeated keys, every entry is what [dict_get]
    returns for its key. *)
Lemma dict_get_entry d k v :
  NoDup (keys d) -> In (k, v) d -> dict_get d k = Some v.
Proof.
  induction d as [|[k0 v0] d IH]; simpl; [tauto|].
  intros Hnd [Heq|Hin].
  - inversion Heq; subst. now rewrite String.eqb_refl.
  - inversion Hnd as [|? ? Hout Hnd']; subst.
    destruct (String.eqb k0 k) eqn:E.
    + apply String.eqb_eq in E. subst k0. exfalso. apply Hout.
      unfold keys. change k with (fst (k, v)). now apply in_map.
    + now apply IH.
Qed.

End Dict.

Lemma existsb_eqb_In (x : string) (l : list string) :
  existsb (String.eqb x) l = true <-> In x l.
Proof.
  rewrite existsb_exists. split.
  - intros (y & Hin & Heq). apply String.eqb_eq in Heq. now subst.
  - intros Hin. exists x. split; [exact Hin | apply String.eqb_refl].
Qed.

Lemma distinct_NoDup (l : list string) : distinct l = true -> NoDup l.
Proof.
  induction l as [|x l IH]; simpl; [constructor|].
  intros H. apply andb_true_iff in H as [Hx Hl].
  constructor; [|now apply IH].
  intros Hin. apply existsb_eqb_In in Hin. rewrite Hin in Hx. discriminate.
Qed.

Lemma disjoint_check (own names : list string) :
  forallb (fun k => negb (existsb (String.eqb k) names)) own = true ->
  forall k, In k own -> ~ In k names.
Proof.
  intros H k Hk Hin. rewrite forallb_forall in H. specialize (H k Hk).
  apply existsb_eqb_In in Hin. rewrite Hin in H. discriminate.
Qed.

(** *** [sorted] *)

Lemma insert_sorted_perm (x : string) (l : list string) :
  Permutation (insert_sorted x l) (x :: l).
Proof.
  induction l as [|y l IH]; simpl; [reflexivity|].
  destruct (String.leb x y); [reflexivity|].
  rewrite IH. apply perm_swap.
Qed.

Lemma sorted_perm (l : list string) : Permutation (sorted l) l.
Proof.
  induction l as [|x l IH]; simpl; [reflexivity|].
  unfold sorted in *. simpl. rewrite insert_sorted_perm. now constructor.
Qed.

Lemma insert_sorted_hd (x y : string) (l : list string) :
  str_le y x -> HdRel str_le y l -> HdRel str_le y (insert_sorted x l).
Proof.
  intros Hyx Hhd. destruct l as [|z l]; simpl.
  - now constructor.
  - destruct (String.leb x z); constructor; auto.
    now inversion Hhd.
Qed.

Lemma insert_sorted_sorted (x : string) (l : list string) :
  Sorted str_le l -> Sorted str_le (insert_sorted x l).
Proof.
  induction 1 as [|y l Hs IH Hhd]; simpl.
  - repeat constructor.
  - destruct (String.leb x y) eqn:E.
    + constructor; [now constructor | now constructor].
    + constructor; [exact IH|].
      apply insert_sorted_hd; [|exact Hhd].
      destruct (String.leb_total x y) as [H|H]; [congruence | exact H].
Qed.

Lemma sorted_sorted (l : list string) : Sorted str_le (sorted l).
Proof.
  induction l as [|x l IH]; simpl; [constructor|].
  now apply insert_sorted_sorted.
Qed.

Lemma sorted_length (l : list string) :
  List.length (sorted l) = List.length l.
Proof. apply Permutation_length, sorted_perm. Qed.

(** *** [min] with a key *)

Section Min.

Context {A : Type}.
Variable key : A -> option pyfloat.
Variable val : A -> Q.

Lemma float_lt_Fin (x y : Q) :
  float_lt (Fin x) (Fin y) = true <-> (x < y)%Q.
Proof.
  simpl. rewrite negb_true_iff. split.
  - intros H. apply Qnot_le_lt. intros Hle.
    apply Qle_bool_iff in Hle. congruence.
  - intros H. destruct (Qle_bool y x) eqn:E; [|reflexivity].
    apply Qle_bool_iff in E. exfalso. now apply (Qlt_not_le x y).
Qed.

Lemma float_lt_Fin_false (x y : Q) :
  float_lt (Fin x) (Fin y) = false <-> (y <= x)%Q.
Proof.
  simpl. rewrite negb_false_iff. apply Qle_bool_iff.
Qed.

(** The loop keeps the first of the smallest elements: everything before
    the result is strictly larger, everything after it is at least as
    large. *)
Lemma min_loop_first_minimum (l : list A) :
  forall (best : A) (pre mid : list A),
    (forall x, In x (pre ++ best :: mid ++ l) -> key x = Some (Fin (val x))) ->
    (forall x, In x pre -> (val best < val x)%Q) ->
    (forall x, In x mid -> (val best <= val x)%Q) ->
    exists r pre' post',
      min_loop lt_opt key best (key best) l = Ok r
      /\ (pre ++ best :: mid ++ l = pre' ++ r :: post')%list
      /\ (forall x, In x pre' -> (val r < val x)%Q)
      /\ (forall x, In x post' -> (val r <= val x)%Q).
Proof.
  induction l as [|x l IH]; intros best pre mid Hkey Hpre Hmid.
  - exists best, pre, mid. rewrite app_nil_r. simpl. auto.
  - assert (Hkb : key best = Some (Fin (val best))).
    { apply Hkey. apply in_or_app. right. now left. }
    assert (Hkx : key x = Some (Fin (val x))).
    { apply Hkey. apply in_or_app. right. right.
      apply in_or_app. right. now left. }
    simpl. rewrite Hkx, Hkb. simpl lt_opt. unfold rbind.
    change (negb (Qle_bool (val best) (val x)))
      with (float_lt (Fin (val x)) (Fin (val best))).
    destruct (float_lt (Fin (val x)) (Fin (val best))) eqn:E.
    + apply float_lt_Fin in E.
      destruct (IH x (pre ++ best :: mid)%list []) as (r & pre' & post' & H).
      * intros y Hy. apply Hkey.
        rewrite <- app_assoc in Hy. simpl in Hy. exact Hy.
      * intros y Hy. apply in_app_or in Hy. destruct Hy as [Hy|[Hy|Hy]].
        -- eapply Qlt_trans; [exact E | now apply Hpre].
        -- now subst y.
        -- eapply Qlt_le_trans; [exact E | now apply Hmid].
      * intros y [].
      * exists r, pre', post'. rewrite <- Hkx.
        destruct H as (H1 & H2 & H3 & H4).
        split; [exact H1|]. split; [|split; assumption].
        rewrite <- H2. rewrite <- app_assoc. reflexivity.
    + apply float_lt_Fin_false in E.
      destruct (IH best pre (mid ++ [x])%list) as (r & pre' & post' & H).
      * intros y Hy. apply Hkey.
        rewrite <- app_assoc in Hy. simpl in Hy. exact Hy.
      * exact Hpre.
      * intros y Hy. apply in_app_or in Hy. destruct Hy as [Hy|[Hy|[]]].
        -- now apply Hmid.
        -- now subst y.
      * exists r, pre', post'. rewrite <- Hkb.
        destruct H as (H1 & H2 & H3 & H4).
        split; [exact H1|]. split; [|split; assumption].
        rewrite <- H2. rewrite <- app_assoc. reflexivity.
Qed.

Lemma py_min_first_minimum (l : list A) :
  l <> [] ->
  (forall x, In x l -> key x = Some (Fin (val x))) ->
  exists r pre post,
    py_min lt_opt l key = Ok r
    /\ (l = pre ++ r :: post)%list
    /\ (forall x, In x pre -> (val r < val x)%Q)
    /\ (forall x, In x post -> (val r <= val x)%Q).
Proof.
  destruct l as [|x l]; [congruence|]. intros _ Hkey. simpl.
  destruct (min_loop_first_minimum l x [] []) as (r & pre & post & H).
  - exact Hkey.
  - intros y [].
  - intros y [].
  - exists r, pre, post. exact H.
Qed.

End Min.

End PyFacts.

(** ** Properties of the scoring pipeline ([utils.py]) *)

Module UtilsFacts.
Import Utils.

Lemma count_nonzero_cons (x : bool) (l : list bool) :
  ImageHash.count_nonzero (x :: l)
  = ((if x then 1 else 0) + ImageHash.count_nonzero l)%nat.
Proof. unfold ImageHash.count_nonzero. simpl. now destruct x. Qed.

(** On hashes of one size, [ImageHash.sub] is the Hamming distance. *)
Lemma sub_is_hamming (a b : ImageHash.t) :
  List.length a = List.length b ->
  ImageHash.sub a b = Ok (Z.of_nat (ImageHash.hamming a b)).
Proof.
  intros Hlen. unfold ImageHash.sub.
  rewrite Hlen, Nat.eqb_refl. do 2 f_equal.
  revert b Hlen. induction a as [|x a IH]; intros [|y b] Hlen;
    simpl in *; try discriminate; try reflexivity.
  unfold ImageHash.not_equal in *. simpl. rewrite count_nonzero_cons.
  rewrite (IH b) by congruence. now destruct x, y.
Qed.

Lemma hamming_le (a b : list bool) :
  (ImageHash.hamming a b <= List.length a)%nat.
Proof.
  revert b. induction a as [|x a IH]; intros [|y b]; simpl; try lia.
  specialize (IH b). destruct (Bool.eqb x y); lia.
Qed.

Lemma hamming_sym (a b : list bool) :
  ImageHash.hamming a b = ImageHash.hamming b a.
Proof.
  revert b. induction a as [|x a IH]; intros [|y b]; simpl; try reflexivity.
  rewrite (IH b). now destruct x, y.
Qed.

Lemma hamming_refl (a : list bool) : ImageHash.hamming a a = 0%nat.
Proof.
  induction a as [|x a IH]; simpl; [reflexivity|].
  rewrite IH. now destruct x.
Qed.

(** The score of a distance between 0 and 64 lies between 0 and 100. *)
Lemma score_range (d : Z) :
  (0 <= d <= 64)%Z ->
  (0 <= inject_Z (64 - d) / 64 * 100)%Q
  /\ (inject_Z (64 - d) / 64 * 100 <= 100)%Q.
Proof.
  intros Hd. remember (64 - d)%Z as x eqn:Hx.
  assert (Hx' : (0 <= x <= 64)%Z) by lia. clear Hx Hd.
  unfold Qle, Qdiv, Qmult, Qinv, inject_Z. simpl. lia.
Qed.

(** The binary64 evaluation of the score formula is exact for every
    distance from 0 to 64. *)
Lemma binary64_score_exact (d : Z) :
  (0 <= d <= 64)%Z ->
  exists q, Binary64.to_Q (Binary64.score d) = Some q
            /\ (q == inject_Z (64 - d) / 64 * 100)%Q.
Proof.
  intros Hd.
  assert (Hall : forallb Binary64.score_is_exact
                         (map Z.of_nat (seq 0 65)) = true)
    by (vm_compute; reflexivity).
  rewrite forallb_forall in Hall.
  assert (Hin : In d (map Z.of_nat (seq 0 65))).
  { apply in_map_iff. exists (Z.to_nat d). split; [lia|].
    apply in_seq. lia. }
  specialize (Hall d Hin). unfold Binary64.score_is_exact in Hall.
  destruct (Binary64.to_Q (Binary64.score d)) as [q|]; [|discriminate].
  exists q. split; [reflexivity|]. now apply Qeq_bool_iff.
Qed.

Section Pipeline.

Context {Image ndarray : Type}.
Variable w : World Image ndarray.

Local Abbreviation match_features := (@match_features Image ndarray).

Lemma match_features_phash (a b : ImageHash.t) :
  List.length a = List.length b ->
  match_features (Some a) (Some b) "phash"
  = (Ok [mkMockMatch (Z.of_nat (ImageHash.hamming a b))],
     [call_hash_sub a b]).
Proof.
  intros Hlen. unfold Utils.match_features. simpl.
  unfold call, bind. now rewrite (sub_is_hamming a b Hlen).
Qed.

(** Unfolds one run of [detect_matches] under the answers in the context. *)
Ltac run_pipeline :=
  unfold detect_matches, try_except, extract_features, Utils.match_features,
    bind, call, ret;
  repeat match goal with
         | H : _ = Ok _ |- _ => rewrite H
         | H : _ = Raise _ |- _ => rewrite H
         | H : String.eqb _ _ = _ |- _ => rewrite H
         end;
  simpl.

(** In a well-behaved world [detect_matches] never raises. *)
Lemma detect_matches_well_behaved (p1 p2 : string) :
  well_behaved w ->
  is_ok (fst (detect_matches w p1 p2 "phash")) = true.
Proof.
  intros (Hopen & Hconv & Hhash).
  destruct (Image_open w p1) as [i1|e1] eqn:Ho1.
  2:{ run_pipeline. now rewrite (Hopen p1 e1 Ho1). }
  destruct (Image_open w p2) as [i2|e2] eqn:Ho2.
  2:{ run_pipeline. now rewrite (Hopen p2 e2 Ho2). }
  pose proof (Hconv i1) as Hc1. pose proof (Hconv i2) as Hc2.
  destruct (Image_convert w i1 "L") as [g1|] eqn:E1; [|discriminate].
  destruct (Image_convert w i2 "L") as [g2|] eqn:E2; [|discriminate].
  destruct (Hhash g1) as (h1 & Hh1 & Hl1).
  destruct (Hhash g2) as (h2 & Hh2 & Hl2).
  run_pipeline. rewrite sub_is_hamming by congruence. reflexivity.
Qed.

(** C1: for two 64-bit fingerprints at Hamming distance [d], matching and
    scoring with the pHash method give [(64 - d) / 64 * 100], a value
    between 0 and 100 inclusive. *)
Theorem score_is_normalised_distance (a b : ImageHash.t) (threshold : Q) :
  List.length a = 64%nat ->
  List.length b = 64%nat ->
  exists matches,
    fst (match_features (Some a) (Some b) "phash") = Ok matches
    /\ (calculate_match_score matches "phash" threshold
        == inject_Z (64 - Z.of_nat (ImageHash.hamming a b)) / 64 * 100)%Q
    /\ (0 <= calculate_match_score matches "phash" threshold)%Q
    /\ (calculate_match_score matches "phash" threshold <= 100)%Q.
Proof.
  intros Ha Hb.
  exists [mkMockMatch (Z.of_nat (ImageHash.hamming a b))].
  rewrite match_features_phash by congruence.
  split; [reflexivity|]. simpl.
  split; [reflexivity|].
  apply score_range. pose proof (hamming_le a b). lia.
Qed.

(** C7: the score of two 64-bit fingerprints does not depend on their
    order, and lies between 0 and 100 in both orders. *)
Theorem score_symmetric (a b : ImageHash.t) (threshold : Q) :
  List.length a = 64%nat ->
  List.length b = 64%nat ->
  exists mab mba,
    fst (match_features (Some a) (Some b) "phash") = Ok mab
    /\ fst (match_features (Some b) (Some a) "phash") = Ok mba
    /\ (calculate_match_score mab "phash" threshold
        == calculate_match_score mba "phash" threshold)%Q
    /\ (0 <= calculate_match_score mab "phash" threshold <= 100)%Q
    /\ (0 <= calculate_match_score mba "phash" threshold <= 100)%Q.
Proof.
  intros Ha Hb.
  exists [mkMockMatch (Z.of_nat (ImageHash.hamming a b))],
         [mkMockMatch (Z.of_nat (ImageHash.hamming b a))].
  rewrite !match_features_phash by congruence.
  split; [reflexivity|]. split; [reflexivity|]. simpl.
  split; [now rewrite (hamming_sym a b)|].
  pose proof (hamming_le a b). pose proof (hamming_le b a).
  split; apply score_range; lia.
Qed.

(** C9: when a fingerprint is absent, [match_features] returns the empty
    match list without calling the hash subtraction, whatever the method,
    and [calculate_match_score] maps the empty list to 0: the comparison
    scores 0. *)
Theorem absent_fingerprint_scores_0
    (d : option ImageHash.t) (method : string) (threshold : Q) :
  match_features None d method = (Ok [], [])
  /\ match_features d None method = (Ok [], [])
  /\ calculate_match_score [] method threshold = 0%Q
  /\ (exists matches,
        fst (match_features None d method) = Ok matches
        /\ calculate_match_score matches method threshold = 0%Q)
  /\ (exists matches,
        fst (match_features d None method) = Ok matches
        /\ calculate_match_score matches method threshold = 0%Q).
Proof.
  assert (H1 : match_features None d method = (Ok [], [])) by reflexivity.
  assert (H2 : match_features d None method = (Ok [], []))
    by (now destruct d).
  rewrite H1, H2. simpl.
  repeat split; try reflexivity; exists []; split; reflexivity.
Qed.

(** C6: a fingerprint compared with itself scores 100, and so does
    [detect_matches] on twice the same readable image file. *)
Theorem self_match_scores_100
    (p : string) (i g : Image) (h : ImageHash.t) :
  Image_open w p = Ok i ->
  Image_convert w i "L" = Ok g ->
  phash w g = Ok h ->
  (exists matches,
      fst (match_features (Some h) (Some h) "phash") = Ok matches
      /\ (calculate_match_score matches "phash" default_threshold == 100)%Q)
  /\ exists score,
      fst (detect_matches w p p "phash") = Ok score /\ (score == 100)%Q.
Proof.
  intros Hopen Hconv Hhash.
  assert (Hsub : ImageHash.sub h h = Ok 0%Z).
  { rewrite sub_is_hamming by reflexivity. now rewrite hamming_refl. }
  split.
  - exists [mkMockMatch 0]. unfold Utils.match_features, bind, call. simpl.
    rewrite Hsub. simpl. split; reflexivity.
  - exists (inject_Z (64 - 0) / 64 * 100)%Q.
    split; [|reflexivity].
    run_pipeline. rewrite Hsub. reflexivity.
Qed.

(** C10: with a method other than ['phash'], [detect_matches] returns 0 on
    every pair of readable images (the two paths may be equal): no
    fingerprint is extracted, nothing is matched, and the empty match list
    scores 0. *)
Theorem other_method_scores_0
    (method p1 p2 : string) (i1 i2 g1 g2 : Image) (threshold : Q) :
  method <> "phash" ->
  Image_open w p1 = Ok i1 ->
  Image_open w p2 = Ok i2 ->
  Image_convert w i1 "L" = Ok g1 ->
  Image_convert w i2 "L" = Ok g2 ->
  detect_matches w p1 p2 method
  = (Ok 0%Q, [call_Image_open p1; call_Image_open p2;
              call_convert i1 "L"; call_convert i2 "L"])
  /\ extract_features w (PIL g1) method = (Ok (None, None), [])
  /\ extract_features w (PIL g2) method = (Ok (None, None), [])
  /\ match_features None None method = (Ok [], [])
  /\ calculate_match_score [] method threshold = 0%Q.
Proof.
  intros Hm Ho1 Ho2 Hc1 Hc2.
  apply String.eqb_neq in Hm.
  split; [|repeat split]; try reflexivity.
  - run_pipeline. reflexivity.
  - unfold extract_features. now rewrite Hm.
  - unfold extract_features. now rewrite Hm.
Qed.


End Pipeline.

End UtilsFacts.

(** ** Properties of the evaluation driver ([detect.py]) *)

Module DetectFacts.
Import Utils Pandas Detect PyFacts.

Section Monad.

Context {Image ndarray : Type}.
Local Abbreviation M := (Utils.M Image ndarray).

Lemma fst_bind {A B} (m : M A) (f : A -> M B) :
  fst (bind m f) = rbind (fst m) (fun a => fst (f a)).
Proof.
  destruct m as [[a|e] t]; simpl; [|reflexivity].
  now destruct (f a).
Qed.

Lemma fst_foldM {A S} (f : S -> A -> M S) (l : list A) (s : S) :
  fst (foldM f l s) = foldR (fun s x => fst (f s x)) l s.
Proof.
  revert s. induction l as [|x l IH]; intros s; simpl; [reflexivity|].
  rewrite fst_bind. destruct (fst (f s x)); simpl; auto.
Qed.

Lemma foldM_cons {A S} (f : S -> A -> M S) (x : A) (l : list A) (s : S) :
  foldM f (x :: l) s = bind (f s x) (foldM f l).
Proof. reflexivity. Qed.

Lemma bind_ok {A B} (m : M A) (f : A -> M B) (a : A) (t : list _) :
  m = (Ok a, t) -> bind m f = (fst (f a), (t ++ snd (f a))%list).
Proof. intros ->. simpl. now destruct (f a). Qed.

End Monad.

Section Cells.

Context {Image ndarray : Type}.
Variable w : World Image ndarray.
Local Abbreviation M := (Utils.M Image ndarray).

Lemma append_to_present (results : dict (list cell)) (k : string)
    (col : list cell) (v : cell) :
  dict_get results k = Some col ->
  @append_to Image ndarray results k v
  = (Ok (dict_set results k (col ++ [v])), []).
Proof. intros H. unfold append_to. now rewrite H. Qed.

(** [process_cell] computes the score of the cell, then appends it. *)
Lemma process_cell_score (manipulated orig_path image_id : string)
    (results : dict (list cell)) (letter manip_name : string) :
  fst (process_cell w manipulated orig_path image_id results
                    (letter, manip_name))
  = rbind (fst (cell_score w manipulated orig_path image_id letter))
          (fun q => fst (@append_to Image ndarray results manip_name (Num q))).
Proof.
  unfold process_cell, cell_score. rewrite !fst_bind. simpl.
  destruct (os_path_exists w _); simpl; [|reflexivity].
  now rewrite fst_bind.
Qed.

(** C2: when the manipulated file of a cell is absent, the cell gets
    score 0, the only call made is the existence test (no image is opened,
    converted or hashed, no distance computed), nothing is raised, and the
    inner loop goes on with the next cell. *)
Theorem missing_file_scores_0
    (manipulated orig_path image_id letter manip_name : string)
    (results : dict (list cell)) (col : list cell)
    (rest : list (string * string)) :
  os_path_exists w
    (os_path_join manipulated (image_id ++ letter ++ ".jpg")%string) = false ->
  dict_get results manip_name = Some col ->
  process_cell w manipulated orig_path image_id results (letter, manip_name)
  = (Ok (dict_set results manip_name (col ++ [Num 0])),
     [call_exists
        (os_path_join manipulated (image_id ++ letter ++ ".jpg")%string)])
  /\ foldM (process_cell w manipulated orig_path image_id)
           ((letter, manip_name) :: rest) results
     = (fst (foldM (process_cell w manipulated orig_path image_id) rest
                   (dict_set results manip_name (col ++ [Num 0]))),
        call_exists
          (os_path_join manipulated (image_id ++ letter ++ ".jpg")%string)
        :: snd (foldM (process_cell w manipulated orig_path image_id) rest
                      (dict_set results manip_name (col ++ [Num 0])))).
Proof.
  intros Habsent Hcol.
  assert (Hcell :
    process_cell w manipulated orig_path image_id results (letter, manip_name)
    = (Ok (dict_set results manip_name (col ++ [Num 0])),
       [call_exists
          (os_path_join manipulated (image_id ++ letter ++ ".jpg")%string)])).
  { unfold process_cell, bind, call. rewrite Habsent. simpl.
    now rewrite (append_to_present _ _ _ _ Hcol). }
  split; [exact Hcell|].
  rewrite foldM_cons. now rewrite (bind_ok _ _ _ _ Hcell).
Qed.

(** C3, amended: a manipulated file that is present and that [Image.open]
    rejects with an [OSError] (which includes [UnidentifiedImageError]),
    the original being opened or rejected in the same way, makes
    [detect_matches] return 0 after calling nothing but [Image.open]; the
    cell gets score 0 and nothing is raised. *)
Theorem rejected_file_scores_0
    (manipulated orig_path image_id letter manip_name : string)
    (results : dict (list cell)) (col : list cell) (e : exn) :
  os_path_exists w
    (os_path_join manipulated (image_id ++ letter ++ ".jpg")%string) = true ->
  Image_open w
    (os_path_join manipulated (image_id ++ letter ++ ".jpg")%string)
  = Raise e ->
  isinstance_OSError e = true ->
  match Image_open w orig_path with
  | Ok _ => True
  | Raise e0 => isinstance_OSError e0 = true
  end ->
  dict_get results manip_name = Some col ->
  fst (detect_matches w orig_path
         (os_path_join manipulated (image_id ++ letter ++ ".jpg")%string)
         "phash") = Ok 0%Q
  /\ (forall ev,
         In ev (snd (detect_matches w orig_path
                       (os_path_join manipulated
                          (image_id ++ letter ++ ".jpg")%string) "phash")) ->
         exists p, ev = call_Image_open p)
  /\ fst (process_cell w manipulated orig_path image_id results
                       (letter, manip_name))
     = Ok (dict_set results manip_name (col ++ [Num 0])).
Proof.
  intros Hpresent Hopen He Horig Hcol.
  set (manip_path :=
         os_path_join manipulated (image_id ++ letter ++ ".jpg")%string) in *.
  assert (Hdm : fst (detect_matches w orig_path manip_path "phash") = Ok 0%Q
                /\ forall ev,
                    In ev (snd (detect_matches w orig_path manip_path "phash"))
                    -> exists p, ev = call_Image_open p).
  { unfold detect_matches, try_except, bind, call, ret.
    destruct (Image_open w orig_path) as [i1|e0].
    - rewrite Hopen. simpl. rewrite He. simpl. split; [reflexivity|].
      intros ev [<-|[<-|[]]]; eexists; reflexivity.
    - rewrite Horig. simpl. split; [reflexivity|].
      intros ev [<-|[]]; eexists; reflexivity. }
  destruct Hdm as [Hscore Htrace].
  split; [exact Hscore|]. split; [exact Htrace|].
  rewrite process_cell_score. unfold cell_score. rewrite fst_bind. simpl.
  fold manip_path. rewrite Hpresent. simpl. rewrite Hscore. simpl.
  now rewrite (append_to_present _ _ _ _ Hcol).
Qed.

End Cells.

Section Table.

Context {Image ndarray : Type}.
Variable w : World Image ndarray.
Variable catalogue : dict string.

Lemma in_keys_get {V} (d : dict V) (k : string) :
  In k (keys d) -> exists v, dict_get d k = Some v.
Proof.
  intros Hin. destruct (dict_get d k) as [v|] eqn:E; [eauto|].
  apply dict_get_None in E. contradiction.
Qed.

Lemma in_values {V} (d : dict V) (k : string) (v : V) :
  In (k, v) d -> In v (values d).
Proof. intros H. unfold values. change v with (snd (k, v)). now apply in_map. Qed.

(** One pass of the inner loop appends one score to the column of each
    catalogue entry and leaves the rest of [results] alone. *)
Lemma inner_loop (manipulated orig_path image_id : string)
    (items : list (string * string)) :
  forall results : dict (list cell),
    NoDup (values items) ->
    (forall l n, In (l, n) items ->
       is_ok (fst (cell_score w manipulated orig_path image_id l)) = true) ->
    (forall n, In n (values items) -> In n (keys results)) ->
    exists results',
      fst (foldM (process_cell w manipulated orig_path image_id) items results)
      = Ok results'
      /\ keys results' = keys results
      /\ (forall l n, In (l, n) items ->
            exists col q,
              dict_get results n = Some col
              /\ fst (cell_score w manipulated orig_path image_id l) = Ok q
              /\ dict_get results' n = Some (col ++ [Num q])%list)
      /\ (forall k, ~ In k (values items) ->
            dict_get results' k = dict_get results k).
Proof.
  induction items as [|[l0 n0] items IH]; intros results Hnd Hok Hkeys.
  - exists results. simpl. repeat split; auto. intros l n [].
  - simpl in Hnd. inversion Hnd as [|? ? Hout Hnd']; subst.
    destruct (fst (cell_score w manipulated orig_path image_id l0))
      as [q0|e0] eqn:Hq0.
    2:{ specialize (Hok l0 n0 (or_introl eq_refl)).
        rewrite Hq0 in Hok. discriminate. }
    destruct (in_keys_get results n0) as [col0 Hcol0].
    { apply Hkeys. now left. }
    set (results1 := dict_set results n0 (col0 ++ [Num q0])%list).
    assert (Hk1 : keys results1 = keys results).
    { apply keys_set_present. now apply (dict_get_In _ _ col0). }
    destruct (IH results1 Hnd') as (results' & Hrun & Hk & Hcols & Hrest).
    { intros l n Hin. apply (Hok l n). now right. }
    { intros n Hin. rewrite Hk1. apply Hkeys. now right. }
    exists results'. rewrite foldM_cons, fst_bind, process_cell_score.
    rewrite Hq0. simpl rbind. rewrite (append_to_present _ _ _ _ Hcol0).
    simpl fst. fold results1. split; [exact Hrun|].
    split; [congruence|]. split.
    + intros l n [Heq|Hin].
      * inversion Heq; subst l n. exists col0, q0.
        repeat split; auto. rewrite (Hrest n0 Hout).
        apply dict_get_set_same.
      * destruct (Hcols l n Hin) as (col & q & Hc & Hq & Hc').
        exists col, q. repeat split; auto.
        rewrite <- Hc. symmetry. apply dict_get_set_other.
        intros ->. apply Hout. now apply (in_values _ l).
    + intros k Hk'. simpl in Hk'. rewrite Hrest by tauto.
      apply dict_get_set_other. tauto.
Qed.

Lemma present_cells_scoredb_ok (originals manipulated : string)
    (files : list string) :
  present_cells_scoredb w catalogue originals manipulated files = true ->
  present_cells_scored w catalogue originals manipulated files.
Proof.
  unfold present_cells_scoredb, present_cells_scored.
  intros H f l n Hf Hln. rewrite forallb_forall in H.
  specialize (H f Hf). rewrite forallb_forall in H.
  specialize (H (l, n) Hln). simpl in H. intros Hex.
  rewrite Hex in H. exact H.
Qed.

Lemma well_behaved_cells_scored (originals manipulated : string)
    (files : list string) :
  well_behaved w ->
  present_cells_scored w catalogue originals manipulated files.
Proof.
  intros Hw f l n _ _ image_id manip_path _.
  now apply UtilsFacts.detect_matches_well_behaved.
Qed.

Lemma present_cells_ok (originals manipulated : string)
    (files : list string) :
  present_cells_scored w catalogue originals manipulated files ->
  forall f l n, In f files -> In (l, n) catalogue ->
    is_ok (fst (cell_score w manipulated (os_path_join originals f)
                           (fst (os_path_splitext f)) l)) = true.
Proof.
  intros H f l n Hf Hln. unfold cell_score. rewrite fst_bind. simpl.
  destruct (os_path_exists w _) eqn:E; simpl; [|reflexivity].
  now apply (H f l n).
Qed.

(** The outer loop appends one row: an identifier, and one score per
    catalogue entry. *)
Lemma outer_loop (originals manipulated : string) (files : list string) :
  forall results : dict (list cell),
    NoDup (values catalogue) ->
    ~ In "image_id" (values catalogue) ->
    (forall n, In n (values catalogue) -> In n (keys results)) ->
    In "image_id" (keys results) ->
    present_cells_scored w catalogue originals manipulated files ->
    exists results',
      fst (foldM (process_original w catalogue originals manipulated)
                 files results) = Ok results'
      /\ keys results' = keys results
      /\ (forall l n, In (l, n) catalogue ->
            exists col,
              dict_get results n = Some col
              /\ dict_get results' n
                 = Some (col ++ map (fun f => Num (cell_value w originals
                                                     manipulated f l)) files)%list)
      /\ (exists ids,
            dict_get results "image_id" = Some ids
            /\ dict_get results' "image_id"
               = Some (ids ++ map (fun f => Str (fst (os_path_splitext f)))
                                  files)%list).
Proof.
  induction files as [|f files IH];
    intros results Hnd Hid Hkeys Hidkey Hcells.
  - exists results. simpl. split; [reflexivity|]. split; [reflexivity|].
    split.
    + intros l n Hin. destruct (in_keys_get results n) as [col Hcol].
      { apply Hkeys. now apply (in_values _ l). }
      exists col. now rewrite app_nil_r.
    + destruct (in_keys_get results "image_id" Hidkey) as [ids Hids].
      exists ids. now rewrite app_nil_r.
  - destruct (in_keys_get results "image_id" Hidkey) as [ids Hids].
    set (image_id := fst (os_path_splitext f)).
    set (results0 := dict_set results "image_id" (ids ++ [Str image_id])%list).
    assert (Hk0 : keys results0 = keys results).
    { apply keys_set_present. exact Hidkey. }
    destruct (inner_loop manipulated (os_path_join originals f) image_id
                catalogue results0 Hnd)
      as (results1 & Hrun1 & Hk1 & Hcols1 & Hrest1).
    { intros l n Hin.
      apply (present_cells_ok originals manipulated (f :: files) Hcells f l n);
        [now left | exact Hin]. }
    { intros n Hin. rewrite Hk0. now apply Hkeys. }
    destruct (IH results1 Hnd Hid) as (results' & Hrun & Hk & Hcols & Hids').
    { intros n Hin. rewrite Hk1, Hk0. now apply Hkeys. }
    { now rewrite Hk1, Hk0. }
    { intros f' l n Hf'. apply Hcells. now right. }
    exists results'. rewrite foldM_cons, fst_bind.
    unfold process_original at 1. rewrite fst_bind.
    rewrite (append_to_present _ _ _ _ Hids). simpl rbind.
    fold image_id. fold results0. rewrite Hrun1. simpl rbind.
    split; [exact Hrun|]. split; [congruence|]. split.
    + intros l n Hin.
      destruct (Hcols1 l n Hin) as (col & q & Hc & Hq & Hc1).
      destruct (Hcols l n Hin) as (col' & Hc' & Hres).
      exists col. split.
      * rewrite <- Hc. symmetry. apply dict_get_set_other.
        intros <-. apply Hid. now apply (in_values _ l).
      * rewrite Hres. f_equal.
        assert (col' = (col ++ [Num q])%list) by congruence. subst col'.
        rewrite <- app_assoc. simpl. do 3 f_equal.
        unfold cell_value. fold image_id. now rewrite Hq.
    + exists ids. split; [exact Hids|].
      destruct Hids' as (ids' & Hi1 & Hi').
      rewrite Hi'. f_equal.
      assert (ids' = (ids ++ [Str image_id])%list).
      { rewrite (Hrest1 "image_id" Hid) in Hi1.
        unfold results0 in Hi1. rewrite dict_get_set_same in Hi1.
        congruence. }
      subst ids'. now rewrite <- app_assoc.
Qed.

(** *** Building the table *)

Lemma fold_set_empty (l : list string) :
  forall d : dict (list cell),
    NoDup (keys d ++ l) ->
    keys (fold_left (fun d n => dict_set d n []) l d) = (keys d ++ l)%list
    /\ (forall k, In k l ->
          dict_get (fold_left (fun d n => dict_set d n []) l d) k = Some [])
    /\ (forall k, ~ In k l ->
          dict_get (fold_left (fun d n => dict_set d n []) l d) k
          = dict_get d k).
Proof.
  induction l as [|a l IH]; intros d Hnd.
  - simpl. rewrite app_nil_r. repeat split; auto. intros k [].
  - pose proof (NoDup_remove _ _ _ Hnd) as [_ Hout].
    assert (Hk : keys (dict_set d a []) = (keys d ++ [a])%list).
    { apply keys_set_absent. intros Hin. apply Hout.
      apply in_or_app. now left. }
    destruct (IH (dict_set d a [])) as (IH1 & IH2 & IH3).
    { rewrite Hk, <- app_assoc. exact Hnd. }
    simpl fold_left. split; [|split].
    + rewrite IH1, Hk, <- app_assoc. reflexivity.
    + intros k Hin. destruct (in_dec string_dec k l) as [Hl|Hl]; [auto|].
      destruct Hin as [<-|Hin]; [|contradiction].
      rewrite (IH3 a Hl). apply dict_get_set_same.
    + intros k Hk'. simpl in Hk'. rewrite IH3 by tauto.
      apply dict_get_set_other. tauto.
Qed.

Lemma initial_results_spec (names : list string) :
  NoDup names ->
  ~ In "image_id" names ->
  keys (initial_results names) = (names ++ ["image_id"])%list
  /\ forall k, In k (names ++ ["image_id"])%list ->
               dict_get (initial_results names) k = Some [].
Proof.
  intros Hnd Hid.
  destruct (fold_set_empty names [] Hnd) as (H1 & H2 & H3).
  simpl in H1. unfold initial_results. split.
  - rewrite keys_set_absent; rewrite H1; auto.
  - intros k Hin. apply in_app_or in Hin. destruct Hin as [Hin|[<-|[]]].
    + rewrite dict_get_set_other; [now apply H2|].
      intros <-. contradiction.
    + apply dict_get_set_same.
Qed.

Lemma DataFrame_of_dict_ok (d : dict (list cell)) (n : nat) :
  d <> [] ->
  NoDup (keys d) ->
  (forall k, In k (keys d) ->
     exists col, dict_get d k = Some col /\ List.length col = n) ->
  DataFrame_of_dict d = Ok (mkDataFrame d n).
Proof.
  destruct d as [|[k0 c0] rest]; [congruence|]. intros _ Hnd Hcols.
  assert (H0 : List.length c0 = n).
  { destruct (Hcols k0) as (col & Hget & Hlen); [now left|].
    simpl in Hget. rewrite String.eqb_refl in Hget. congruence. }
  unfold DataFrame_of_dict.
  assert (Hall : forallb (fun kc => (List.length (snd kc) =? List.length c0)%nat)
                         rest = true).
  { apply forallb_forall. intros [k c] Hin. simpl. apply Nat.eqb_eq.
    destruct (Hcols k) as (col & Hget & Hlen).
    { right. unfold keys. change k with (fst (k, c)). now apply in_map. }
    rewrite (dict_get_entry ((k0, c0) :: rest) k c Hnd) in Hget
      by (now right).
    congruence. }
  rewrite Hall. now rewrite H0.
Qed.

Lemma mapR_map {A B} (f : A -> result B) (g : A -> B) (l : list A) :
  (forall x, In x l -> f x = Ok (g x)) -> mapR f l = Ok (map g l).
Proof.
  induction l as [|x l IH]; intros H; simpl; [reflexivity|].
  rewrite (H x) by (now left). simpl.
  rewrite IH by (intros y Hy; apply H; now right). reflexivity.
Qed.

Lemma mapR_ok {A B} (f : A -> result B) (l : list A) :
  (forall x, In x l -> is_ok (f x) = true) ->
  exists ys, mapR f l = Ok ys /\ List.length ys = List.length l.
Proof.
  induction l as [|x l IH]; intros H; simpl; [now exists []|].
  destruct (f x) as [y|e] eqn:E.
  2:{ specialize (H x (or_introl eq_refl)). rewrite E in H. discriminate. }
  destruct IH as (ys & Hys & Hlen); [intros z Hz; apply H; now right|].
  exists (y :: ys). simpl. rewrite Hys. simpl. auto.
Qed.

Lemma numbers_ok (col : list cell) :
  Forall is_Flt col -> exists qs, numbers col = Ok qs.
Proof.
  induction 1 as [|c col Hc _ IH]; simpl; [now exists []|].
  destruct c as [s|[q|]]; [contradiction| |exact IH].
  destruct IH as (qs & ->). now exists (q :: qs).
Qed.

Lemma mean_ok (col : list cell) :
  Forall is_Flt col -> is_ok (mean col) = true.
Proof.
  intros H. destruct (numbers_ok col H) as (qs & Hqs).
  unfold mean. rewrite Hqs. simpl. now destruct qs.
Qed.

Lemma numbers_Num (qs : list Q) : numbers (map Num qs) = Ok qs.
Proof.
  induction qs as [|q qs IH]; simpl; [reflexivity|]. now rewrite IH.
Qed.

Lemma mean_Num (qs : list Q) :
  qs <> [] ->
  mean (map Num qs)
  = Ok (Fin (Qsum qs / inject_Z (Z.of_nat (List.length qs)))).
Proof.
  intros Hne. unfold mean. rewrite numbers_Num. simpl.
  destruct qs; [congruence | reflexivity].
Qed.

Lemma nth_is_Flt (i : nat) (col : list cell) :
  Forall is_Flt col -> is_Flt (nth i col (Flt NaN)).
Proof.
  intros H. revert i. induction H as [|c col Hc _ IH]; intros [|i]; simpl;
    auto.
Qed.

(** *** The result table *)

(** The value of [evaluate], without its trace. *)
Lemma fst_evaluate (originals manipulated output : string) :
  fst (evaluate w catalogue originals manipulated output)
  = rbind (os_makedirs w output) (fun _ =>
    rbind (os_listdir w originals) (fun listing =>
    rbind (fst (foldM (process_original w catalogue originals manipulated)
                      (sorted (filter is_original listing))
                      (initial_results (values catalogue)))) (fun results =>
    rbind (DataFrame_of_dict results) (fun df =>
    rbind (mean_axis1 (setitem_scalar df "method" (Str "phash"))
                      (values catalogue)) (fun avg =>
    Ok (setitem (setitem_scalar df "method" (Str "phash"))
                "avg_score" avg)))))).
Proof.
  unfold evaluate, bind, call, ret.
  destruct (os_makedirs w output) as [u|e]; simpl; [|reflexivity].
  destruct (os_listdir w originals) as [listing|e]; simpl; [|reflexivity].
  destruct (foldM _ _ _) as [[results|e] t]; simpl; [|reflexivity].
  destruct (DataFrame_of_dict results) as [df|e]; simpl; [|reflexivity].
  destruct (mean_axis1 _ _) as [avg|e]; reflexivity.
Qed.

Lemma evaluate_table (originals manipulated output : string)
    (listing : list string) :
  NoDup (values catalogue) ->
  (forall k, In k own_columns -> ~ In k (values catalogue)) ->
  is_ok (os_makedirs w output) = true ->
  os_listdir w originals = Ok listing ->
  present_cells_scored w catalogue originals manipulated
                       (sorted (filter is_original listing)) ->
  exists df,
    fst (evaluate w catalogue originals manipulated output) = Ok df
    /\ nrows df = List.length (sorted (filter is_original listing))
    /\ keys (columns df) = (values catalogue ++ own_columns)%list
    /\ getitem df "image_id"
       = Ok (map (fun f => Str (fst (os_path_splitext f)))
                 (sorted (filter is_original listing)))
    /\ (forall l n, In (l, n) catalogue ->
          getitem df n
          = Ok (map (fun f => Num (cell_value w originals manipulated f l))
                    (sorted (filter is_original listing)))).
Proof.
  intros Hnd Hown Hmk Hls Hcells.
  set (files := sorted (filter is_original listing)) in *.
  set (names := values catalogue) in *.
  assert (Hid : ~ In "image_id" names) by (apply Hown; simpl; auto).
  assert (Hmeth : ~ In "method" names) by (apply Hown; simpl; auto).
  assert (Havg : ~ In "avg_score" names) by (apply Hown; simpl; auto).
  destruct (initial_results_spec names Hnd Hid) as (Hk0 & Hget0).
  destruct (outer_loop originals manipulated files (initial_results names)
              Hnd Hid)
    as (results & Hrun & Hk & Hcols & (ids & Hids0 & Hids)); auto.
  { intros n Hin. rewrite Hk0. apply in_or_app. now left. }
  { rewrite Hk0. apply in_or_app. right. now left. }
  rewrite Hk0 in Hk.
  assert (Hcol : forall l n, In (l, n) catalogue ->
            dict_get results n
            = Some (map (fun f => Num (cell_value w originals manipulated f l))
                        files)).
  { intros l n Hin. destruct (Hcols l n Hin) as (col & Hc & Hres).
    rewrite Hget0 in Hc.
    2:{ apply in_or_app. left. now apply (in_values _ l). }
    rewrite Hres. inversion Hc. reflexivity. }
  assert (Hidcol : dict_get results "image_id"
                   = Some (map (fun f => Str (fst (os_path_splitext f))) files)).
  { rewrite Hids. rewrite Hget0 in Hids0.
    2:{ apply in_or_app. right. now left. }
    inversion Hids0. reflexivity. }
  assert (Hndk : NoDup (keys results)).
  { rewrite Hk. apply NoDup_app; [exact Hnd | repeat constructor; auto |].
    intros x Hx [<-|[]]. contradiction. }
  assert (HDF : DataFrame_of_dict results
                = Ok (mkDataFrame results (List.length files))).
  { apply DataFrame_of_dict_ok; auto.
    - intros ->. destruct names; discriminate.
    - intros k Hin. rewrite Hk in Hin. apply in_app_or in Hin.
      destruct Hin as [Hin|[<-|[]]].
      + unfold names, values in Hin. apply in_map_iff in Hin.
        destruct Hin as ([l n] & <- & Hin). simpl.
        rewrite (Hcol l n Hin). eexists. split; [reflexivity|].
        now rewrite length_map.
      + rewrite Hidcol. eexists. split; [reflexivity|].
        now rewrite length_map. }
  set (df1 := setitem_scalar (mkDataFrame results (List.length files))
                             "method" (Str "phash")).
  assert (Hget1 : forall k, k <> "method" ->
            dict_get (columns df1) k = dict_get results k).
  { intros k Hne. unfold df1, setitem_scalar. simpl.
    apply dict_get_set_other. congruence. }
  assert (Hmean : exists avg, mean_axis1 df1 names = Ok avg).
  { unfold mean_axis1.
    rewrite (mapR_map (getitem df1)
               (fun n => match dict_get results n with
                         | Some c => c
                         | None => []
                         end)).
    2:{ intros n Hin. unfold getitem. rewrite Hget1 by congruence.
        unfold names, values in Hin. apply in_map_iff in Hin.
        destruct Hin as ([l n'] & <- & Hin). simpl.
        now rewrite (Hcol l n' Hin). }
    simpl rbind.
    destruct (mapR_ok
                (fun i => rbind (mean (map (fun col => nth i col (Flt NaN))
                     (map (fun n => match dict_get results n with
                                    | Some c => c
                                    | None => []
                                    end) names)))
                   (fun m => Ok (Flt m)))
                (seq 0 (nrows df1))) as (avg & Havg' & _).
    - intros i _.
      assert (Hm : is_ok (mean (map (fun col => nth i col (Flt NaN))
                     (map (fun n => match dict_get results n with
                                    | Some c => c
                                    | None => []
                                    end) names))) = true).
      { apply mean_ok. apply Forall_forall. intros c Hc.
        apply in_map_iff in Hc. destruct Hc as (col & <- & Hc).
        apply in_map_iff in Hc. destruct Hc as (n & <- & Hn).
        unfold names, values in Hn. apply in_map_iff in Hn.
        destruct Hn as ([l n'] & <- & Hin). simpl.
        rewrite (Hcol l n' Hin). apply nth_is_Flt.
        apply Forall_forall. intros c Hc. apply in_map_iff in Hc.
        now destruct Hc as (f & <- & _). }
      destruct (mean _); [reflexivity | discriminate].
    - now exists avg. }
  destruct Hmean as (avg & Hmean).
  exists (setitem df1 "avg_score" avg).
  split.
  { rewrite fst_evaluate.
    destruct (os_makedirs w output) as [u|e]; [|discriminate].
    unfold rbind at 1. rewrite Hls. unfold rbind at 1.
    fold files. fold names. rewrite Hrun. unfold rbind at 1.
    rewrite HDF. unfold rbind at 1. fold df1. rewrite Hmean.
    reflexivity. }
  split; [reflexivity|].
  split.
  { unfold setitem, df1, setitem_scalar. simpl columns.
    rewrite keys_set_absent.
    - rewrite keys_set_absent.
      + rewrite Hk, <- !app_assoc. reflexivity.
      + rewrite Hk. intros Hin. apply in_app_or in Hin.
        destruct Hin as [Hin|[Heq|[]]]; [contradiction | discriminate].
    - rewrite keys_set_absent.
      + rewrite Hk. intros Hin. apply in_app_or in Hin.
        destruct Hin as [Hin|[Heq|[]]].
        * apply in_app_or in Hin.
          destruct Hin as [Hin|[Heq|[]]]; [contradiction | discriminate].
        * discriminate.
      + rewrite Hk. intros Hin. apply in_app_or in Hin.
        destruct Hin as [Hin|[Heq|[]]]; [contradiction | discriminate]. }
  split.
  { unfold getitem, setitem. simpl columns.
    rewrite dict_get_set_other by discriminate.
    rewrite Hget1 by discriminate. now rewrite Hidcol. }
  intros l n Hin. unfold getitem, setitem. simpl columns.
  assert (Hn : In n names) by (now apply (in_values _ l)).
  rewrite dict_get_set_other by (intros <-; contradiction).
  rewrite Hget1 by (intros ->; contradiction).
  now rewrite (Hcol l n Hin).
Qed.

Lemma cell_value_missing (originals manipulated orig_file letter : string) :
  os_path_exists w
    (os_path_join manipulated
       (fst (os_path_splitext orig_file) ++ letter ++ ".jpg")%string) = false ->
  cell_value w originals manipulated orig_file letter = 0%Q.
Proof.
  intros H. unfold cell_value, cell_score, bind, call. now rewrite H.
Qed.

(** C4: with [M] original images and a catalogue of [K] manipulation types,
    [evaluate] returns a table of [M] rows, one per original in sorted
    file-name order, with [K] score columns (in catalogue order, before the
    three columns of the driver's own), every cell holding a number, 0 for
    a missing manipulated file; no condition is put on how many
    manipulated files are missing. *)
Theorem table_is_complete (originals manipulated output : string)
    (listing : list string) :
  NoDup (values catalogue) ->
  (forall k, In k own_columns -> ~ In k (values catalogue)) ->
  is_ok (os_makedirs w output) = true ->
  os_listdir w originals = Ok listing ->
  present_cells_scored w catalogue originals manipulated
                       (sorted (filter is_original listing)) ->
  exists df,
    fst (evaluate w catalogue originals manipulated output) = Ok df
    /\ nrows df = List.length (filter is_original listing)
    /\ Sorted str_le (sorted (filter is_original listing))
    /\ Permutation (sorted (filter is_original listing))
                   (filter is_original listing)
    /\ getitem df "image_id"
       = Ok (map (fun f => Str (fst (os_path_splitext f)))
                 (sorted (filter is_original listing)))
    /\ keys (columns df) = (values catalogue ++ own_columns)%list
    /\ List.length (values catalogue) = List.length catalogue
    /\ (forall l n, In (l, n) catalogue ->
          exists col,
            getitem df n = Ok col
            /\ List.length col = List.length (filter is_original listing)
            /\ Forall (fun c => exists q, c = Num q) col
            /\ col = map (fun f => Num (cell_value w originals manipulated f l))
                         (sorted (filter is_original listing)))
    /\ (forall f l,
          os_path_exists w
            (os_path_join manipulated
               (fst (os_path_splitext f) ++ l ++ ".jpg")%string) = false ->
          cell_value w originals manipulated f l = 0%Q).
Proof.
  intros Hnd Hown Hmk Hls Hcells.
  destruct (evaluate_table originals manipulated output listing
              Hnd Hown Hmk Hls Hcells) as (df & Hrun & Hrows & Hk & Hid & Hcol).
  exists df. split; [exact Hrun|].
  split; [now rewrite Hrows, sorted_length|].
  split; [apply sorted_sorted|]. split; [apply sorted_perm|].
  split; [exact Hid|]. split; [exact Hk|].
  split; [apply length_map|]. split.
  - intros l n Hin. eexists. split; [apply (Hcol l n Hin)|].
    split; [now rewrite length_map, sorted_length|].
    split; [|reflexivity].
    apply Forall_forall. intros c Hc. apply in_map_iff in Hc.
    destruct Hc as (f & <- & _). eexists. reflexivity.
  - intros f l. apply cell_value_missing.
Qed.

(** *** The hardest manipulation *)

Lemma fst_run (originals manipulated output : string) :
  fst (run w catalogue originals manipulated output)
  = rbind (fst (evaluate w catalogue originals manipulated output)) (fun df =>
    rbind (average_scores df (values catalogue)) (fun avg_scores =>
    rbind (hardest avg_scores) (fun h => Ok (df, avg_scores, h)))).
Proof.
  unfold run, bind, ret.
  destruct (evaluate _ _ _ _ _) as [[df|e] t]; simpl; [|reflexivity].
  destruct (average_scores _ _) as [avg|e]; simpl; [|reflexivity].
  destruct (hardest avg) as [h|e]; reflexivity.
Qed.

Lemma average_scores_fold (df : DataFrame) (mu : string -> pyfloat)
    (names : list string) :
  forall acc : dict pyfloat,
    NoDup (keys acc ++ names) ->
    (forall n, In n names -> column_mean df n = Ok (mu n)) ->
    exists avg,
      foldR (fun acc n =>
               rbind (column_mean df n) (fun m => Ok (dict_set acc n m)))
            names acc = Ok avg
      /\ keys avg = (keys acc ++ names)%list
      /\ (forall n, In n names -> dict_get avg n = Some (mu n))
      /\ (forall k, ~ In k names -> dict_get avg k = dict_get acc k).
Proof.
  induction names as [|a names IH]; intros acc Hnd Hmu.
  - exists acc. simpl. rewrite app_nil_r. repeat split; auto. intros n [].
  - pose proof (NoDup_remove _ _ _ Hnd) as [_ Hout].
    assert (Hk : keys (dict_set acc a (mu a)) = (keys acc ++ [a])%list).
    { apply keys_set_absent. intros Hin. apply Hout.
      apply in_or_app. now left. }
    destruct (IH (dict_set acc a (mu a))) as (avg & Hrun & H1 & H2 & H3).
    { rewrite Hk, <- app_assoc. exact Hnd. }
    { intros n Hn. apply Hmu. now right. }
    exists avg. simpl foldR. rewrite (Hmu a) by (now left). simpl rbind.
    split; [exact Hrun|]. split; [|split].
    + rewrite H1, Hk, <- app_assoc. reflexivity.
    + intros n Hin.
      destruct (in_dec string_dec n names) as [Hl|Hl]; [auto|].
      destruct Hin as [<-|Hin]; [|contradiction].
      rewrite (H3 a Hl). apply dict_get_set_same.
    + intros k Hk'. simpl in Hk'. rewrite H3 by tauto.
      apply dict_get_set_other. tauto.
Qed.

(** On a dictionary of means that are all numbers, [hardest] returns the
    first key of least mean. *)
Lemma hardest_first_minimum (avg_scores : dict pyfloat) (val : string -> Q) :
  avg_scores <> [] ->
  (forall n, In n (keys avg_scores) ->
     dict_get avg_scores n = Some (Fin (val n))) ->
  exists name pre post,
    hardest avg_scores = Ok (name, Fin (val name))
    /\ keys avg_scores = (pre ++ name :: post)%list
    /\ (forall n, In n pre -> (val name < val n)%Q)
    /\ (forall n, In n post -> (val name <= val n)%Q).
Proof.
  intros Hne Hval.
  destruct (py_min_first_minimum (dict_get avg_scores) val (keys avg_scores))
    as (r & pre & post & Hmin & Hsplit & Hpre & Hpost).
  - destruct avg_scores; [congruence | discriminate].
  - exact Hval.
  - exists r, pre, post. unfold hardest. rewrite Hmin. simpl.
    rewrite Hval.
    + repeat split; auto.
    + rewrite Hsplit. apply in_or_app. right. now left.
Qed.

(** C5: the manipulation that the driver reports as hardest has the least
    column mean; the catalogue types before it have a strictly larger mean,
    those after it a mean at least as large (first minimum in catalogue
    order).  The reported score is that mean. *)
Theorem hardest_is_first_minimum (originals manipulated output : string)
    (listing : list string) :
  NoDup (values catalogue) ->
  (forall k, In k own_columns -> ~ In k (values catalogue)) ->
  catalogue <> [] ->
  is_ok (os_makedirs w output) = true ->
  os_listdir w originals = Ok listing ->
  filter is_original listing <> [] ->
  present_cells_scored w catalogue originals manipulated
                       (sorted (filter is_original listing)) ->
  exists df avg_scores name m pre post,
    fst (run w catalogue originals manipulated output)
    = Ok (df, avg_scores, (name, Fin m))
    /\ values catalogue = (pre ++ name :: post)%list
    /\ column_mean df name = Ok (Fin m)
    /\ (forall n, In n pre ->
          exists mn, column_mean df n = Ok (Fin mn) /\ (m < mn)%Q)
    /\ (forall n, In n post ->
          exists mn, column_mean df n = Ok (Fin mn) /\ (m <= mn)%Q).
Proof.
  intros Hnd Hown Hcat Hmk Hls Hfiles Hcells.
  destruct (evaluate_table originals manipulated output listing
              Hnd Hown Hmk Hls Hcells) as (df & Hrun & Hrows & Hk & Hid & Hcol).
  set (val := fun n => match column_mean df n with
                       | Ok (Fin q) => q
                       | _ => 0%Q
                       end).
  assert (Hmean : forall n, In n (values catalogue) ->
            column_mean df n = Ok (Fin (val n))).
  { intros n Hin. unfold values in Hin. apply in_map_iff in Hin.
    destruct Hin as ([l n'] & <- & Hin). simpl.
    assert (Hm : exists q, column_mean df n' = Ok (Fin q)).
    { unfold column_mean. rewrite (Hcol l n' Hin). simpl rbind.
      pose proof (sorted_perm (filter is_original listing)) as Hp.
      destruct (sorted (filter is_original listing)) as [|f files].
      - exfalso. apply Hfiles. now apply Permutation_nil.
      - rewrite <- (map_map (fun f => cell_value w originals manipulated f l)
                            Num).
        rewrite mean_Num by discriminate. eexists. reflexivity. }
    destruct Hm as (q & Hq). unfold val. now rewrite Hq. }
  destruct (average_scores_fold df (fun n => Fin (val n)) (values catalogue) [])
    as (avg & Havg & Hkavg & Hget & _); auto.
  simpl in Hkavg.
  destruct (hardest_first_minimum avg val)
    as (name & pre & post & Hh & Hsplit & Hpre & Hpost).
  { intros ->. destruct catalogue; [congruence | discriminate]. }
  { intros n Hin. apply Hget. now rewrite <- Hkavg. }
  rewrite Hkavg in Hsplit.
  exists df, avg, name, (val name), pre, post.
  split.
  { rewrite fst_run, Hrun. simpl rbind. unfold average_scores.
    rewrite Havg. simpl rbind. now rewrite Hh. }
  split; [exact Hsplit|]. split.
  { apply Hmean. rewrite Hsplit. apply in_or_app. right. now left. }
  split.
  - intros n Hin. exists (val n). split; [|now apply Hpre].
    apply Hmean. rewrite Hsplit. apply in_or_app. now left.
  - intros n Hin. exists (val n). split; [|now apply Hpost].
    apply Hmean. rewrite Hsplit. apply in_or_app. right. now right.
Qed.

End Table.

End DetectFacts.

(** ** The model at work on the sample worlds *)

Module Runs.
Import Utils Pandas Detect Samples.

Example hardest_of_three :
  hardest [("crop", Fin 80); ("blur", Fin 40); ("flip", Fin 95)]
  = Ok ("blur", Fin 40).
Proof. reflexivity. Qed.

Example hardest_tie_goes_to_first :
  hardest [("crop", Fin 95); ("blur", Fin 40); ("flip", Fin 40)]
  = Ok ("blur", Fin 40).
Proof. reflexivity. Qed.

(** Without rows every mean is NaN, no comparison succeeds, and the first
    type of the catalogue is reported. *)
Example hardest_without_rows :
  hardest [("crop", NaN); ("blur", NaN)] = Ok ("crop", NaN).
Proof. reflexivity. Qed.

Example hardest_of_three_rows :
  average_scores three_rows ["rotate"; "flip"]
  = Ok [("rotate", Fin (267 # 3)); ("flip", Fin (70 # 3))]
  /\ rbind (average_scores three_rows ["rotate"; "flip"]) hardest
     = Ok ("flip", Fin (70 # 3)).
Proof. split; reflexivity. Qed.

Example originals_of_small_world :
  sorted (filter is_original ["b.png"; "notes.txt"; "a.jpg"])
  = ["a.jpg"; "b.png"].
Proof. reflexivity. Qed.

Example main_on_small_world :
  exists df avg_scores,
    fst (main small_world "originals" "manipulated" "results")
    = Ok (df, avg_scores, ("rotate_10", Fin (0 # 2)))
    /\ nrows df = 2%nat
    /\ getitem df "crop_20" = Ok [Num (6200 # 64); Num 0]
    /\ getitem df "rotate_10" = Ok [Num 0; Num 0].
Proof. do 2 eexists. vm_compute. repeat split. Qed.

Lemma score_is_normalised_distance_witness :
  List.length (sample_hash 3) = 64%nat
  /\ List.length (sample_hash 10) = 64%nat
  /\ exists matches,
      fst (@match_features nat unit (Some (sample_hash 3))
             (Some (sample_hash 10)) "phash") = Ok matches
      /\ (calculate_match_score matches "phash" default_threshold
          == inject_Z (64 - Z.of_nat (ImageHash.hamming (sample_hash 3)
                                        (sample_hash 10))) / 64 * 100)%Q
      /\ (0 <= calculate_match_score matches "phash" default_threshold)%Q
      /\ (calculate_match_score matches "phash" default_threshold <= 100)%Q.
Proof.
  split; [reflexivity|]. split; [reflexivity|].
  apply (@UtilsFacts.score_is_normalised_distance nat unit
           (sample_hash 3) (sample_hash 10) default_threshold); reflexivity.
Defined.

Lemma score_symmetric_witness :
  List.length (sample_hash 3) = 64%nat
  /\ List.length (sample_hash 10) = 64%nat
  /\ exists mab mba,
      fst (@match_features nat unit (Some (sample_hash 3))
             (Some (sample_hash 10)) "phash") = Ok mab
      /\ fst (@match_features nat unit (Some (sample_hash 10))
                (Some (sample_hash 3)) "phash") = Ok mba
      /\ (calculate_match_score mab "phash" default_threshold
          == calculate_match_score mba "phash" default_threshold)%Q
      /\ (0 <= calculate_match_score mab "phash" default_threshold <= 100)%Q
      /\ (0 <= calculate_match_score mba "phash" default_threshold <= 100)%Q.
Proof.
  split; [reflexivity|]. split; [reflexivity|].
  apply (@UtilsFacts.score_symmetric nat unit
           (sample_hash 3) (sample_hash 10) default_threshold); reflexivity.
Defined.

Lemma self_match_scores_100_witness :
  (exists matches,
      fst (@match_features nat unit (Some (sample_hash 11))
             (Some (sample_hash 11)) "phash") = Ok matches
      /\ (calculate_match_score matches "phash" default_threshold == 100)%Q)
  /\ exists score,
      fst (detect_matches small_world "originals/a.jpg" "originals/a.jpg"
                          "phash") = Ok score
      /\ (score == 100)%Q.
Proof.
  apply (UtilsFacts.self_match_scores_100 small_world "originals/a.jpg"
           1%nat 11%nat (sample_hash 11)); reflexivity.
Defined.

Lemma other_method_scores_0_witness :
  detect_matches small_world "originals/a.jpg" "manipulated/aa.jpg" "sift"
  = (Ok 0%Q, [call_Image_open "originals/a.jpg";
              call_Image_open "manipulated/aa.jpg";
              call_convert 1%nat "L"; call_convert 3%nat "L"])
  /\ extract_features small_world (PIL 11%nat) "sift" = (Ok (None, None), [])
  /\ extract_features small_world (PIL 13%nat) "sift" = (Ok (None, None), [])
  /\ @match_features nat unit None None "sift" = (Ok [], [])
  /\ calculate_match_score [] "sift" default_threshold = 0%Q.
Proof.
  apply (UtilsFacts.other_method_scores_0 small_world "sift"
           "originals/a.jpg" "manipulated/aa.jpg" 1%nat 3%nat 11%nat 13%nat
           default_threshold); [discriminate | reflexivity ..].
Defined.


Lemma missing_file_scores_0_witness :
  process_cell small_world "manipulated" "originals/b.png" "b"
    (initial_results (values MANIPULATION_TYPES)) ("a", "crop_20")
  = (Ok (dict_set (initial_results (values MANIPULATION_TYPES)) "crop_20"
                  ([] ++ [Num 0])),
     [call_exists (os_path_join "manipulated" ("b" ++ "a" ++ ".jpg")%string)])
  /\ foldM (process_cell small_world "manipulated" "originals/b.png" "b")
           [("a", "crop_20"); ("b", "rotate_10")]
           (initial_results (values MANIPULATION_TYPES))
     = (fst (foldM (process_cell small_world "manipulated" "originals/b.png"
                                 "b") [("b", "rotate_10")]
                   (dict_set (initial_results (values MANIPULATION_TYPES))
                             "crop_20" ([] ++ [Num 0]))),
        call_exists (os_path_join "manipulated" ("b" ++ "a" ++ ".jpg")%string)
        :: snd (foldM (process_cell small_world "manipulated"
                                    "originals/b.png" "b")
                      [("b", "rotate_10")]
                      (dict_set (initial_results (values MANIPULATION_TYPES))
                                "crop_20" ([] ++ [Num 0])))).
Proof.
  apply (DetectFacts.missing_file_scores_0 small_world "manipulated"
           "originals/b.png" "b" "a" "crop_20"
           (initial_results (values MANIPULATION_TYPES)) []
           [("b", "rotate_10")]); reflexivity.
Defined.

Lemma rejected_file_scores_0_witness :
  fst (detect_matches small_world "originals/a.jpg"
         (os_path_join "manipulated" ("a" ++ "b" ++ ".jpg")%string) "phash")
  = Ok 0%Q
  /\ (forall ev,
         In ev (snd (detect_matches small_world "originals/a.jpg"
                       (os_path_join "manipulated"
                          ("a" ++ "b" ++ ".jpg")%string) "phash")) ->
         exists p, ev = call_Image_open p)
  /\ fst (process_cell small_world "manipulated" "originals/a.jpg" "a"
            (initial_results (values MANIPULATION_TYPES)) ("b", "rotate_10"))
     = Ok (dict_set (initial_results (values MANIPULATION_TYPES)) "rotate_10"
                    ([] ++ [Num 0])).
Proof.
  apply (DetectFacts.rejected_file_scores_0 small_world "manipulated"
           "originals/a.jpg" "a" "b" "rotate_10"
           (initial_results (values MANIPULATION_TYPES)) []
           UnidentifiedImageError);
    [reflexivity | reflexivity | reflexivity | exact I | reflexivity].
Defined.

Lemma table_is_complete_witness :
  exists df,
    fst (evaluate small_world MANIPULATION_TYPES "originals" "manipulated"
                  "results") = Ok df
    /\ nrows df = List.length (filter is_original small_listing)
    /\ Sorted str_le (sorted (filter is_original small_listing))
    /\ Permutation (sorted (filter is_original small_listing))
                   (filter is_original small_listing)
    /\ getitem df "image_id"
       = Ok (map (fun f => Str (fst (os_path_splitext f)))
                 (sorted (filter is_original small_listing)))
    /\ keys (columns df) = (values MANIPULATION_TYPES ++ own_columns)%list
    /\ List.length (values MANIPULATION_TYPES)
       = List.length MANIPULATION_TYPES
    /\ (forall l n, In (l, n) MANIPULATION_TYPES ->
          exists col,
            getitem df n = Ok col
            /\ List.length col = List.length (filter is_original small_listing)
            /\ Forall (fun c => exists q, c = Num q) col
            /\ col = map (fun f => Num (cell_value small_world "originals"
                                          "manipulated" f l))
                         (sorted (filter is_original small_listing)))
    /\ (forall f l,
          os_path_exists small_world
            (os_path_join "manipulated"
               (fst (os_path_splitext f) ++ l ++ ".jpg")%string) = false ->
          cell_value small_world "originals" "manipulated" f l = 0%Q).
Proof.
  apply (DetectFacts.table_is_complete small_world MANIPULATION_TYPES
           "originals" "manipulated" "results" small_listing).
  - apply PyFacts.distinct_NoDup. reflexivity.
  - apply PyFacts.disjoint_check. reflexivity.
  - reflexivity.
  - reflexivity.
  - apply DetectFacts.present_cells_scoredb_ok. vm_compute. reflexivity.
Defined.

Lemma hardest_is_first_minimum_witness :
  exists df avg_scores name m pre post,
    fst (run small_world MANIPULATION_TYPES "originals" "manipulated"
             "results")
    = Ok (df, avg_scores, (name, Fin m))
    /\ values MANIPULATION_TYPES = (pre ++ name :: post)%list
    /\ column_mean df name = Ok (Fin m)
    /\ (forall n, In n pre ->
          exists mn, column_mean df n = Ok (Fin mn) /\ (m < mn)%Q)
    /\ (forall n, In n post ->
          exists mn, column_mean df n = Ok (Fin mn) /\ (m <= mn)%Q).
Proof.
  apply (DetectFacts.hardest_is_first_minimum small_world MANIPULATION_TYPES
           "originals" "manipulated" "results" small_listing).
  - apply PyFacts.distinct_NoDup. reflexivity.
  - apply PyFacts.disjoint_check. reflexivity.
  - discriminate.
  - reflexivity.
  - reflexivity.
  - discriminate.
  - apply DetectFacts.present_cells_scoredb_ok. vm_compute. reflexivity.
Defined.

(** C3 as stated fails.  In [truncated_world] the file
    [manipulated/ab.jpg] is present and cannot be decoded, the original is
    fine and the directory was enumerated; [detect_matches] raises instead
    of returning 0, and the exception ends the run. *)
Lemma undecodable_file_aborts_run :
  os_path_exists truncated_world "manipulated/ab.jpg" = true
  /\ ~ decodable truncated_world "manipulated/ab.jpg"
  /\ decodable truncated_world "originals/a.jpg"
  /\ is_ok (os_listdir truncated_world "originals") = true
  /\ fst (detect_matches truncated_world "originals/a.jpg"
                         "manipulated/ab.jpg" "phash") = Raise OSError
  /\ fst (main truncated_world "originals" "manipulated" "results")
     = Raise OSError.
Proof.
  split; [reflexivity|]. split.
  { intros (i & g & Hopen & Hconv). vm_compute in Hopen.
    inversion Hopen; subst i. vm_compute in Hconv. discriminate. }
  split; [exists 1%nat, 11%nat; split; reflexivity|].
  split; [reflexivity|]. split; vm_compute; reflexivity.
Qed.


End Runs.

(** ** Properties of the catalogue helpers ([utils.py]) *)

Module HelpersFacts.
Import Utils Pandas Detect Helpers PyFacts.

Section Lookup.

Variable catalogue : dict string.

Lemma dict_get_Some_In {V} (d : dict V) (k : string) (v : V) :
  dict_get d k = Some v -> In (k, v) d.
Proof.
  induction d as [|[k0 v0] d IH]; simpl; [discriminate|].
  destruct (String.eqb k0 k) eqn:E.
  - apply String.eqb_eq in E. intros H. inversion H; subst. now left.
  - intros H. right. now apply IH.
Qed.

Lemma letter_code_loop_In (items : list (string * string)) (n l : string) :
  letter_code_loop items n = Some l -> In (l, n) items.
Proof.
  induction items as [|[l0 n0] items IH]; simpl; [discriminate|].
  destruct (String.eqb n0 n) eqn:E.
  - apply String.eqb_eq in E. intros H. inversion H; subst. now left.
  - intros H. right. now apply IH.
Qed.

Lemma letter_code_loop_None (items : list (string * string)) (n : string) :
  letter_code_loop items n = None <-> ~ In n (values items).
Proof.
  induction items as [|[l0 n0] items IH]; simpl; [tauto|].
  destruct (String.eqb n0 n) eqn:E.
  - apply String.eqb_eq in E. split; [discriminate | tauto].
  - apply String.eqb_neq in E. rewrite IH. tauto.
Qed.

Lemma letter_code_loop_unique (items : list (string * string))
    (n l : string) :
  NoDup (values items) -> In (l, n) items ->
  letter_code_loop items n = Some l.
Proof.
  induction items as [|[l0 n0] items IH]; simpl; [tauto|].
  intros Hnd [Heq|Hin].
  - inversion Heq; subst. now rewrite String.eqb_refl.
  - inversion Hnd as [|? ? Hout Hnd']; subst.
    destruct (String.eqb n0 n) eqn:E; [|now apply IH].
    apply String.eqb_eq in E. subst n0. exfalso. apply Hout.
    unfold values. change n with (snd (l, n)). now apply in_map.
Qed.

(** X1: in a catalogue whose names are distinct, the letter of a type is
    found again from its name:
    [get_manipulation_letter_code (get_manipulation_name l) = l] for every
    letter [l] of the catalogue. *)
Theorem letter_name_letter (letter name : string) :
  NoDup (values catalogue) ->
  dict_get catalogue letter = Some name ->
  get_manipulation_name catalogue letter = name
  /\ get_manipulation_letter_code catalogue
       (get_manipulation_name catalogue letter) = Some letter.
Proof.
  intros Hnd Hget. unfold get_manipulation_name. rewrite Hget.
  split; [reflexivity|].
  apply letter_code_loop_unique; [exact Hnd|].
  now apply dict_get_Some_In.
Qed.

(** X2: a letter that [get_manipulation_letter_code] returns for a name is
    a letter of the catalogue, the name is one of
    [get_all_manipulation_types], and [get_manipulation_name] maps the
    letter back to the name. *)
Theorem name_letter_name (letter name : string) :
  NoDup (keys catalogue) ->
  get_manipulation_letter_code catalogue name = Some letter ->
  In letter (keys catalogue)
  /\ In name (get_all_manipulation_types catalogue)
  /\ get_manipulation_name catalogue letter = name.
Proof.
  intros Hnd Hcode. apply letter_code_loop_In in Hcode.
  split; [|split].
  - unfold keys. change letter with (fst (letter, name)). now apply in_map.
  - unfold get_all_manipulation_types, values.
    change name with (snd (letter, name)). now apply in_map.
  - unfold get_manipulation_name.
    now rewrite (dict_get_entry catalogue letter name Hnd Hcode).
Qed.

(** X3: [get_manipulation_letter_code] returns [None] exactly for the
    names that are no type of the catalogue; a letter outside the
    catalogue is named ['unknown'], and when no type bears that name the
    way back gives [None], not the letter. *)
Theorem unknown_letter_has_no_code (letter : string) :
  ~ In letter (keys catalogue) ->
  ~ In "unknown" (values catalogue) ->
  (forall name,
      get_manipulation_letter_code catalogue name = None
      <-> ~ In name (get_all_manipulation_types catalogue))
  /\ get_manipulation_name catalogue letter = "unknown"
  /\ get_manipulation_letter_code catalogue
       (get_manipulation_name catalogue letter) = None.
Proof.
  intros Hl Hu.
  assert (Hname : get_manipulation_name catalogue letter = "unknown").
  { unfold get_manipulation_name.
    apply dict_get_None in Hl. now rewrite Hl. }
  split; [intros name; apply letter_code_loop_None|].
  split; [exact Hname|]. rewrite Hname.
  now apply letter_code_loop_None.
Qed.

End Lookup.

Section Schema.

Context {Image ndarray : Type}.
Variable w : World Image ndarray.
Variable catalogue : dict string.

Lemma keys_empty_frame (labels : list string) :
  keys (columns (empty_frame labels)) = labels.
Proof.
  unfold empty_frame, keys. simpl. rewrite map_map. simpl. apply map_id.
Qed.

Lemma getitem_empty_frame (labels : list string) (c : string) :
  In c labels -> getitem (empty_frame labels) c = Ok [].
Proof.
  intros Hin. unfold getitem, empty_frame. simpl.
  induction labels as [|c0 labels IH]; simpl; [contradiction|].
  destruct (String.eqb c0 c) eqn:E; [reflexivity|].
  apply String.eqb_neq in E. destruct Hin as [Heq|Hin]; [congruence|].
  now apply IH.
Qed.

(** X4: [create_results_dataframe] declares [image_id], the catalogue's
    names, [method] and [avg_score], with no rows.  The table that [main]
    builds has the same columns in another order: there [image_id] comes
    after the score columns, not first. *)
Theorem declared_columns_of_table (originals manipulated output : string)
    (listing : list string) :
  NoDup (values catalogue) ->
  (forall k, In k own_columns -> ~ In k (values catalogue)) ->
  is_ok (os_makedirs w output) = true ->
  os_listdir w originals = Ok listing ->
  present_cells_scored w catalogue originals manipulated
                       (sorted (filter is_original listing)) ->
  nrows (create_results_dataframe catalogue) = 0%nat
  /\ keys (columns (create_results_dataframe catalogue))
     = ("image_id" :: values catalogue ++ ["method"; "avg_score"])%list
  /\ (forall c, In c (keys (columns (create_results_dataframe catalogue))) ->
                getitem (create_results_dataframe catalogue) c = Ok [])
  /\ exists df,
      fst (evaluate w catalogue originals manipulated output) = Ok df
      /\ Permutation (keys (columns df))
                     (keys (columns (create_results_dataframe catalogue)))
      /\ (catalogue <> [] ->
          keys (columns df)
          <> keys (columns (create_results_dataframe catalogue))).
Proof.
  intros Hnd Hown Hmk Hls Hcells.
  assert (Hkeys : keys (columns (create_results_dataframe catalogue))
                  = ("image_id" :: values catalogue
                     ++ ["method"; "avg_score"])%list).
  { unfold create_results_dataframe. now rewrite keys_empty_frame. }
  split; [reflexivity|]. split; [exact Hkeys|]. split.
  { intros c Hc. unfold create_results_dataframe in *.
    rewrite keys_empty_frame in Hc. now apply getitem_empty_frame. }
  destruct (DetectFacts.evaluate_table w catalogue originals manipulated
              output listing Hnd Hown Hmk Hls Hcells)
    as (df & Hrun & _ & Hk & _).
  exists df. split; [exact Hrun|]. rewrite Hk, Hkeys. unfold own_columns.
  split.
  - symmetry. apply (Permutation_middle (values catalogue)
                       ["method"; "avg_score"] "image_id").
  - intros Hne Heq. destruct catalogue as [|[l n] rest]; [congruence|].
    simpl in Heq. inversion Heq as [[Hn _]].
    apply (Hown "image_id"); [now left | left; simpl; congruence].
Qed.

End Schema.

Section Analysis.

Variable catalogue : dict string.
Variable fsqrt : Q -> Q.

Lemma dict_set_absent {V} (d : dict V) (k : string) (v : V) :
  ~ In k (keys d) -> dict_set d k v = (d ++ [(k, v)])%list.
Proof.
  induction d as [|[k0 v0] d IH]; simpl; [reflexivity|].
  intros Hout. destruct (String.eqb k0 k) eqn:E.
  - apply String.eqb_eq in E. tauto.
  - f_equal. apply IH. tauto.
Qed.

Lemma keys_app {V} (d1 d2 : dict V) :
  keys (d1 ++ d2)%list = (keys d1 ++ keys d2)%list.
Proof. apply map_app. Qed.

(** A column with a mean has all five statistics. *)
Lemma describe_of_mean (df : DataFrame) (n : string) (m : pyfloat) :
  column_mean df n = Ok m ->
  exists st, describe fsqrt df n = Ok st /\ stat_mean st = m.
Proof.
  unfold column_mean, describe.
  destruct (getitem df n) as [col|e]; cbn [rbind]; [|discriminate].
  intros Hm. rewrite Hm. cbn [rbind].
  unfold mean in Hm. unfold median, std, col_min, col_max.
  destruct (numbers col) as [qs|e]; [|discriminate].
  cbn [rbind]. eexists. split; reflexivity.
Qed.

Lemma in_columns_getitem (df : DataFrame) (n : string) :
  in_columns df n = true -> exists col, getitem df n = Ok col.
Proof.
  unfold in_columns, getitem. intros H. apply existsb_eqb_In in H.
  destruct (DetectFacts.in_keys_get (columns df) n H) as (col & Hcol).
  exists col. now rewrite Hcol.
Qed.

Lemma getitem_in_columns (df : DataFrame) (n : string) (col : list cell) :
  getitem df n = Ok col -> in_columns df n = true.
Proof.
  unfold in_columns, getitem. intros H. apply existsb_eqb_In.
  destruct (dict_get (columns df) n) as [c|] eqn:E; [|discriminate].
  now apply (dict_get_In _ _ c).
Qed.

Lemma summarize_fold (df : DataFrame) (st : string -> stats)
    (names : list string) :
  forall acc : dict stats,
    NoDup (keys acc ++ names) ->
    (forall n, In n names -> in_columns df n = true ->
               describe fsqrt df n = Ok (st n)) ->
    foldR (fun summary manip =>
             if in_columns df manip
             then rbind (describe fsqrt df manip) (fun s =>
                  Ok (dict_set summary manip s))
             else Ok summary)
          names acc
    = Ok (acc ++ map (fun n => (n, st n)) (filter (in_columns df) names))%list.
Proof.
  induction names as [|a names IH]; intros acc Hnd Hst.
  - simpl. now rewrite app_nil_r.
  - pose proof (NoDup_remove _ _ _ Hnd) as [Hnd' Hout].
    simpl foldR. simpl filter.
    destruct (in_columns df a) eqn:Ha.
    + rewrite (Hst a) by (auto; now left). simpl rbind.
      rewrite dict_set_absent
        by (intros Hin; apply Hout; apply in_or_app; now left).
      rewrite IH.
      * rewrite <- app_assoc. reflexivity.
      * rewrite keys_app. simpl. rewrite <- app_assoc. exact Hnd.
      * intros n Hn. apply Hst. now right.
    + simpl rbind. apply IH; [exact Hnd'|].
      intros n Hn. apply Hst. now right.
Qed.

Lemma min_loop_lt_float_total {A} (key : A -> pyfloat) (l : list A) :
  forall best best_val,
    exists r, min_loop lt_float key best best_val l = Ok r
              /\ In r (best :: l).
Proof.
  induction l as [|x l IH]; intros best best_val; simpl.
  - exists best. auto.
  - destruct (float_lt (key x) best_val).
    + destruct (IH x (key x)) as (r & Hr & Hin). exists r.
      split; [exact Hr|]. destruct Hin; auto.
    + destruct (IH best best_val) as (r & Hr & Hin). exists r.
      split; [exact Hr|]. destruct Hin; auto.
Qed.

(** X5: [analyze_results] describes the catalogue types that are columns
    of the table and skips the others without raising; the entry it
    returns as hardest is one of the summary; when no type is a column it
    raises [ValueError] (from [min] on an empty summary). *)
Theorem analyze_results_skips_absent (df : DataFrame) (method : string) :
  NoDup (values catalogue) ->
  (forall n col, In n (values catalogue) -> getitem df n = Ok col ->
                 Forall is_Flt col) ->
  match analyze_results catalogue fsqrt df method with
  | Ok (summary, hardest_manip) =>
      keys summary = filter (in_columns df) (values catalogue)
      /\ (forall n, In n (keys summary) ->
            exists st, dict_get summary n = Some st
                       /\ column_mean df n = Ok (stat_mean st))
      /\ In hardest_manip summary
  | Raise e =>
      e = ValueError /\ filter (in_columns df) (values catalogue) = []
  end.
Proof.
  intros Hnd Hnum.
  set (names := values catalogue) in *.
  set (st := fun n => match describe fsqrt df n with
                      | Ok s => s
                      | Raise _ => no_stats
                      end).
  assert (Hst : forall n, In n names -> in_columns df n = true ->
            describe fsqrt df n = Ok (st n)
            /\ column_mean df n = Ok (stat_mean (st n))).
  { intros n Hn Hin. destruct (in_columns_getitem df n Hin) as (col & Hcol).
    pose proof (DetectFacts.mean_ok col (Hnum n col Hn Hcol)) as Hok.
    assert (Hm : exists m, column_mean df n = Ok m).
    { unfold column_mean. rewrite Hcol. simpl.
      destruct (mean col) as [m|]; [now exists m | discriminate]. }
    destruct Hm as (m & Hm).
    destruct (describe_of_mean df n m Hm) as (s & Hs & Hsm).
    unfold st. rewrite Hs. split; [reflexivity|]. now rewrite Hsm. }
  unfold analyze_results, get_all_manipulation_types, summarize.
  fold names.
  rewrite (summarize_fold df st names []).
  2:{ simpl. exact Hnd. }
  2:{ intros n Hn Hin. now apply Hst. }
  simpl app. unfold rbind at 1.
  assert (Hkeys : keys (map (fun n => (n, st n)) (filter (in_columns df) names))
                  = filter (in_columns df) names).
  { unfold keys. rewrite map_map. simpl. apply map_id. }
  destruct (filter (in_columns df) names) as [|n0 present] eqn:Hpres.
  - simpl. split; reflexivity.
  - simpl map. unfold py_min.
    destruct (min_loop_lt_float_total (fun x => stat_mean (snd x))
                (map (fun n => (n, st n)) present) (n0, st n0)
                (stat_mean (snd (n0, st n0)))) as (r & Hr & Hin).
    rewrite Hr. simpl rbind. split; [exact Hkeys|]. split; [|exact Hin].
    intros n Hn.
    change ((n0, st n0) :: map (fun n => (n, st n)) present)
      with (map (fun n => (n, st n)) (n0 :: present)) in *.
    rewrite Hkeys in Hn.
    assert (Hn' : In n (filter (in_columns df) names))
      by (rewrite Hpres; exact Hn).
    apply filter_In in Hn'. destruct Hn' as [Hnn Hcolumn].
    exists (st n). split; [|now apply Hst].
    apply dict_get_entry.
    + rewrite Hkeys. rewrite <- Hpres. now apply NoDup_filter.
    + apply in_map_iff. exists n. split; [reflexivity | exact Hn].
Qed.

Lemma average_scores_inv (df : DataFrame) (names : list string) :
  forall (acc avg : dict pyfloat),
    foldR (fun acc n =>
             rbind (column_mean df n) (fun m => Ok (dict_set acc n m)))
          names acc = Ok avg ->
    forall n, In n names -> is_ok (column_mean df n) = true.
Proof.
  induction names as [|a names IH]; intros acc avg Hrun n Hn;
    [contradiction|].
  simpl in Hrun. destruct (column_mean df a) as [m|e] eqn:Ha;
    [|discriminate].
  simpl in Hrun. destruct Hn as [<-|Hn].
  - now rewrite Ha.
  - now apply (IH _ _ Hrun).
Qed.

(** The two [min] loops take the same branches: the one of [main] over the
    keys with [avg_scores.get], the one of [analyze_results] over the
    items with the ['mean'] entry. *)
Lemma min_loop_agree (key : string -> option pyfloat)
    (st : string -> stats) (l : list string) :
  forall best r,
    (forall n, In n (best :: l) -> key n = Some (stat_mean (st n))) ->
    min_loop lt_opt key best (key best) l = Ok r ->
    min_loop lt_float (fun x => stat_mean (snd x)) (best, st best)
             (stat_mean (st best)) (map (fun n => (n, st n)) l)
    = Ok (r, st r).
Proof.
  induction l as [|x l IH]; intros best r Hkey Hrun.
  - simpl in *. now inversion Hrun.
  - simpl in Hrun. simpl map. simpl min_loop.
    rewrite (Hkey x) in Hrun by (right; now left).
    rewrite (Hkey best) in Hrun by (now left).
    simpl lt_opt in Hrun. unfold lt_float. cbn [rbind snd] in *.
    destruct (float_lt (stat_mean (st x)) (stat_mean (st best))).
    + apply IH.
      * intros n Hn. apply Hkey. destruct Hn; [right; now left|].
        right. now right.
      * now rewrite (Hkey x) by (right; now left).
    + apply IH.
      * intros n Hn. apply Hkey. destruct Hn; [now left|].
        right. now right.
      * now rewrite (Hkey best) by (now left).
Qed.

(** X6: on a table for which [main] computes its means and selects a
    hardest manipulation, [analyze_results] summarises every catalogue
    type and returns the same manipulation as hardest, its ['mean'] being
    the score that [main] reports. *)
Theorem analyze_results_agrees_with_main (df : DataFrame) (method : string)
    (avg_scores : dict pyfloat) (name : string) (score : pyfloat) :
  NoDup (values catalogue) ->
  average_scores df (values catalogue) = Ok avg_scores ->
  hardest avg_scores = Ok (name, score) ->
  exists summary st,
    analyze_results catalogue fsqrt df method = Ok (summary, (name, st))
    /\ stat_mean st = score
    /\ keys summary = values catalogue
    /\ dict_get summary name = Some st.
Proof.
  intros Hnd Havg Hhard.
  set (names := values catalogue) in *.
  set (mu := fun n => match column_mean df n with
                      | Ok m => m
                      | Raise _ => NaN
                      end).
  set (st := fun n => match describe fsqrt df n with
                      | Ok s => s
                      | Raise _ => no_stats
                      end).
  assert (Hmu : forall n, In n names -> column_mean df n = Ok (mu n)).
  { intros n Hn. pose proof (average_scores_inv df names [] avg_scores
                               Havg n Hn) as Hok.
    unfold mu. destruct (column_mean df n); [reflexivity | discriminate]. }
  assert (Hst : forall n, In n names ->
            describe fsqrt df n = Ok (st n) /\ stat_mean (st n) = mu n
            /\ in_columns df n = true).
  { intros n Hn. destruct (describe_of_mean df n (mu n) (Hmu n Hn))
      as (s & Hs & Hsm).
    unfold st. rewrite Hs. split; [reflexivity|]. split; [exact Hsm|].
    pose proof (Hmu n Hn) as Hm. unfold column_mean in Hm.
    destruct (getitem df n) as [col|] eqn:Hcol; [|discriminate].
    now apply (getitem_in_columns df n col). }
  destruct (DetectFacts.average_scores_fold df mu names [])
    as (avg' & Havg' & Hk & Hget & _); [exact Hnd | exact Hmu |].
  unfold average_scores in Havg. rewrite Havg in Havg'.
  inversion Havg'; subst avg'. simpl in Hk.
  assert (Hfilter : filter (in_columns df) names = names).
  { apply forallb_filter_id. apply forallb_forall.
    intros n Hn. now apply Hst. }
  unfold hardest in Hhard.
  destruct (py_min lt_opt (keys avg_scores) (dict_get avg_scores))
    as [r|e] eqn:Hmin; [|discriminate].
  simpl in Hhard.
  destruct (dict_get avg_scores r) as [v|] eqn:Hr; [|discriminate].
  inversion Hhard; subst r v. clear Hhard.
  assert (Hname : In name names).
  { rewrite <- Hk. now apply (dict_get_In _ _ score). }
  exists (map (fun n => (n, st n)) names), (st name).
  assert (Hkeys : keys (map (fun n => (n, st n)) names) = names).
  { unfold keys. rewrite map_map. simpl. apply map_id. }
  split.
  - unfold analyze_results, get_all_manipulation_types, summarize.
    fold names. rewrite (summarize_fold df st names []).
    2:{ exact Hnd. }
    2:{ intros n Hn _. now apply Hst. }
    rewrite Hfilter. simpl app. cbn [rbind].
    rewrite Hk in Hmin. destruct names as [|n0 rest]; [contradiction|].
    simpl map. unfold py_min in *. cbv beta. cbn [snd].
    rewrite (min_loop_agree (dict_get avg_scores) st rest n0 name).
    + reflexivity.
    + intros n Hn. rewrite (Hget n Hn). f_equal. symmetry. now apply Hst.
    + exact Hmin.
  - split.
    + destruct (Hst name Hname) as (_ & Hsm & _). rewrite Hsm.
      rewrite (Hget name Hname) in Hr. congruence.
    + split; [exact Hkeys|].
      apply dict_get_entry; [now rewrite Hkeys|].
      apply in_map_iff. exists name. split; [reflexivity | exact Hname].
Qed.

End Analysis.

End HelpersFacts.

(** ** Properties of the report and of the plotted columns ([detect.py]) *)

Module ReportFacts.
Import Utils Pandas Detect Report PyFacts.

Lemma insert_by_score_perm (x : string * pyfloat)
    (l : list (string * pyfloat)) :
  Permutation (insert_by_score x l) (x :: l).
Proof.
  induction l as [|y l IH]; simpl; [reflexivity|].
  destruct (float_lt (snd y) (snd x)); [|reflexivity].
  rewrite IH. apply perm_swap.
Qed.

Lemma summary_order_perm (avg_scores : dict pyfloat) :
  Permutation (summary_order avg_scores) avg_scores.
Proof.
  induction avg_scores as [|x l IH]; simpl; [reflexivity|].
  unfold summary_order in *. simpl. rewrite insert_by_score_perm.
  now constructor.
Qed.

Lemma insert_by_score_front (x : string * pyfloat)
    (l : list (string * pyfloat)) :
  (forall y, In y l -> float_lt (snd y) (snd x) = false) ->
  insert_by_score x l = x :: l.
Proof.
  destruct l as [|y l]; simpl; [reflexivity|].
  intros H. now rewrite (H y) by (now left).
Qed.

(** The head of the sorted list is the first of the smallest entries. *)
Lemma summary_order_head (pre post : list (string * pyfloat))
    (x : string * pyfloat) :
  (forall y, In y pre -> float_lt (snd x) (snd y) = true) ->
  (forall y, In y post -> float_lt (snd y) (snd x) = false) ->
  exists rest, summary_order (pre ++ x :: post) = x :: rest.
Proof.
  intros Hpre Hpost. induction pre as [|p pre IH].
  - simpl app. exists (summary_order post).
    unfold summary_order. simpl. apply insert_by_score_front.
    intros y Hy. apply Hpost.
    apply (Permutation_in y (summary_order_perm post)). exact Hy.
  - destruct IH as (rest & Hrest).
    { intros y Hy. apply Hpre. now right. }
    exists (insert_by_score p rest).
    change (summary_order ((p :: pre) ++ x :: post))
      with (insert_by_score p (summary_order (pre ++ x :: post))).
    rewrite Hrest. simpl. now rewrite (Hpre p) by (now left).
Qed.

Lemma insert_by_score_hd (x y : string * pyfloat)
    (l : list (string * pyfloat)) :
  score_le y x -> HdRel score_le y l ->
  HdRel score_le y (insert_by_score x l).
Proof.
  intros Hyx Hhd. destruct l as [|z l]; simpl.
  - now constructor.
  - destruct (float_lt (snd z) (snd x)); constructor; auto.
    now inversion Hhd.
Qed.

Lemma insert_by_score_sorted (x : string * pyfloat)
    (l : list (string * pyfloat)) :
  is_Fin (snd x) -> Forall (fun y => is_Fin (snd y)) l ->
  Sorted score_le l -> Sorted score_le (insert_by_score x l).
Proof.
  intros Hx Hfin Hs. induction Hs as [|y l Hs IH Hhd]; simpl.
  - repeat constructor.
  - inversion Hfin as [|? ? Hy Hfin']; subst.
    destruct x as [kx [qx|]]; [|contradiction].
    destruct y as [ky [qy|]]; [|contradiction].
    simpl in *.
    destruct (negb (Qle_bool qx qy)) eqn:E.
    + constructor; [now apply IH|].
      apply insert_by_score_hd; [|exact Hhd].
      unfold score_le. simpl.
      apply float_lt_Fin in E. now apply Qlt_le_weak.
    + constructor; [now constructor|]. constructor.
      unfold score_le. simpl.
      now apply float_lt_Fin_false in E.
Qed.

Lemma summary_order_sorted (avg_scores : dict pyfloat) :
  Forall (fun y => is_Fin (snd y)) avg_scores ->
  Sorted score_le (summary_order avg_scores).
Proof.
  induction 1 as [|x l Hx Hl IH]; simpl; [constructor|].
  unfold summary_order in *. simpl.
  apply insert_by_score_sorted; auto.
  apply Forall_forall. intros y Hy.
  apply (Permutation_in y (summary_order_perm l)) in Hy.
  rewrite Forall_forall in Hl. now apply Hl.
Qed.

(** X7: when every mean is a number, the lines of the summary list the
    manipulation types by ascending mean (each type once), and the first
    line is the manipulation reported as hardest, with its score. *)
Theorem summary_starts_with_hardest (avg_scores : dict pyfloat) :
  avg_scores <> [] ->
  NoDup (keys avg_scores) ->
  Forall (fun y => is_Fin (snd y)) avg_scores ->
  Permutation (summary_order avg_scores) avg_scores
  /\ Sorted score_le (summary_order avg_scores)
  /\ exists name score rest,
      hardest avg_scores = Ok (name, score)
      /\ summary_order avg_scores = (name, score) :: rest.
Proof.
  intros Hne Hnd Hfin.
  split; [apply summary_order_perm|].
  split; [now apply summary_order_sorted|].
  set (val := fun n => match dict_get avg_scores n with
                       | Some (Fin q) => q
                       | _ => 0%Q
                       end).
  assert (Hentry : forall k v, In (k, v) avg_scores -> v = Fin (val k)).
  { intros k v Hin. unfold val.
    rewrite (dict_get_entry avg_scores k v Hnd Hin).
    rewrite Forall_forall in Hfin. specialize (Hfin (k, v) Hin).
    simpl in Hfin. now destruct v. }
  assert (Hval : forall n, In n (keys avg_scores) ->
            dict_get avg_scores n = Some (Fin (val n))).
  { intros n Hn. destruct (DetectFacts.in_keys_get avg_scores n Hn)
      as (v & Hv).
    rewrite Hv. f_equal. apply (Hentry n).
    now apply HelpersFacts.dict_get_Some_In. }
  destruct (DetectFacts.hardest_first_minimum avg_scores val Hne Hval)
    as (name & pre & post & Hh & Hsplit & Hpre & Hpost).
  unfold keys in Hsplit. apply map_eq_app in Hsplit.
  destruct Hsplit as (ipre & itail & Havg & Hkpre & Hktail).
  apply map_eq_cons in Hktail.
  destruct Hktail as ([k v] & ipost & Htail & Hk & Hkpost).
  simpl in Hk. subst k itail.
  assert (Hv : v = Fin (val name)).
  { apply (Hentry name). rewrite Havg. apply in_or_app. right. now left. }
  subst v.
  destruct (summary_order_head ipre ipost (name, Fin (val name)))
    as (rest & Hrest).
  - intros [k v] Hy. simpl.
    assert (Hin : In (k, v) avg_scores)
      by (rewrite Havg; apply in_or_app; now left).
    rewrite (Hentry k v Hin). apply (float_lt_Fin).
    apply Hpre. rewrite <- Hkpre. change k with (fst (k, v)).
    now apply in_map.
  - intros [k v] Hy. simpl.
    assert (Hin : In (k, v) avg_scores)
      by (rewrite Havg; apply in_or_app; right; now right).
    rewrite (Hentry k v Hin). apply (float_lt_Fin_false).
    apply Hpost. rewrite <- Hkpost. change k with (fst (k, v)).
    now apply in_map.
  - exists name, (Fin (val name)), rest. split; [exact Hh|].
    now rewrite Havg.
Qed.

Section Plots.

Context {Image ndarray : Type}.
Variable w : World Image ndarray.
Variable catalogue : dict string.

Lemma plotted_filter (names : list string) :
  (forall k, In k own_columns -> ~ In k names) ->
  filter (fun col => negb (existsb (String.eqb col)
                                   ["image_id"; "method"; "avg_score"]))
         (names ++ own_columns) = names.
Proof.
  intros Hown. rewrite filter_app.
  replace (filter (fun col => negb (existsb (String.eqb col)
                                      ["image_id"; "method"; "avg_score"]))
                  own_columns) with (@nil string) by reflexivity.
  rewrite app_nil_r. apply forallb_filter_id. apply forallb_forall.
  intros n Hn. apply negb_true_iff.
  destruct (existsb (String.eqb n) ["image_id"; "method"; "avg_score"])
    eqn:E; [|reflexivity].
  apply existsb_eqb_In in E. exfalso. now apply (Hown n).
Qed.

(** X8: from the table that [main] builds, the first statement of
    [save_visualization] recovers the catalogue's names, all of them and in
    catalogue order: the plots show the score columns and nothing else. *)
Theorem plotted_columns_are_the_types
    (originals manipulated output : string) (listing : list string) :
  NoDup (values catalogue) ->
  (forall k, In k own_columns -> ~ In k (values catalogue)) ->
  is_ok (os_makedirs w output) = true ->
  os_listdir w originals = Ok listing ->
  present_cells_scored w catalogue originals manipulated
                       (sorted (filter is_original listing)) ->
  exists df,
    fst (evaluate w catalogue originals manipulated output) = Ok df
    /\ plotted_columns df = values catalogue
    /\ forall n, In n (plotted_columns df) ->
                 exists col, getitem df n = Ok col
                             /\ List.length col = nrows df.
Proof.
  intros Hnd Hown Hmk Hls Hcells.
  destruct (DetectFacts.evaluate_table w catalogue originals manipulated
              output listing Hnd Hown Hmk Hls Hcells)
    as (df & Hrun & Hrows & Hk & _ & Hcol).
  assert (Hp : plotted_columns df = values catalogue).
  { unfold plotted_columns. rewrite Hk. now apply plotted_filter. }
  exists df. split; [exact Hrun|]. split; [exact Hp|].
  intros n Hn. rewrite Hp in Hn. unfold values in Hn.
  apply in_map_iff in Hn. destruct Hn as ([l n'] & <- & Hin). simpl.
  rewrite (Hcol l n' Hin). eexists. split; [reflexivity|].
  now rewrite length_map, Hrows.
Qed.

End Plots.

End ReportFacts.

(** ** More on the scoring pipeline ([utils.py]) *)

Module PipelineFacts.
Import Utils PyFacts UtilsFacts.

Lemma hamming_zero (a b : list bool) :
  List.length a = List.length b ->
  (ImageHash.hamming a b = 0%nat <-> a = b).
Proof.
  revert b. induction a as [|x a IH]; intros [|y b] Hlen; simpl in *;
    try discriminate.
  - tauto.
  - specialize (IH b ltac:(congruence)).
    destruct x, y; simpl; split; intros H;
      try discriminate; try (f_equal; apply IH; lia);
      try (inversion H; subst; apply IH; reflexivity).
Qed.

(** The score as a function of the distance. *)
Lemma score_lt (d1 d2 : Z) :
  (d1 < d2)%Z ->
  (inject_Z (64 - d2) / 64 * 100 < inject_Z (64 - d1) / 64 * 100)%Q.
Proof.
  intros H. remember (64 - d1)%Z as x. remember (64 - d2)%Z as y.
  assert (Hxy : (y < x)%Z) by lia. clear - Hxy.
  unfold Qlt, Qdiv, Qmult, Qinv, inject_Z. simpl. lia.
Qed.

Lemma score_eq_100 (d : Z) :
  (inject_Z (64 - d) / 64 * 100 == 100)%Q <-> d = 0%Z.
Proof.
  remember (64 - d)%Z as x.
  assert (Hx : d = 0%Z <-> x = 64%Z) by lia. rewrite Hx. clear.
  unfold Qeq, Qdiv, Qmult, Qinv, inject_Z. simpl. lia.
Qed.

Lemma score_eq_0 (d : Z) :
  (inject_Z (64 - d) / 64 * 100 == 0)%Q <-> d = 64%Z.
Proof.
  remember (64 - d)%Z as x.
  assert (Hx : d = 64%Z <-> x = 0%Z) by lia. rewrite Hx. clear.
  unfold Qeq, Qdiv, Qmult, Qinv, inject_Z. simpl. lia.
Qed.

Lemma score_of_one_match (d : Z) (threshold : Q) :
  calculate_match_score [mkMockMatch d] "phash" threshold
  = (inject_Z (64 - d) / 64 * 100)%Q.
Proof. reflexivity. Qed.

Section Scores.

Context {Image ndarray : Type}.
Variable w : World Image ndarray.

Local Abbreviation match_features := (@match_features Image ndarray).

(** X9: the score is strictly decreasing in the distance: of two
    fingerprints compared with a third one of the same size, the one at
    the larger Hamming distance scores strictly less. *)
Theorem score_decreases_with_distance
    (a b c : ImageHash.t) (threshold : Q) :
  List.length a = List.length b ->
  List.length a = List.length c ->
  (ImageHash.hamming a b < ImageHash.hamming a c)%nat ->
  exists mb mc,
    fst (match_features (Some a) (Some b) "phash") = Ok mb
    /\ fst (match_features (Some a) (Some c) "phash") = Ok mc
    /\ (calculate_match_score mc "phash" threshold
        < calculate_match_score mb "phash" threshold)%Q.
Proof.
  intros Hb Hc Hlt.
  exists [mkMockMatch (Z.of_nat (ImageHash.hamming a b))],
         [mkMockMatch (Z.of_nat (ImageHash.hamming a c))].
  rewrite !match_features_phash by assumption.
  split; [reflexivity|]. split; [reflexivity|]. simpl.
  apply score_lt. lia.
Qed.

(** X10: two fingerprints of the same size score 100 exactly when they are
    equal, and 0 exactly when their distance is 64. *)
Theorem score_100_iff_equal (a b : ImageHash.t) (threshold : Q) :
  List.length a = List.length b ->
  exists matches,
    fst (match_features (Some a) (Some b) "phash") = Ok matches
    /\ ((calculate_match_score matches "phash" threshold == 100)%Q
        <-> a = b)
    /\ ((calculate_match_score matches "phash" threshold == 0)%Q
        <-> ImageHash.hamming a b = 64%nat).
Proof.
  intros Hlen.
  exists [mkMockMatch (Z.of_nat (ImageHash.hamming a b))].
  rewrite match_features_phash by assumption.
  split; [reflexivity|]. simpl fst. rewrite score_of_one_match. split.
  - rewrite score_eq_100, <- (hamming_zero a b Hlen). lia.
  - rewrite score_eq_0. lia.
Qed.

(** Unfolds one run of [detect_matches] under the answers in the context. *)
Ltac run_detect :=
  unfold detect_matches, try_except, extract_features, Utils.match_features,
    bind, call, ret;
  repeat match goal with
         | H : _ = Ok _ |- _ => rewrite H
         | H : _ = Raise _ |- _ => rewrite H
         | H : String.eqb _ _ = _ |- _ => rewrite H
         end;
  cbn -[calculate_match_score ImageHash.sub].

Lemma sub_sym (h1 h2 : ImageHash.t) :
  ImageHash.sub h1 h2 = ImageHash.sub h2 h1.
Proof.
  destruct (Nat.eq_dec (List.length h1) (List.length h2)) as [Hlen|Hlen].
  - rewrite (sub_is_hamming h1 h2 Hlen).
    rewrite (sub_is_hamming h2 h1 (eq_sym Hlen)).
    now rewrite hamming_sym.
  - unfold ImageHash.sub.
    rewrite (proj2 (Nat.eqb_neq _ _) Hlen).
    rewrite (proj2 (Nat.eqb_neq _ _)); [reflexivity | congruence].
Qed.

(** X11: [detect_matches] does not depend on which of two readable files
    is given as the original: both orders return the same score, or both
    raise the same exception (hashes of different sizes). *)
Theorem detect_matches_symmetric
    (p1 p2 method : string) (i1 i2 g1 g2 : Image) (h1 h2 : ImageHash.t) :
  Image_open w p1 = Ok i1 ->
  Image_open w p2 = Ok i2 ->
  Image_convert w i1 "L" = Ok g1 ->
  Image_convert w i2 "L" = Ok g2 ->
  phash w g1 = Ok h1 ->
  phash w g2 = Ok h2 ->
  fst (detect_matches w p1 p2 method) = fst (detect_matches w p2 p1 method).
Proof.
  intros Ho1 Ho2 Hc1 Hc2 Hh1 Hh2.
  destruct (String.eqb method "phash") eqn:Hm.
  - run_detect. rewrite (sub_sym h2 h1).
    destruct (ImageHash.sub h1 h2); reflexivity.
  - run_detect. reflexivity.
Qed.

(** What [detect_matches] can return: the sentinel 0, or the score of the
    distance of two hashes that [phash] returned. *)
Lemma detect_matches_value (p1 p2 method : string) (q : Q) :
  fst (detect_matches w p1 p2 method) = Ok q ->
  q = 0%Q
  \/ exists g1 g2 h1 h2 d,
       phash w g1 = Ok h1 /\ phash w g2 = Ok h2
       /\ ImageHash.sub h1 h2 = Ok d
       /\ q = calculate_match_score [mkMockMatch d] "phash" default_threshold.
Proof.
  destruct (Image_open w p1) as [i1|e1] eqn:Ho1.
  2:{ run_detect.
      destruct (isinstance_OSError e1 || isinstance_FileNotFoundError e1);
        cbn; intros H; inversion H; now left. }
  destruct (Image_open w p2) as [i2|e2] eqn:Ho2.
  2:{ run_detect.
      destruct (isinstance_OSError e2 || isinstance_FileNotFoundError e2);
        cbn; intros H; inversion H; now left. }
  destruct (Image_convert w i1 "L") as [g1|e] eqn:Hc1;
    [|run_detect; discriminate].
  destruct (Image_convert w i2 "L") as [g2|e] eqn:Hc2;
    [|run_detect; try rewrite Hc2; cbn; discriminate].
  destruct (String.eqb method "phash") eqn:Hm.
  2:{ run_detect. try rewrite Hc2. cbn. intros H. inversion H. now left. }
  apply String.eqb_eq in Hm. subst method.
  destruct (phash w g1) as [h1|e] eqn:Hh1;
    [|run_detect; try rewrite Hc2; cbn; try rewrite Hh1; cbn; discriminate].
  destruct (phash w g2) as [h2|e] eqn:Hh2.
  2:{ run_detect. discriminate. }
  destruct (ImageHash.sub h1 h2) as [d|e] eqn:Hsub.
  2:{ run_detect. rewrite Hsub. cbn. discriminate. }
  run_detect. rewrite Hsub. cbn -[calculate_match_score].
  intros H. inversion H. right. exists g1, g2, h1, h2, d. auto.
Qed.

(** X12: when [phash] returns 64-bit hashes, every score that
    [detect_matches] returns lies between 0 and 100, whatever the files and
    the method. *)
Theorem detect_matches_in_range (p1 p2 method : string) (q : Q) :
  (forall g h, phash w g = Ok h -> List.length h = 64%nat) ->
  fst (detect_matches w p1 p2 method) = Ok q ->
  (0 <= q)%Q /\ (q <= 100)%Q.
Proof.
  intros Hsize Hrun.
  destruct (detect_matches_value p1 p2 method q Hrun)
    as [->|(g1 & g2 & h1 & h2 & d & Hh1 & Hh2 & Hsub & ->)].
  - split; discriminate.
  - pose proof (Hsize g1 h1 Hh1) as Hl1.
    pose proof (Hsize g2 h2 Hh2) as Hl2.
    rewrite sub_is_hamming in Hsub by congruence.
    inversion Hsub; subst d. simpl.
    apply score_range. pose proof (hamming_le h1 h2). lia.
Qed.

(** X16: given an array, [extract_features] hashes the image that
    [Image.fromarray] makes of it: the same fingerprint as for that image,
    after one more call.  With another method it returns no fingerprint
    and calls nothing. *)
Theorem extract_features_of_array (a : ndarray) (img : Image) :
  Image_fromarray w a = Ok img ->
  fst (extract_features w (NdArray a) "phash")
  = fst (extract_features w (PIL img) "phash")
  /\ snd (extract_features w (NdArray a) "phash")
     = call_fromarray a :: snd (extract_features w (PIL img) "phash")
  /\ forall method,
      method <> "phash" ->
      extract_features w (NdArray a) method = (Ok (None, None), []).
Proof.
  intros Hfrom. unfold extract_features, bind, call, ret. simpl.
  rewrite Hfrom. split; [|split].
  - now destruct (phash w img).
  - now destruct (phash w img).
  - intros method Hm. apply String.eqb_neq in Hm. now rewrite Hm.
Qed.

End Scores.

End PipelineFacts.

(** ** More on the evaluation driver ([detect.py]) *)

Module TableFacts.
Import Utils Pandas Detect Report PyFacts DetectFacts.

Section Traces.

Context {Image ndarray : Type}.
Variable w : World Image ndarray.
Variable catalogue : dict string.

Local Abbreviation M := (Utils.M Image ndarray).
Local Abbreviation event := (Utils.event Image ndarray).

Lemma snd_bind {A B} (m : M A) (f : A -> M B) :
  snd (bind m f)
  = (snd m ++ match fst m with
              | Ok a => snd (f a)
              | Raise _ => []
              end)%list.
Proof.
  destruct m as [[a|e] t]; simpl.
  - now destruct (f a).
  - now rewrite app_nil_r.
Qed.

Lemma snd_append_to (results : dict (list cell)) (k : string) (v : cell) :
  snd (@append_to Image ndarray results k v) = [].
Proof. unfold append_to. now destruct (dict_get results k). Qed.

Lemma tested_paths_app (t1 t2 : list event) :
  tested_paths (t1 ++ t2) = (tested_paths t1 ++ tested_paths t2)%list.
Proof.
  induction t1 as [|ev t1 IH]; simpl; [reflexivity|].
  destruct ev; simpl; rewrite IH; reflexivity.
Qed.

(** [detect_matches] tests the existence of no file. *)
Lemma tested_paths_detect_matches (p1 p2 method : string) :
  tested_paths (snd (detect_matches w p1 p2 method)) = [].
Proof.
  unfold detect_matches, try_except, bind, call, ret, extract_features,
    match_features.
  destruct (Image_open w p1) as [i1|e1]; simpl.
  2:{ now destruct (isinstance_OSError e1 || isinstance_FileNotFoundError e1). }
  destruct (Image_open w p2) as [i2|e2]; simpl.
  2:{ now destruct (isinstance_OSError e2 || isinstance_FileNotFoundError e2). }
  destruct (Image_convert w i1 "L") as [g1|]; simpl; [|reflexivity].
  destruct (Image_convert w i2 "L") as [g2|]; simpl; [|reflexivity].
  destruct (String.eqb method "phash"); simpl; [|reflexivity].
  destruct (phash w g1) as [h1|]; simpl; [|reflexivity].
  destruct (phash w g2) as [h2|]; simpl; [|reflexivity].
  destruct (ImageHash.sub h1 h2); reflexivity.
Qed.

Lemma tested_paths_process_cell (manipulated orig_path image_id : string)
    (results : dict (list cell)) (item : string * string) :
  tested_paths (snd (process_cell w manipulated orig_path image_id results
                                  item))
  = [os_path_join manipulated (image_id ++ fst item ++ ".jpg")%string].
Proof.
  destruct item as [letter manip_name]. unfold process_cell.
  rewrite snd_bind. simpl fst. simpl snd at 1. cbn [tested_paths app].
  f_equal. destruct (os_path_exists w _); simpl negb; cbv iota.
  - rewrite snd_bind, tested_paths_app, tested_paths_detect_matches.
    destruct (fst (detect_matches w _ _ _)); [|reflexivity].
    now rewrite snd_append_to.
  - now rewrite snd_append_to.
Qed.

Lemma tested_paths_inner (manipulated orig_path image_id : string)
    (items : list (string * string)) :
  forall results,
    is_ok (fst (foldM (process_cell w manipulated orig_path image_id)
                      items results)) = true ->
    tested_paths (snd (foldM (process_cell w manipulated orig_path image_id)
                             items results))
    = map (fun item =>
             os_path_join manipulated (image_id ++ fst item ++ ".jpg")%string)
          items.
Proof.
  induction items as [|item items IH]; intros results Hok;
    [reflexivity|].
  rewrite foldM_cons in *. rewrite snd_bind, tested_paths_app.
  rewrite tested_paths_process_cell. rewrite fst_bind in Hok.
  destruct (fst (process_cell w manipulated orig_path image_id results item))
    as [results'|e]; [|discriminate].
  simpl in Hok. simpl. f_equal. now apply IH.
Qed.

Lemma tested_paths_outer (originals manipulated : string)
    (files : list string) :
  forall results,
    is_ok (fst (foldM (process_original w catalogue originals manipulated)
                      files results)) = true ->
    tested_paths (snd (foldM (process_original w catalogue originals
                                               manipulated) files results))
    = flat_map (fun f => map (variant_path manipulated f) catalogue) files.
Proof.
  induction files as [|f files IH]; intros results Hok; [reflexivity|].
  rewrite foldM_cons in *. rewrite snd_bind, tested_paths_app.
  rewrite fst_bind in Hok.
  destruct (fst (process_original w catalogue originals manipulated results f))
    as [results'|e] eqn:Hrow; [|discriminate].
  simpl in Hok. simpl flat_map. rewrite (IH results' Hok). f_equal.
  unfold process_original in *. rewrite snd_bind, snd_append_to.
  rewrite fst_bind in Hrow.
  destruct (fst (append_to results "image_id" _)) as [results0|e];
    [|discriminate].
  simpl app. simpl in Hrow. apply tested_paths_inner. now rewrite Hrow.
Qed.

(** The trace of [evaluate]; building the frame and the means calls
    nothing. *)
Lemma snd_evaluate (originals manipulated output : string) :
  snd (evaluate w catalogue originals manipulated output)
  = call_makedirs output
    :: match os_makedirs w output with
       | Raise _ => []
       | Ok _ =>
           call_listdir originals
           :: match os_listdir w originals with
              | Raise _ => []
              | Ok listing =>
                  snd (foldM (process_original w catalogue originals
                                               manipulated)
                             (sorted (filter is_original listing))
                             (initial_results (values catalogue)))
              end
       end.
Proof.
  unfold evaluate, bind, call, ret.
  destruct (os_makedirs w output) as [u|e]; simpl; [|reflexivity].
  destruct (os_listdir w originals) as [listing|e]; simpl; [|reflexivity].
  destruct (foldM _ _ _) as [[results|e] t]; simpl; [|reflexivity].
  destruct (DataFrame_of_dict results) as [df|e]; simpl;
    [|now rewrite ?app_nil_r].
  destruct (mean_axis1 _ _) as [avg|e]; simpl; now rewrite ?app_nil_r.
Qed.

(** X15: a run of [evaluate] that completes tests the existence of one
    path per cell and of nothing else, row by row: the originals in sorted
    order, and for each the catalogue in its order. *)
Theorem one_existence_test_per_cell
    (originals manipulated output : string) (listing : list string) :
  os_listdir w originals = Ok listing ->
  is_ok (fst (evaluate w catalogue originals manipulated output)) = true ->
  tested_paths (snd (evaluate w catalogue originals manipulated output))
  = flat_map (fun f => map (variant_path manipulated f) catalogue)
             (sorted (filter is_original listing)).
Proof.
  intros Hls Hok. rewrite snd_evaluate. rewrite fst_evaluate in Hok.
  destruct (os_makedirs w output) as [u|e]; [|discriminate].
  rewrite Hls in *. cbn [rbind] in Hok. cbn [tested_paths].
  apply tested_paths_outer.
  destruct (fst (foldM _ _ _)); [reflexivity | discriminate].
Qed.

Lemma Forall_foldM {A S} (P : event -> Prop) (f : S -> A -> M S)
    (l : list A) :
  (forall s x, Forall P (snd (f s x))) ->
  forall s, Forall P (snd (foldM f l s)).
Proof.
  intros Hf. induction l as [|x l IH]; intros s; [constructor|].
  rewrite foldM_cons, snd_bind. apply Forall_app. split; [apply Hf|].
  destruct (fst (f s x)); [apply IH | constructor].
Qed.

Lemma fs_calls_process_original (originals manipulated : string)
    (results : dict (list cell)) (orig_file : string) :
  (forall file, os_path_exists w (os_path_join manipulated file) = false) ->
  Forall is_fs_call
         (snd (process_original w catalogue originals manipulated results
                                orig_file)).
Proof.
  intros Hmiss. unfold process_original.
  rewrite snd_bind, snd_append_to. simpl app.
  destruct (fst (append_to results "image_id" _)); [|constructor].
  apply Forall_foldM. intros s [letter manip_name].
  unfold process_cell. rewrite snd_bind. simpl fst. simpl snd at 1.
  rewrite Hmiss. simpl negb. cbv iota. rewrite snd_append_to.
  repeat constructor.
Qed.

Lemma Qsum_zeros_from (l : list Q) (a : Q) :
  Forall (fun q => q == 0)%Q l -> (fold_left Qplus l a == a)%Q.
Proof.
  intros H. revert a. induction H as [|q l Hq _ IH]; intros a; simpl.
  - reflexivity.
  - rewrite IH, Hq. apply Qplus_0_r.
Qed.

Lemma min_loop_constant (key : string -> option pyfloat) (x : pyfloat)
    (l : list string) (best : string) :
  (forall n, In n (best :: l) -> key n = Some x) ->
  min_loop lt_opt key best (key best) l = Ok best.
Proof.
  intros Hkey. induction l as [|y l IH]; [reflexivity|].
  assert (Hlt : float_lt x x = false).
  { destruct x as [v|]; [|reflexivity]. simpl.
    assert (Hle : Qle_bool v v = true) by (apply Qle_bool_iff, Qle_refl).
    now rewrite Hle. }
  cbn [min_loop]. rewrite (Hkey y) by (right; now left).
  rewrite (Hkey best) by (now left). cbn [lt_opt rbind]. rewrite Hlt.
  rewrite <- (Hkey best) by (now left).
  apply IH. intros n Hn. apply Hkey. destruct Hn; [now left|].
  right. now right.
Qed.

(** X14: when no file exists under the manipulated directory (the
    directory may be missing altogether), the evaluation part of [main],
    from [os.makedirs] to the selection of the hardest manipulation,
    returns: every score is 0 and no image is opened, converted or hashed.
    With at least one original the first type of the catalogue is selected
    as hardest, with score 0; with no original it is selected with NaN.
    (The plots and the report that [main] writes afterwards are not part
    of [run].) *)
Theorem without_variants_all_zero
    (originals manipulated output : string) (listing : list string) :
  NoDup (values catalogue) ->
  (forall k, In k own_columns -> ~ In k (values catalogue)) ->
  is_ok (os_makedirs w output) = true ->
  os_listdir w originals = Ok listing ->
  (forall file, os_path_exists w (os_path_join manipulated file) = false) ->
  exists df,
    fst (evaluate w catalogue originals manipulated output) = Ok df
    /\ (forall l n, In (l, n) catalogue ->
          getitem df n
          = Ok (repeat (Num 0)
                       (List.length (filter is_original listing))))
    /\ Forall is_fs_call
              (snd (evaluate w catalogue originals manipulated output))
    /\ (filter is_original listing <> [] ->
        forall l0 n0 rest, catalogue = (l0, n0) :: rest ->
        exists avg_scores m,
          fst (run w catalogue originals manipulated output)
          = Ok (df, avg_scores, (n0, Fin m))
          /\ (m == 0)%Q)
    /\ (filter is_original listing = [] ->
        forall l0 n0 rest, catalogue = (l0, n0) :: rest ->
        exists avg_scores,
          fst (run w catalogue originals manipulated output)
          = Ok (df, avg_scores, (n0, NaN))).
Proof.
  intros Hnd Hown Hmk Hls Hmiss.
  set (files := sorted (filter is_original listing)).
  assert (Hcells : present_cells_scored w catalogue originals manipulated
                                        files).
  { intros f l n _ _ image_id manip_path Hex. unfold manip_path in Hex.
    rewrite Hmiss in Hex. discriminate. }
  destruct (evaluate_table w catalogue originals manipulated output listing
              Hnd Hown Hmk Hls Hcells)
    as (df & Hrun & Hrows & Hk & _ & Hcol).
  assert (Hzero : forall l n, In (l, n) catalogue ->
            getitem df n = Ok (map Num (map (fun _ => 0%Q) files))).
  { intros l n Hin. rewrite (Hcol l n Hin). fold files. f_equal.
    rewrite map_map. apply map_ext. intros f.
    now rewrite cell_value_missing by apply Hmiss. }
  exists df. split; [exact Hrun|]. split; [|split; [|split]].
  - intros l n Hin. rewrite (Hzero l n Hin). f_equal.
    rewrite <- (sorted_length (filter is_original listing)). fold files.
    clear. induction files as [|f fs IH]; simpl; [reflexivity|].
    now rewrite IH.
  - rewrite snd_evaluate. constructor; [exact I|].
    destruct (os_makedirs w output); [|constructor].
    constructor; [exact I|]. rewrite Hls.
    apply Forall_foldM. intros s f.
    now apply fs_calls_process_original.
  - intros Hfiles l0 n0 rest Hcat.
    set (zeros := map (fun _ : string => 0%Q) files).
    set (v := (Qsum zeros / inject_Z (Z.of_nat (List.length zeros)))%Q).
    assert (Hne : zeros <> []).
    { unfold zeros. intros Hnil. apply map_eq_nil in Hnil.
      apply Hfiles. apply Permutation_nil.
      pose proof (sorted_perm (filter is_original listing)) as Hp.
      fold files in Hp. now rewrite Hnil in Hp. }
    assert (Hmean : forall n, In n (values catalogue) ->
              column_mean df n = Ok (Fin v)).
    { intros n Hn. unfold values in Hn. apply in_map_iff in Hn.
      destruct Hn as ([l n'] & <- & Hin). simpl.
      unfold column_mean. rewrite (Hzero l n' Hin). simpl rbind.
      now rewrite mean_Num. }
    destruct (average_scores_fold df (fun _ => Fin v) (values catalogue) [])
      as (avg & Havg & Hkavg & Hget & _); auto.
    simpl in Hkavg.
    assert (Hn0 : values catalogue = n0 :: values rest)
      by (now rewrite Hcat).
    exists avg, v. split.
    + rewrite fst_run, Hrun. cbn [rbind]. unfold average_scores.
      rewrite Havg. cbn [rbind]. unfold hardest, py_min.
      rewrite Hkavg, Hn0.
      rewrite (min_loop_constant (dict_get avg) (Fin v) (values rest) n0).
      * cbn [rbind]. rewrite Hget; [reflexivity|]. rewrite Hn0. now left.
      * intros n Hn. apply Hget. now rewrite Hn0.
    + unfold v. unfold Qsum.
      rewrite (Qsum_zeros_from zeros 0%Q).
      * unfold Qdiv. apply Qmult_0_l.
      * unfold zeros. apply Forall_forall. intros q Hq.
        apply in_map_iff in Hq. destruct Hq as (f & <- & _). reflexivity.
  - intros Hfiles l0 n0 rest Hcat.
    assert (Hnil : files = []) by (unfold files; now rewrite Hfiles).
    assert (Hmean : forall n, In n (values catalogue) ->
              column_mean df n = Ok NaN).
    { intros n Hn. unfold values in Hn. apply in_map_iff in Hn.
      destruct Hn as ([l n'] & <- & Hin). simpl.
      unfold column_mean. rewrite (Hzero l n' Hin), Hnil. reflexivity. }
    destruct (average_scores_fold df (fun _ => NaN) (values catalogue) [])
      as (avg & Havg & Hkavg & Hget & _); auto.
    simpl in Hkavg.
    assert (Hn0 : values catalogue = n0 :: values rest)
      by (now rewrite Hcat).
    exists avg.
    rewrite fst_run, Hrun. cbn [rbind]. unfold average_scores.
    rewrite Havg. cbn [rbind]. unfold hardest, py_min.
    rewrite Hkavg, Hn0.
    rewrite (min_loop_constant (dict_get avg) NaN (values rest) n0).
    + cbn [rbind]. rewrite Hget; [reflexivity|]. rewrite Hn0. now left.
    + intros n Hn. apply Hget. now rewrite Hn0.
Qed.

End Traces.

Section Ranges.

Context {Image ndarray : Type}.
Variable w : World Image ndarray.
Variable catalogue : dict string.

Lemma fold_Qplus_range (qs : list Q) :
  Forall in_range qs ->
  forall a,
    (a <= fold_left Qplus qs a)%Q
    /\ (fold_left Qplus qs a
        <= a + 100 * inject_Z (Z.of_nat (List.length qs)))%Q.
Proof.
  induction 1 as [|q qs [Hq0 Hq1] _ IH]; intros a.
  - cbn [fold_left List.length]. change (inject_Z (Z.of_nat 0)) with 0%Q.
    split; lra.
  - cbn [fold_left List.length]. destruct (IH (a + q)%Q) as [H1 H2].
    rewrite Nat2Z.inj_succ. unfold Z.succ. rewrite inject_Z_plus.
    change (inject_Z 1) with 1%Q.
    set (n := inject_Z (Z.of_nat (List.length qs))) in *.
    split; lra.
Qed.

Lemma scores_are_numbers (col : list cell) :
  Forall score_cell col ->
  exists qs, col = map Num qs /\ Forall in_range qs.
Proof.
  induction 1 as [|c col Hc _ (qs & -> & Hr)]; [now exists []|].
  destruct c as [s|[q|]]; simpl in Hc; try contradiction.
  exists (q :: qs). split; [reflexivity|]. now constructor.
Qed.

(** The mean of at least one score is a score. *)
Lemma mean_of_scores (col : list cell) :
  Forall score_cell col -> col <> [] ->
  exists q, mean col = Ok (Fin q) /\ in_range q.
Proof.
  intros Hcol Hne. destruct (scores_are_numbers col Hcol) as (qs & -> & Hr).
  assert (Hq : qs <> []) by (intros ->; now apply Hne).
  rewrite (mean_Num qs Hq). eexists. split; [reflexivity|].
  destruct qs as [|q qs]; [congruence|].
  destruct (fold_Qplus_range (q :: qs) Hr 0%Q) as [H1 H2].
  set (n := inject_Z (Z.of_nat (List.length (q :: qs)))) in *.
  assert (Hn0 : (0 < n)%Q).
  { unfold n. change 0%Q with (inject_Z 0). rewrite <- Zlt_Qlt.
    simpl List.length. lia. }
  unfold Qsum, in_range.
  set (total := fold_left Qplus (q :: qs) 0%Q) in *. split.
  - apply Qle_shift_div_l; [exact Hn0|]. lra.
  - apply Qle_shift_div_r; [exact Hn0|]. lra.
Qed.

Lemma mapR_In {A B} (f : A -> result B) (l : list A) (ys : list B) :
  mapR f l = Ok ys ->
  forall y, In y ys -> exists x, In x l /\ f x = Ok y.
Proof.
  revert ys. induction l as [|x l IH]; intros ys H y Hy; simpl in H.
  - inversion H; subst. contradiction.
  - destruct (f x) as [y0|] eqn:Hx; [|discriminate]. simpl in H.
    destruct (mapR f l) as [ys'|] eqn:Hl; [|discriminate].
    simpl in H. inversion H; subst. destruct Hy as [<-|Hy].
    + exists x. split; [now left | exact Hx].
    + destruct (IH ys' eq_refl y Hy) as (x' & Hin & Hx').
      exists x'. split; [now right | exact Hx'].
Qed.

Lemma mapR_length {A B} (f : A -> result B) (l : list A) (ys : list B) :
  mapR f l = Ok ys -> List.length ys = List.length l.
Proof.
  revert ys. induction l as [|x l IH]; intros ys H; simpl in H.
  - now inversion H.
  - destruct (f x); [|discriminate]. simpl in H.
    destruct (mapR f l) as [ys'|]; [|discriminate].
    simpl in H. inversion H; subst. simpl. now rewrite (IH ys').
Qed.

Lemma nth_score_cell (i : nat) (col : list cell) :
  (i < List.length col)%nat -> Forall score_cell col ->
  score_cell (nth i col (Flt NaN)).
Proof.
  intros Hi H. rewrite Forall_forall in H. apply H. now apply nth_In.
Qed.

(** What [evaluate] returns is a frame to which the row means were
    added as [avg_score]. *)
Lemma evaluate_inv (originals manipulated output : string)
    (df : DataFrame) :
  fst (evaluate w catalogue originals manipulated output) = Ok df ->
  exists df0 avg,
    mean_axis1 (setitem_scalar df0 "method" (Str "phash"))
               (values catalogue) = Ok avg
    /\ df = setitem (setitem_scalar df0 "method" (Str "phash"))
                    "avg_score" avg.
Proof.
  rewrite fst_evaluate.
  destruct (os_makedirs w output); [|discriminate]. cbn [rbind].
  destruct (os_listdir w originals); [|discriminate]. cbn [rbind].
  destruct (fst (foldM _ _ _)) as [results|]; [|discriminate].
  cbn [rbind].
  destruct (DataFrame_of_dict results) as [df0|]; [|discriminate].
  cbn [rbind].
  destruct (mean_axis1 _ _) as [avg|] eqn:Havg; [|discriminate].
  cbn [rbind]. intros H. inversion H. now exists df0, avg.
Qed.

Lemma cell_value_range (originals manipulated f l : string) :
  (forall g h, phash w g = Ok h -> List.length h = 64%nat) ->
  in_range (cell_value w originals manipulated f l).
Proof.
  intros Hsize. unfold cell_value, cell_score. rewrite fst_bind.
  simpl fst at 1. cbn [rbind].
  destruct (os_path_exists w _); simpl negb; cbv iota.
  - destruct (fst (detect_matches w _ _ _)) as [q|] eqn:Hq;
      [|split; discriminate].
    destruct (PipelineFacts.detect_matches_value w _ _ _ q Hq)
      as [->|(g1 & g2 & h1 & h2 & d & Hh1 & Hh2 & Hsub & ->)];
      [split; discriminate|].
    rewrite UtilsFacts.sub_is_hamming in Hsub
      by (rewrite (Hsize g1 h1 Hh1), (Hsize g2 h2 Hh2); reflexivity).
    inversion Hsub; subst d. simpl.
    apply UtilsFacts.score_range.
    pose proof (UtilsFacts.hamming_le h1 h2).
    pose proof (Hsize g1 h1 Hh1). lia.
  - split; discriminate.
Qed.

(** X13: when [phash] returns 64-bit hashes, every number of the table
    lies between 0 and 100.  Every score does.  The mean of a score column
    does when there is at least one original, and is NaN when there is
    none.  The row means in [avg_score] do when the catalogue is not empty,
    and are NaN when it is. *)
Theorem table_numbers_in_range (originals manipulated output : string)
    (listing : list string) :
  NoDup (values catalogue) ->
  (forall k, In k own_columns -> ~ In k (values catalogue)) ->
  is_ok (os_makedirs w output) = true ->
  os_listdir w originals = Ok listing ->
  present_cells_scored w catalogue originals manipulated
                       (sorted (filter is_original listing)) ->
  (forall g h, phash w g = Ok h -> List.length h = 64%nat) ->
  exists df,
    fst (evaluate w catalogue originals manipulated output) = Ok df
    /\ nrows df = List.length (filter is_original listing)
    /\ (forall l n, In (l, n) catalogue ->
          exists col,
            getitem df n = Ok col
            /\ List.length col = nrows df
            /\ Forall score_cell col)
    /\ (forall l n, In (l, n) catalogue ->
          exists m,
            column_mean df n = Ok m
            /\ (nrows df = 0%nat -> m = NaN)
            /\ (nrows df <> 0%nat -> score_cell (Flt m)))
    /\ exists avg,
        getitem df "avg_score" = Ok avg
        /\ List.length avg = nrows df
        /\ (catalogue = [] -> Forall (fun c => c = Flt NaN) avg)
        /\ (catalogue <> [] -> Forall score_cell avg).
Proof.
  intros Hnd Hown Hmk Hls Hcells Hsize.
  destruct (evaluate_table w catalogue originals manipulated output listing
              Hnd Hown Hmk Hls Hcells)
    as (df & Hrun & Hrows & Hk & _ & Hcol).
  assert (Hscore : forall l n, In (l, n) catalogue ->
            exists col, getitem df n = Ok col
                        /\ List.length col = nrows df
                        /\ Forall score_cell col).
  { intros l n Hin. eexists. split; [apply (Hcol l n Hin)|]. split.
    - now rewrite length_map, Hrows.
    - apply Forall_forall. intros c Hc. apply in_map_iff in Hc.
      destruct Hc as (f & <- & _). simpl.
      now apply cell_value_range. }
  exists df. split; [exact Hrun|].
  split; [now rewrite Hrows, sorted_length|].
  split; [exact Hscore|]. split.
  - intros l n Hin. destruct (Hscore l n Hin) as (col & Hget & Hlen & Hr).
    unfold column_mean. rewrite Hget. cbn [rbind].
    destruct col as [|c col].
    + exists NaN. split; [reflexivity|]. split; [reflexivity|].
      intros Hne. simpl in Hlen. congruence.
    + destruct (mean_of_scores (c :: col) Hr) as (q & Hm & Hq);
        [discriminate|].
      exists (Fin q). split; [exact Hm|]. split; [|intros _; exact Hq].
      intros H0. simpl in Hlen. congruence.
  - destruct (evaluate_inv originals manipulated output df Hrun)
      as (df0 & avg & Hmean & Hdf).
    set (df1 := setitem_scalar df0 "method" (Str "phash")) in *.
    assert (Hn1 : nrows df1 = nrows df) by (now rewrite Hdf).
    assert (Hget1 : forall n, In n (values catalogue) ->
              getitem df n = getitem df1 n).
    { intros n Hn. rewrite Hdf. unfold getitem, setitem. simpl columns.
      rewrite dict_get_set_other; [reflexivity|].
      intros <-. apply (Hown "avg_score"); [simpl; auto | exact Hn]. }
    unfold mean_axis1 in Hmean.
    destruct (mapR (getitem df1) (values catalogue)) as [cols|] eqn:Hcols;
      [|discriminate].
    cbn [rbind] in Hmean.
    assert (Hrow : forall c, In c avg ->
              exists i, (i < nrows df)%nat
                /\ rbind (mean (map (fun col => nth i col (Flt NaN)) cols))
                         (fun m => Ok (Flt m)) = Ok c).
    { intros c Hc. destruct (mapR_In _ _ _ Hmean c Hc) as (i & Hi & Hmi).
      exists i. split; [|exact Hmi].
      apply in_seq in Hi. rewrite Hn1 in Hi. lia. }
    exists avg. split; [|split; [|split]].
    + rewrite Hdf. unfold getitem, setitem. simpl columns.
      now rewrite dict_get_set_same.
    + rewrite (mapR_length _ _ _ Hmean), length_seq. exact Hn1.
    + intros Hnil. rewrite Hnil in Hcols. simpl in Hcols.
      inversion Hcols; subst cols.
      apply Forall_forall. intros c Hc.
      destruct (Hrow c Hc) as (i & _ & Hmi). simpl in Hmi.
      now inversion Hmi.
    + intros Hne. apply Forall_forall. intros c Hc.
      destruct (Hrow c Hc) as (i & Hi & Hmi).
      assert (Hcells' : Forall score_cell
                          (map (fun col => nth i col (Flt NaN)) cols)).
      { apply Forall_forall. intros c' Hc'. apply in_map_iff in Hc'.
        destruct Hc' as (col & <- & Hcolin).
        destruct (mapR_In _ _ _ Hcols col Hcolin) as (n & Hn & Hgetn).
        rewrite <- (Hget1 n Hn) in Hgetn.
        unfold values in Hn. apply in_map_iff in Hn.
        destruct Hn as ([l n'] & Heq & Hin). simpl in Heq. subst n'.
        destruct (Hscore l n Hin) as (col' & Hget' & Hlen & Hr).
        assert (col' = col) by congruence. subst col'.
        apply nth_score_cell; [lia | exact Hr]. }
      assert (Hcolsne : map (fun col => nth i col (Flt NaN)) cols <> []).
      { intros Hnil. apply map_eq_nil in Hnil. subst cols.
        apply mapR_length in Hcols. simpl in Hcols.
        destruct catalogue; [congruence | discriminate]. }
      destruct (mean_of_scores _ Hcells' Hcolsne) as (q & Hm & Hq).
      rewrite Hm in Hmi. cbn [rbind] in Hmi. inversion Hmi. exact Hq.
Qed.

End Ranges.

End TableFacts.

(** ** The added properties on the sample worlds *)

Module MoreRuns.
Import Utils Pandas Detect Helpers Report Samples.

Lemma sample_hash_length (i : nat) : List.length (sample_hash i) = 64%nat.
Proof.
  unfold sample_hash. rewrite length_app, !repeat_length. lia.
Qed.

Lemma small_world_hash_size (g : nat) (h : ImageHash.t) :
  phash small_world g = Ok h -> List.length h = 64%nat.
Proof.
  simpl. intros H. inversion H. apply sample_hash_length.
Qed.

Lemma letter_name_letter_witness :
  get_manipulation_name MANIPULATION_TYPES "f" = "gaussian_blur"
  /\ get_manipulation_letter_code MANIPULATION_TYPES
       (get_manipulation_name MANIPULATION_TYPES "f") = Some "f".
Proof.
  apply (HelpersFacts.letter_name_letter MANIPULATION_TYPES "f"
           "gaussian_blur").
  - apply PyFacts.distinct_NoDup. reflexivity.
  - reflexivity.
Defined.

Lemma name_letter_name_witness :
  In "l" (keys MANIPULATION_TYPES)
  /\ In "collage" (get_all_manipulation_types MANIPULATION_TYPES)
  /\ get_manipulation_name MANIPULATION_TYPES "l" = "collage".
Proof.
  apply (HelpersFacts.name_letter_name MANIPULATION_TYPES "l" "collage").
  - apply PyFacts.distinct_NoDup. reflexivity.
  - reflexivity.
Defined.

Lemma unknown_letter_has_no_code_witness :
  (forall name,
      get_manipulation_letter_code MANIPULATION_TYPES name = None
      <-> ~ In name (get_all_manipulation_types MANIPULATION_TYPES))
  /\ get_manipulation_name MANIPULATION_TYPES "z" = "unknown"
  /\ get_manipulation_letter_code MANIPULATION_TYPES
       (get_manipulation_name MANIPULATION_TYPES "z") = None.
Proof.
  apply (HelpersFacts.unknown_letter_has_no_code MANIPULATION_TYPES "z").
  - apply (PyFacts.disjoint_check ["z"] (keys MANIPULATION_TYPES));
      [reflexivity | now left].
  - apply (PyFacts.disjoint_check ["unknown"] (values MANIPULATION_TYPES));
      [reflexivity | now left].
Defined.

Lemma declared_columns_of_table_witness :
  nrows (create_results_dataframe MANIPULATION_TYPES) = 0%nat
  /\ keys (columns (create_results_dataframe MANIPULATION_TYPES))
     = ("image_id" :: values MANIPULATION_TYPES
        ++ ["method"; "avg_score"])%list
  /\ (forall c,
        In c (keys (columns (create_results_dataframe MANIPULATION_TYPES))) ->
        getitem (create_results_dataframe MANIPULATION_TYPES) c = Ok [])
  /\ exists df,
      fst (evaluate small_world MANIPULATION_TYPES "originals" "manipulated"
                    "results") = Ok df
      /\ Permutation
           (keys (columns df))
           (keys (columns (create_results_dataframe MANIPULATION_TYPES)))
      /\ (MANIPULATION_TYPES <> [] ->
          keys (columns df)
          <> keys (columns (create_results_dataframe MANIPULATION_TYPES))).
Proof.
  apply (HelpersFacts.declared_columns_of_table small_world
           MANIPULATION_TYPES "originals" "manipulated" "results"
           small_listing).
  - apply PyFacts.distinct_NoDup. reflexivity.
  - apply PyFacts.disjoint_check. reflexivity.
  - reflexivity.
  - reflexivity.
  - apply DetectFacts.present_cells_scoredb_ok. vm_compute. reflexivity.
Defined.

Lemma analyze_results_skips_absent_witness :
  match analyze_results three_types sample_sqrt three_rows "phash" with
  | Ok (summary, hardest_manip) =>
      keys summary = filter (in_columns three_rows) (values three_types)
      /\ (forall n, In n (keys summary) ->
            exists st, dict_get summary n = Some st
                       /\ column_mean three_rows n = Ok (stat_mean st))
      /\ In hardest_manip summary
  | Raise e =>
      e = ValueError
      /\ filter (in_columns three_rows) (values three_types) = []
  end.
Proof.
  apply (HelpersFacts.analyze_results_skips_absent three_types sample_sqrt
           three_rows "phash").
  - apply PyFacts.distinct_NoDup. reflexivity.
  - intros n col Hin Hget. simpl in Hin.
    destruct Hin as [<-|[<-|[<-|[]]]]; vm_compute in Hget;
      inversion Hget; subst; repeat constructor.
Defined.

Lemma analyze_results_agrees_with_main_witness :
  exists summary st,
    analyze_results two_types sample_sqrt three_rows "phash"
    = Ok (summary, ("flip", st))
    /\ stat_mean st = Fin (70 # 3)
    /\ keys summary = values two_types
    /\ dict_get summary "flip" = Some st.
Proof.
  apply (HelpersFacts.analyze_results_agrees_with_main two_types sample_sqrt
           three_rows "phash" two_means "flip" (Fin (70 # 3))).
  - apply PyFacts.distinct_NoDup. reflexivity.
  - reflexivity.
  - reflexivity.
Defined.

Lemma summary_starts_with_hardest_witness :
  Permutation (summary_order two_means) two_means
  /\ Sorted score_le (summary_order two_means)
  /\ exists name score rest,
      hardest two_means = Ok (name, score)
      /\ summary_order two_means = (name, score) :: rest.
Proof.
  apply (ReportFacts.summary_starts_with_hardest two_means).
  - discriminate.
  - apply PyFacts.distinct_NoDup. reflexivity.
  - repeat constructor.
Defined.

Lemma plotted_columns_are_the_types_witness :
  exists df,
    fst (evaluate small_world MANIPULATION_TYPES "originals" "manipulated"
                  "results") = Ok df
    /\ plotted_columns df = values MANIPULATION_TYPES
    /\ forall n, In n (plotted_columns df) ->
                 exists col, getitem df n = Ok col
                             /\ List.length col = nrows df.
Proof.
  apply (ReportFacts.plotted_columns_are_the_types small_world
           MANIPULATION_TYPES "originals" "manipulated" "results"
           small_listing).
  - apply PyFacts.distinct_NoDup. reflexivity.
  - apply PyFacts.disjoint_check. reflexivity.
  - reflexivity.
  - reflexivity.
  - apply DetectFacts.present_cells_scoredb_ok. vm_compute. reflexivity.
Defined.

Lemma score_decreases_with_distance_witness :
  exists mb mc,
    fst (@match_features nat unit (Some (sample_hash 3))
           (Some (sample_hash 5)) "phash") = Ok mb
    /\ fst (@match_features nat unit (Some (sample_hash 3))
              (Some (sample_hash 10)) "phash") = Ok mc
    /\ (calculate_match_score mc "phash" default_threshold
        < calculate_match_score mb "phash" default_threshold)%Q.
Proof.
  apply (@PipelineFacts.score_decreases_with_distance nat unit
           (sample_hash 3) (sample_hash 5) (sample_hash 10)
           default_threshold).
  - reflexivity.
  - reflexivity.
  - vm_compute. lia.
Defined.

Lemma score_100_iff_equal_witness :
  exists matches,
    fst (@match_features nat unit (Some (sample_hash 3))
           (Some (sample_hash 10)) "phash") = Ok matches
    /\ ((calculate_match_score matches "phash" default_threshold == 100)%Q
        <-> sample_hash 3 = sample_hash 10)
    /\ ((calculate_match_score matches "phash" default_threshold == 0)%Q
        <-> ImageHash.hamming (sample_hash 3) (sample_hash 10) = 64%nat).
Proof.
  apply (@PipelineFacts.score_100_iff_equal nat unit
           (sample_hash 3) (sample_hash 10) default_threshold).
  reflexivity.
Defined.

Lemma detect_matches_symmetric_witness :
  fst (detect_matches small_world "originals/a.jpg" "manipulated/aa.jpg"
                      "phash")
  = fst (detect_matches small_world "manipulated/aa.jpg" "originals/a.jpg"
                        "phash").
Proof.
  apply (PipelineFacts.detect_matches_symmetric small_world
           "originals/a.jpg" "manipulated/aa.jpg" "phash"
           1%nat 3%nat 11%nat 13%nat (sample_hash 11) (sample_hash 13));
    reflexivity.
Defined.

Lemma detect_matches_in_range_witness :
  (0 <= 6200 # 64)%Q /\ (6200 # 64 <= 100)%Q.
Proof.
  apply (PipelineFacts.detect_matches_in_range small_world
           "originals/a.jpg" "manipulated/aa.jpg" "phash" (6200 # 64)).
  - exact small_world_hash_size.
  - reflexivity.
Defined.

Lemma extract_features_of_array_witness :
  fst (extract_features small_world (NdArray tt) "phash")
  = fst (extract_features small_world (PIL 0%nat) "phash")
  /\ snd (extract_features small_world (NdArray tt) "phash")
     = call_fromarray tt
       :: snd (extract_features small_world (PIL 0%nat) "phash")
  /\ forall method,
      method <> "phash" ->
      extract_features small_world (NdArray tt) method
      = (Ok (None, None), []).
Proof.
  apply (PipelineFacts.extract_features_of_array small_world tt 0%nat).
  reflexivity.
Defined.

Lemma one_existence_test_per_cell_witness :
  tested_paths (snd (evaluate small_world two_types "originals"
                              "manipulated" "results"))
  = flat_map (fun f => map (variant_path "manipulated" f) two_types)
             (sorted (filter is_original small_listing)).
Proof.
  apply (TableFacts.one_existence_test_per_cell small_world two_types
           "originals" "manipulated" "results" small_listing).
  - reflexivity.
  - vm_compute. reflexivity.
Defined.

Lemma without_variants_all_zero_witness :
  exists df,
    fst (evaluate bare_world MANIPULATION_TYPES "originals" "manipulated"
                  "results") = Ok df
    /\ (forall l n, In (l, n) MANIPULATION_TYPES ->
          getitem df n
          = Ok (repeat (Num 0)
                       (List.length (filter is_original small_listing))))
    /\ Forall is_fs_call
              (snd (evaluate bare_world MANIPULATION_TYPES "originals"
                             "manipulated" "results"))
    /\ (filter is_original small_listing <> [] ->
        forall l0 n0 rest, MANIPULATION_TYPES = (l0, n0) :: rest ->
        exists avg_scores m,
          fst (run bare_world MANIPULATION_TYPES "originals" "manipulated"
                   "results")
          = Ok (df, avg_scores, (n0, Fin m))
          /\ (m == 0)%Q)
    /\ (filter is_original small_listing = [] ->
        forall l0 n0 rest, MANIPULATION_TYPES = (l0, n0) :: rest ->
        exists avg_scores,
          fst (run bare_world MANIPULATION_TYPES "originals" "manipulated"
                   "results")
          = Ok (df, avg_scores, (n0, NaN))).
Proof.
  apply (TableFacts.without_variants_all_zero bare_world MANIPULATION_TYPES
           "originals" "manipulated" "results" small_listing).
  - apply PyFacts.distinct_NoDup. reflexivity.
  - apply PyFacts.disjoint_check. reflexivity.
  - reflexivity.
  - reflexivity.
  - reflexivity.
Defined.

Lemma table_numbers_in_range_witness :
  exists df,
    fst (evaluate small_world MANIPULATION_TYPES "originals" "manipulated"
                  "results") = Ok df
    /\ nrows df = List.length (filter is_original small_listing)
    /\ (forall l n, In (l, n) MANIPULATION_TYPES ->
          exists col,
            getitem df n = Ok col
            /\ List.length col = nrows df
            /\ Forall score_cell col)
    /\ (forall l n, In (l, n) MANIPULATION_TYPES ->
          exists m,
            column_mean df n = Ok m
            /\ (nrows df = 0%nat -> m = NaN)
            /\ (nrows df <> 0%nat -> score_cell (Flt m)))
    /\ exists avg,
        getitem df "avg_score" = Ok avg
        /\ List.length avg = nrows df
        /\ (MANIPULATION_TYPES = [] -> Forall (fun c => c = Flt NaN) avg)
        /\ (MANIPULATION_TYPES <> [] -> Forall score_cell avg).
Proof.
  apply (TableFacts.table_numbers_in_range small_world MANIPULATION_TYPES
           "originals" "manipulated" "results" small_listing).
  - apply PyFacts.distinct_NoDup. reflexivity.
  - apply PyFacts.disjoint_check. reflexivity.
  - reflexivity.
  - reflexivity.
  - apply DetectFacts.present_cells_scoredb_ok. vm_compute. reflexivity.
  - exact small_world_hash_size.
Defined.

End MoreRuns.

(** ** Scripts: traces of sequenced computations *)

Module ScriptFacts.
Import Script.

Section Traces.

Context {E : Type}.

Lemma andthen_eq {A B} (m : prog (E := E) A) (f : A -> prog B)
    (past : list E) :
  andthen m f past =
  match fst (m past) with
  | Ok a =>
      (fst (f a (past ++ snd (m past))),
       snd (m past) ++ snd (f a (past ++ snd (m past))))
  | Raise e => (Raise e, snd (m past))
  end.
Proof.
  unfold andthen. destruct (m past) as [[a|e] t]; simpl; [|reflexivity].
  now destruct (f a (past ++ t)).
Qed.

Lemma andthen_invoke {A B} (ev : E) (answer : list E -> result A)
    (f : A -> prog B) (past : list E) :
  andthen (invoke ev answer) f past =
  match answer past with
  | Ok a => (fst (f a (past ++ [ev])), ev :: snd (f a (past ++ [ev])))
  | Raise e => (Raise e, [ev])
  end.
Proof.
  unfold andthen, invoke. destruct (answer past) as [a|e]; [|reflexivity].
  now destruct (f a (past ++ [ev])).
Qed.

Lemma andthen_lift {A B} (r : result A) (f : A -> prog (E := E) B)
    (past : list E) :
  andthen (lift r) f past =
  match r with
  | Ok a => f a (past ++ [])
  | Raise e => (Raise e, [])
  end.
Proof.
  unfold andthen, lift. destruct r as [a|e]; [|reflexivity].
  now destruct (f a (past ++ [])).
Qed.

Lemma andthen_done {A B} (a : A) (f : A -> prog (E := E) B)
    (past : list E) :
  andthen (done a) f past = f a (past ++ []).
Proof. unfold andthen, done. now destruct (f a (past ++ [])). Qed.

Lemma andthen_ext {A B} (m : prog (E := E) A) (f g : A -> prog B)
    (past : list E) :
  (forall a past', f a past' = g a past') ->
  andthen m f past = andthen m g past.
Proof.
  intros H. unfold andthen. destruct (m past) as [[a|e] t]; [|reflexivity].
  now rewrite H.
Qed.

Lemma initial_segment_refl {X} (a : list X) : initial_segment a a.
Proof. exists []. now rewrite app_nil_r. Qed.

Lemma initial_segment_nil {X} (a : list X) : initial_segment [] a.
Proof. now exists a. Qed.

Lemma initial_segment_app {X} (a b c : list X) :
  initial_segment b c -> initial_segment (a ++ b) (a ++ c).
Proof. intros [r ->]. exists r. now rewrite app_assoc. Qed.

Lemma initial_segment_weaken {X} (a b c : list X) :
  initial_segment a b -> initial_segment a (b ++ c).
Proof. intros [r ->]. exists (r ++ c). now rewrite app_assoc. Qed.

(** What a loop records is made of what its rounds record: when each
    round records an initial segment of what is expected of it, and all
    of it when it returns, so does the loop. *)
Lemma for_each_segment {A S X} (see : list E -> list X)
    (f : S -> A -> prog S) (expect : A -> list X) :
  (forall t1 t2, see (t1 ++ t2) = see t1 ++ see t2) ->
  (forall s x past,
     initial_segment (see (snd (f s x past))) (expect x) /\
     (is_ok (fst (f s x past)) = true ->
      see (snd (f s x past)) = expect x)) ->
  forall l s past,
    initial_segment (see (snd (for_each f l s past))) (flat_map expect l) /\
    (is_ok (fst (for_each f l s past)) = true ->
     see (snd (for_each f l s past)) = flat_map expect l).
Proof.
  intros Happ Hf. assert (Hnil : see [] = []).
  { pose proof (Happ [] []) as H. simpl in H.
    destruct (see []); [reflexivity|]. apply (f_equal (@List.length X)) in H.
    rewrite length_app in H. simpl in H. lia. }
  induction l as [|x l IH]; intros s past.
  - simpl. rewrite Hnil. split; [apply initial_segment_refl|reflexivity].
  - cbn [for_each flat_map]. rewrite andthen_eq.
    destruct (Hf s x past) as [Hseg Hall].
    destruct (fst (f s x past)) as [s'|e] eqn:Hr.
    + cbn [fst snd]. rewrite Happ, (Hall eq_refl).
      destruct (IH s' (past ++ snd (f s x past))) as [IH1 IH2].
      split.
      * now apply initial_segment_app.
      * intros Hok. now rewrite (IH2 Hok).
    + cbn [fst snd]. split.
      * now apply initial_segment_weaken.
      * discriminate.
Qed.

End Traces.

End ScriptFacts.

(** ** [manipulate.py]: what a run writes *)

Module ManipulateFacts.
Import Script ScriptFacts Manipulate.

Lemma flat_map_singleton {A B} (f : A -> B) (l : list A) :
  flat_map (fun x => [f x]) l = map f l.
Proof. induction l as [|x l IH]; simpl; [reflexivity|now rewrite IH]. Qed.

(** A variant under [manipulated] is not the scratch file. *)
Lemma variant_is_not_scratch (f : string) (item : string * string) :
  is_scratch (Report.variant_path "manipulated" f item) = false.
Proof.
  unfold Report.variant_path, os_path_join, is_scratch.
  generalize (fst (os_path_splitext f) ++ fst item ++ ".jpg")%string.
  intros x. destruct (startswith x "/") eqn:Hx.
  - destruct x as [|c x']; [discriminate|].
    unfold startswith in Hx. cbn [String.prefix] in Hx.
    destruct (Ascii.ascii_dec "/" c) as [<-|]; [reflexivity|discriminate].
  - reflexivity.
Qed.

(** Without the scratch files, the files of a complete run are the
    variants. *)
Lemma written_without_scratch (catalogue : dict string)
    (files : list string) :
  filter (fun p => negb (is_scratch p))
         (written_files catalogue "manipulated" files)
  = variant_paths catalogue "manipulated" files.
Proof.
  unfold written_files, variant_paths.
  induction files as [|f files IH]; [reflexivity|].
  cbn [flat_map]. rewrite filter_app, IH. f_equal.
  clear IH. induction catalogue as [|item items IH]; [reflexivity|].
  cbn [flat_map map]. rewrite !filter_app, IH. cbn [filter].
  rewrite variant_is_not_scratch. cbn [negb app].
  unfold scratch_files.
  destruct (String.eqb (snd item) "jpeg_compression"); reflexivity.
Qed.

Section Loop.

Context {Image Font Float : Type}.
Variable lib : Lib Image Font Float.
Variable catalogue : dict string.

Local Abbreviation event := (Manipulate.event Image Font Float).

Lemma saved_paths_app (t1 t2 : list event) :
  saved_paths (t1 ++ t2) = saved_paths t1 ++ saved_paths t2.
Proof.
  induction t1 as [|ev t1 IH]; [reflexivity|].
  destruct ev as [| | | | | | |i p q [|]]; simpl; now rewrite IH.
Qed.

Lemma saves_nothing_done {A} (a : A) :
  saves_nothing (done (E := event) a).
Proof. intros past. reflexivity. Qed.

Lemma saves_nothing_lift {A} (r : result A) :
  saves_nothing (lift (E := event) r).
Proof. intros past. reflexivity. Qed.

Lemma saves_nothing_invoke {A} (ev : event)
    (answer : list event -> result A) :
  saved_paths [ev] = [] -> saves_nothing (invoke ev answer).
Proof. intros H past. exact H. Qed.

Lemma saves_nothing_andthen {A B} (m : prog (E := event) A)
    (f : A -> prog B) :
  saves_nothing m -> (forall a, saves_nothing (f a)) ->
  saves_nothing (andthen m f).
Proof.
  intros Hm Hf past. rewrite andthen_eq.
  destruct (fst (m past)) as [a|e]; cbn [snd]; [|apply Hm].
  now rewrite saved_paths_app, Hm, Hf.
Qed.

Lemma saves_nothing_for_each {A S} (f : S -> A -> prog (E := event) S)
    (l : list A) :
  (forall s x, saves_nothing (f s x)) ->
  forall s, saves_nothing (for_each f l s).
Proof.
  intros Hf. induction l as [|x l IH]; intros s.
  - apply saves_nothing_done.
  - cbn [for_each]. apply saves_nothing_andthen; [apply Hf|exact IH].
Qed.

Local Ltac quiet :=
  repeat first
    [ apply saves_nothing_done
    | apply saves_nothing_lift
    | apply saves_nothing_invoke; reflexivity
    | apply saves_nothing_for_each; intros ? ?
    | apply saves_nothing_andthen; [|intros ?] ].

Lemma quiet_branch {A} (q : prog (E := event) A) (manipulation : string)
    (past : list event) :
  saves_nothing q ->
  String.eqb manipulation "jpeg_compression" = false ->
  initial_segment (saved_paths (snd (q past))) (scratch_files manipulation)
  /\ (is_ok (fst (q past)) = true ->
      saved_paths (snd (q past)) = scratch_files manipulation).
Proof.
  intros Hq Hm. rewrite Hq. unfold scratch_files. rewrite Hm.
  split; [apply initial_segment_refl|reflexivity].
Qed.

Local Ltac not_jpeg m :=
  first
    [ assumption
    | let Hj := fresh "Hj" in
      destruct (String.eqb m "jpeg_compression") eqn:Hj;
      [ apply String.eqb_eq in Hj; subst m;
        match goal with
        | H : _ = true |- _ => vm_compute in H; discriminate H
        end
      | reflexivity ] ].

Local Ltac quiet_case m :=
  apply quiet_branch;
  [ unfold int_parameter, float_parameter, call_operation, load_font,
      open_image, listdir, random_choice;
    quiet
  | not_jpeg m ].

(** [apply_manipulation] writes the scratch file of the manipulation
    and nothing else; when it raises, it has written that file or
    nothing. *)
Lemma apply_manipulation_saves (img : Image)
    (manipulation originals_dir : string) (past : list event) :
  initial_segment
    (saved_paths
       (snd (apply_manipulation lib img manipulation originals_dir past)))
    (scratch_files manipulation)
  /\ (is_ok (fst (apply_manipulation lib img manipulation originals_dir
                    past)) = true ->
      saved_paths
        (snd (apply_manipulation lib img manipulation originals_dir past))
      = scratch_files manipulation).
Proof.
  unfold apply_manipulation.
  destruct (startswith manipulation "crop") eqn:?;
    [quiet_case manipulation|].
  destruct (startswith manipulation "rotate") eqn:?;
    [quiet_case manipulation|].
  destruct (String.eqb manipulation "flip_h") eqn:?;
    [quiet_case manipulation|].
  destruct (startswith manipulation "brightness") eqn:?;
    [quiet_case manipulation|].
  destruct (startswith manipulation "contrast") eqn:?;
    [quiet_case manipulation|].
  destruct (String.eqb manipulation "gaussian_blur") eqn:?;
    [quiet_case manipulation|].
  destruct (String.eqb manipulation "noise_saltpepper") eqn:?;
    [quiet_case manipulation|].
  destruct (String.eqb manipulation "color_filter") eqn:?;
    [quiet_case manipulation|].
  destruct (String.eqb manipulation "watermark") eqn:?;
    [quiet_case manipulation|].
  destruct (String.eqb manipulation "canvas_expand") eqn:?;
    [quiet_case manipulation|].
  destruct (String.eqb manipulation "jpeg_compression") eqn:Hj.
  - unfold scratch_files. rewrite Hj.
    unfold andthen, save_image, open_image, invoke. cbv zeta beta.
    destruct (save lib past img "temp.jpg" (Some 20%Z)) as [[]|e];
      cbn [fst snd is_ok saved_paths app].
    + split; [apply initial_segment_refl|reflexivity].
    + split; [apply initial_segment_nil|discriminate].
  - destruct (String.eqb manipulation "collage") eqn:?;
      [quiet_case manipulation|].
    destruct (String.eqb manipulation "text_obfuscation") eqn:?;
      [quiet_case manipulation|].
    destruct (String.eqb manipulation "invert_colors") eqn:?;
      [quiet_case manipulation|].
    quiet_case manipulation.
Qed.

Lemma write_variant_saves (output_dir originals_dir filename : string)
    (img : Image) (item : string * string) (past : list event) :
  let r := write_variant lib output_dir originals_dir
             (fst (os_path_splitext filename)) img tt item past in
  let expected := scratch_files (snd item)
                  ++ [Report.variant_path output_dir filename item] in
  initial_segment (saved_paths (snd r)) expected /\
  (is_ok (fst r) = true -> saved_paths (snd r) = expected).
Proof.
  destruct item as [letter manipulation]. cbn zeta.
  unfold write_variant, Report.variant_path. cbn [fst snd].
  rewrite andthen_eq.
  destruct (apply_manipulation_saves img manipulation originals_dir past)
    as [Hseg Hall].
  destruct (fst (apply_manipulation lib img manipulation originals_dir past))
    as [manipulated_img|e].
  - cbn [fst snd]. rewrite saved_paths_app, (Hall eq_refl).
    unfold save_image. cbv zeta.
    destruct (save lib _ manipulated_img _ None) as [[]|e];
      cbn [fst snd is_ok saved_paths].
    + split; [apply initial_segment_refl|reflexivity].
    + rewrite app_nil_r. split; [|discriminate].
      exists [os_path_join output_dir
                (fst (os_path_splitext filename) ++ letter ++ ".jpg")].
      reflexivity.
  - cbn [fst snd]. split; [|discriminate].
    now apply initial_segment_weaken.
Qed.

Lemma process_file_saves (output_dir originals_dir filename : string)
    (past : list event) :
  let r := process_file lib catalogue output_dir originals_dir tt filename
             past in
  let expected :=
    flat_map (fun item =>
                scratch_files (snd item)
                ++ [Report.variant_path output_dir filename item])
             catalogue in
  initial_segment (saved_paths (snd r)) expected /\
  (is_ok (fst r) = true -> saved_paths (snd r) = expected).
Proof.
  cbn zeta. unfold process_file, open_image. rewrite andthen_invoke.
  destruct (Image_open lib past _) as [img|e].
  - rewrite andthen_invoke.
    destruct (convert lib _ img "RGB") as [img'|e].
    + cbn [fst snd saved_paths].
      apply (for_each_segment saved_paths
               (write_variant lib output_dir originals_dir
                  (fst (os_path_splitext filename)) img')
               (fun item =>
                  scratch_files (snd item)
                  ++ [Report.variant_path output_dir filename item])
               saved_paths_app).
      intros [] item past'.
      apply (write_variant_saves output_dir originals_dir filename img'
               item past').
    + simpl. split; [apply initial_segment_nil|discriminate].
  - simpl. split; [apply initial_segment_nil|discriminate].
Qed.

(** A run is the two calls on the folders followed by the loop over the
    files. *)
Lemma run_saves (originals_dir output_dir : string)
    (listing : list string) (past : list event) :
  os_listdir lib (past ++ [do_makedirs output_dir]) originals_dir
  = Ok listing ->
  let r := run lib catalogue originals_dir output_dir past in
  let expected :=
    written_files catalogue output_dir
      (sorted (filter is_source_image listing)) in
  initial_segment (saved_paths (snd r)) expected /\
  (is_ok (fst r) = true -> saved_paths (snd r) = expected).
Proof.
  intros Hls. cbn zeta. unfold run, listdir. rewrite andthen_invoke.
  destruct (os_makedirs lib output_dir) as [[]|e].
  - rewrite andthen_invoke, Hls. cbn [fst snd saved_paths].
    apply (for_each_segment saved_paths
             (process_file lib catalogue output_dir originals_dir)
             (fun f =>
                flat_map (fun item =>
                            scratch_files (snd item)
                            ++ [Report.variant_path output_dir f item])
                         catalogue)
             saved_paths_app).
    intros [] f past'.
    apply (process_file_saves output_dir originals_dir f past').
  - simpl. split; [apply initial_segment_nil|discriminate].
Qed.

(** X17: when a run of [manipulate.py] returns, the files it has written
    are, for each accepted original in sorted order and each catalogue
    entry in order, the variant [<stem><letter>.jpg] under the output
    folder, preceded by the scratch file [temp.jpg] when the manipulation
    is ['jpeg_compression']; nothing else is written. *)
Theorem variants_written_on_success
    (originals_dir output_dir : string) (listing : list string)
    (past : list event) :
  os_listdir lib (past ++ [do_makedirs output_dir]) originals_dir
  = Ok listing ->
  fst (run lib catalogue originals_dir output_dir past) = Ok tt ->
  saved_paths (snd (run lib catalogue originals_dir output_dir past))
  = written_files catalogue output_dir
      (sorted (filter is_source_image listing)).
Proof.
  intros Hls Hok.
  destruct (run_saves originals_dir output_dir listing past Hls)
    as [_ Hall].
  cbn zeta in Hall. apply Hall. now rewrite Hok.
Qed.

(** X18: however a run ends, by returning or by an exception (none is
    caught in this file), the files it has written, scratch files
    included, are an initial segment of the files of a complete run: no
    file is skipped and nothing is written after a failure. *)
Theorem written_files_are_an_initial_segment
    (originals_dir output_dir : string) (listing : list string)
    (past : list event) :
  os_listdir lib (past ++ [do_makedirs output_dir]) originals_dir
  = Ok listing ->
  initial_segment
    (saved_paths (snd (run lib catalogue originals_dir output_dir past)))
    (written_files catalogue output_dir
       (sorted (filter is_source_image listing))).
Proof.
  intros Hls.
  destruct (run_saves originals_dir output_dir listing past Hls)
    as [Hseg _].
  exact Hseg.
Qed.

End Loop.

Section Agreement.

Context {Image ndarray Font Float : Type}.
Variable w : Utils.World Image ndarray.
Variable lib : Lib Image Font Float.
Variable catalogue : dict string.

(** X19: the evaluation of [detect.py] looks for exactly the files that a
    run of [manipulate.py] writes under [manipulated], in the same order:
    the files written, without the scratch file [temp.jpg] that the run
    also writes in the working directory.  Both run to the end over the
    same listing of [originals] with the same catalogue, and no name of
    the listing has an extension that only the case-insensitive test of
    [detect.py] accepts. *)
Theorem detect_looks_for_what_manipulate_writes
    (output : string) (listing : list string)
    (past : list (Manipulate.event Image Font Float)) :
  Utils.os_listdir w "originals" = Ok listing ->
  os_listdir lib (past ++ [do_makedirs "manipulated"]) "originals"
  = Ok listing ->
  (forall f, In f listing -> Detect.is_original f = is_source_image f) ->
  is_ok (fst (Detect.evaluate w catalogue "originals" "manipulated" output))
  = true ->
  fst (run lib catalogue "originals" "manipulated" past) = Ok tt ->
  Report.tested_paths
    (snd (Detect.evaluate w catalogue "originals" "manipulated" output))
  = filter (fun p => negb (is_scratch p))
      (saved_paths (snd (run lib catalogue "originals" "manipulated" past))).
Proof.
  intros Hw Hl Hext Hdf Hrun.
  assert (Hfilter : filter Detect.is_original listing
                    = filter is_source_image listing).
  { clear - Hext. induction listing as [|f l IH]; [reflexivity|].
    simpl. rewrite (Hext f (or_introl eq_refl)), IH; [reflexivity|].
    intros g Hg. apply Hext. now right. }
  destruct (run_saves lib catalogue "originals" "manipulated" listing past
              Hl) as [_ Hall].
  cbn zeta in Hall. rewrite Hall by now rewrite Hrun.
  rewrite written_without_scratch. unfold variant_paths.
  rewrite TableFacts.snd_evaluate.
  rewrite DetectFacts.fst_evaluate in Hdf.
  destruct (Utils.os_makedirs w output) as [u|e]; [|discriminate].
  rewrite Hw in *. cbn [rbind] in Hdf. cbn [Report.tested_paths].
  rewrite <- Hfilter.
  apply TableFacts.tested_paths_outer.
  destruct (fst (Utils.foldM _ _ _)); [reflexivity | discriminate].
Qed.

End Agreement.

End ManipulateFacts.

(** ** [fetch_images.py]: bounds and names of the download loop *)

Module FetchFacts.
Import Script ScriptFacts FetchImages.

Section Loop.

Context {Image bytes : Type}.
Variable key : string.
Variable net : Net Image bytes.

Local Abbreviation event := (FetchImages.event Image bytes).

Lemma page_requests_app (t1 t2 : list event) :
  page_requests (t1 ++ t2) = page_requests t1 ++ page_requests t2.
Proof.
  induction t1 as [|ev t1 IH]; [reflexivity|].
  destruct ev; simpl; now rewrite IH.
Qed.

Lemma saved_images_app (t1 t2 : list event) :
  saved_paths (t1 ++ t2) = saved_paths t1 ++ saved_paths t2.
Proof.
  induction t1 as [|ev t1 IH]; [reflexivity|].
  destruct ev as [| | | | | | | |i p [|]]; simpl; now rewrite IH.
Qed.

Local Ltac leaf :=
  cbn [fst snd app page_requests saved_paths];
  split; [reflexivity | eauto 6].

(** One pass through the [try] block: the count is unchanged and nothing
    is saved, or one image is saved under the next name and the count
    moves to it; an exception leaves nothing saved. *)
Lemma download_one_cases (c : nat) (h : hit) (past : list event) :
  let r := download_one net c h past in
  page_requests (snd r) = [] /\
  ((fst r = Ok c /\ saved_paths (snd r) = []) \/
   (fst r = Ok (c + 1)%nat /\ saved_paths (snd r) = [art_path (c + 1)]) \/
   (exists e, fst r = Raise e /\ saved_paths (snd r) = [])).
Proof.
  cbn zeta. unfold download_one. rewrite andthen_lift.
  destruct (hit_url h) as [[u|]|e]; [|leaf|leaf].
  destruct (String.eqb u ""); [leaf|].
  rewrite andthen_invoke.
  destruct (image_get net _ u) as [[status_code content]|e]; [|leaf].
  destruct (negb (status_code =? 200)%Z); [leaf|].
  rewrite andthen_invoke.
  destruct (Image_open net _ content) as [img|e]; [|leaf].
  assert (Hrest : forall (img' : Image) (past' : list event),
            let r := andthen (invoke (do_thumbnail img')
                                (fun past => thumbnail net past img'))
                       (fun img0 =>
                          andthen (save_image net img0 (art_path (c + 1)))
                                  (fun _ => done (c + 1)%nat)) past' in
            page_requests (snd r) = [] /\
            ((fst r = Ok c /\ saved_paths (snd r) = []) \/
             (fst r = Ok (c + 1)%nat /\
              saved_paths (snd r) = [art_path (c + 1)]) \/
             (exists e, fst r = Raise e /\ saved_paths (snd r) = []))).
  { intros img' past'. cbn zeta. rewrite andthen_invoke.
    destruct (thumbnail net past' img') as [img0|e]; [|leaf].
    unfold andthen, save_image, done.
    destruct (save net _ img0 _) as [[]|e]; leaf. }
  destruct (String.eqb (mode net img) "RGB").
  - rewrite andthen_done. cbv zeta.
    cbn [fst snd page_requests saved_paths]. exact (Hrest _ _).
  - rewrite andthen_invoke.
    destruct (convert net _ img "RGB") as [img'|e]; [|leaf].
    cbv zeta. cbn [fst snd page_requests saved_paths]. exact (Hrest _ _).
Qed.

(** A round of the inner loop never raises. *)
Lemma process_hit_cases (c : nat) (h : hit) (past : list event) :
  let r := process_hit net c h past in
  page_requests (snd r) = [] /\
  ((fst r = Ok c /\ saved_paths (snd r) = []) \/
   (fst r = Ok (c + 1)%nat /\ saved_paths (snd r) = [art_path (c + 1)])).
Proof.
  cbn zeta. unfold process_hit, except_Exception.
  destruct (download_one_cases c h past) as [Hp Hs]. cbn zeta in Hp, Hs.
  destruct (download_one net c h past) as [[c'|e] t]; cbn [fst snd] in *.
  - split; [exact Hp|].
    destruct Hs as [Hs|[Hs|(e & He & _)]]; [now left|now right|discriminate].
  - unfold done. cbn [fst snd]. rewrite app_nil_r. split; [exact Hp|].
    left. split; [reflexivity|].
    destruct Hs as [[He _]|[[He _]|(e' & _ & Hs)]];
      [discriminate|discriminate|exact Hs].
Qed.

(** The inner loop: it returns, the count grows by the number of images
    saved and stops at the target, and the images are saved under the
    names that follow the count. *)
Lemma hits_loop_cases (hits : list hit) :
  forall (c : nat) (past : list event),
    let r := hits_loop net hits c past in
    page_requests (snd r) = [] /\
    exists k,
      fst r = Ok (c + k)%nat /\
      (c + k <= Nat.max c IMAGES_TO_DOWNLOAD)%nat /\
      saved_paths (snd r) = map art_path (seq (c + 1) k).
Proof.
  induction hits as [|h hits IH]; intros c past; cbn zeta.
  - cbn [hits_loop]. unfold done. cbn [fst snd page_requests saved_paths].
    split; [reflexivity|]. exists 0%nat. rewrite Nat.add_0_r.
    split; [reflexivity|]. split; [apply Nat.le_max_l|reflexivity].
  - cbn [hits_loop].
    destruct (IMAGES_TO_DOWNLOAD <=? c)%nat eqn:Hc.
    + unfold done. cbn [fst snd page_requests saved_paths].
      split; [reflexivity|]. exists 0%nat. rewrite Nat.add_0_r.
      split; [reflexivity|]. split; [apply Nat.le_max_l|reflexivity].
    + apply Nat.leb_gt in Hc. rewrite andthen_eq.
      destruct (process_hit_cases c h past) as [Hp Hs].
      cbn zeta in Hp, Hs.
      destruct Hs as [[Hr Hs]|[Hr Hs]]; rewrite Hr; cbn [fst snd];
        rewrite page_requests_app, saved_images_app, Hp, Hs.
      * destruct (IH c (past ++ snd (process_hit net c h past)))
          as (Hp' & k & Hk & Hle & Hs').
        cbn zeta in Hp', Hk, Hs'. split; [exact Hp'|].
        exists k. repeat split; assumption.
      * destruct (IH (c + 1)%nat (past ++ snd (process_hit net c h past)))
          as (Hp' & k & Hk & Hle & Hs').
        cbn zeta in Hp', Hk, Hs'. split; [exact Hp'|].
        exists (1 + k)%nat. rewrite Hk, Hs'.
        split; [f_equal; lia|]. split; [lia|].
        replace (c + 1 + 1)%nat with (S (c + 1)) by lia. reflexivity.
Qed.

Local Ltac one_request :=
  unfold done; cbn [fst snd app page_requests saved_paths]; split;
  [ exists 1%nat; split; [lia|reflexivity]
  | exists 0%nat; rewrite Nat.add_0_r;
    split; [apply Nat.le_max_l|];
    split; [reflexivity|first [reflexivity|discriminate]] ].

(** The outer loop when the page number is at most 50 and the rounds
    allowed reach page 50. *)
Lemma pages_loop_cases (fuel : nat) :
  forall (page c : nat) (past : list event),
    (page <= 50)%nat -> (51 <= page + fuel)%nat ->
    let r := pages_loop key net fuel page c past in
    (exists j, (page + j <= 51)%nat /\
               page_requests (snd r) = map (page_url key) (seq page j)) /\
    (exists k,
       (c + k <= Nat.max c IMAGES_TO_DOWNLOAD)%nat /\
       saved_paths (snd r) = map art_path (seq (c + 1) k) /\
       (is_ok (fst r) = true -> fst r = Ok (Completed (c + k)))).
Proof.
  induction fuel as [|fuel IH]; intros page c past Hpage Hfuel; cbn zeta;
    [lia|].
  cbn [pages_loop].
  destruct (c <? IMAGES_TO_DOWNLOAD)%nat eqn:Hc.
  2: { unfold done. cbn [fst snd page_requests saved_paths]. split.
       - exists 0%nat. split; [lia|reflexivity].
       - exists 0%nat. rewrite Nat.add_0_r.
         split; [apply Nat.le_max_l|]. split; reflexivity. }
  apply Nat.ltb_lt in Hc. rewrite andthen_invoke.
  destruct (api_get net past (page_url key page)) as [[status_code json]|e];
    [|one_request].
  destruct (negb (status_code =? 200)%Z); [one_request|].
  rewrite andthen_lift.
  destruct json as [[[|h hits]|]|e];
    [one_request| |one_request|one_request].
  rewrite andthen_eq.
  destruct (hits_loop_cases (h :: hits) c
              ((past ++ [get_page (page_url key page)]) ++ []))
    as (Hp & k1 & Hk1 & Hle1 & Hs1).
  cbn zeta in Hp, Hk1, Hs1. rewrite Hk1. cbv zeta.
  destruct (50 <? page + 1)%nat eqn:Hlast.
  - unfold done. cbn [fst snd page_requests saved_paths].
    rewrite app_nil_r, Hp, Hs1. split.
    + exists 1%nat. split; [lia|reflexivity].
    + exists k1. split; [exact Hle1|]. split; reflexivity.
  - apply Nat.ltb_ge in Hlast.
    match goal with
    | |- context [pages_loop key net fuel (page + 1) (c + k1) ?p] =>
        destruct (IH (page + 1)%nat (c + k1)%nat p)
          as [(j & Hj & Hpj) (k & Hk & Hsk & Hok)]; [lia|lia|]
    end.
    cbn zeta in Hpj, Hsk, Hok.
    cbn [fst snd page_requests saved_paths].
    rewrite page_requests_app, saved_images_app, Hp, Hs1, Hpj, Hsk. split.
    + exists (1 + j)%nat. split; [lia|].
      replace (page + 1)%nat with (S page) by lia. reflexivity.
    + exists (k1 + k)%nat. split; [lia|]. split.
      * rewrite seq_app, map_app.
        now replace (c + 1 + k1)%nat with (c + k1 + 1)%nat by lia.
      * intros Hok'. rewrite (Hok Hok'). do 2 f_equal. lia.
Qed.

(** Rounds beyond the fiftieth are never used. *)
Lemma pages_loop_fuel (fuel1 : nat) :
  forall (fuel2 page c : nat) (past : list event),
    (page <= 50)%nat -> (51 <= page + fuel1)%nat ->
    (51 <= page + fuel2)%nat ->
    pages_loop key net fuel1 page c past
    = pages_loop key net fuel2 page c past.
Proof.
  induction fuel1 as [|fuel1 IH]; intros [|fuel2] page c past H1 H2 H3;
    try lia.
  cbn [pages_loop].
  destruct (c <? IMAGES_TO_DOWNLOAD)%nat; [|reflexivity].
  apply andthen_ext. intros [status_code json] past1.
  destruct (negb (status_code =? 200)%Z); [reflexivity|].
  apply andthen_ext. intros [[|h hits]|] past2; try reflexivity.
  apply andthen_ext. intros c' past3. cbv zeta.
  destruct (50 <? page + 1)%nat eqn:Hlast; [reflexivity|].
  apply Nat.ltb_ge in Hlast. apply IH; lia.
Qed.

(** The outer loop raises only when an API request or the decoding of its
    answer raises. *)
Lemma pages_loop_returns (fuel : nat) :
  (forall past u, exists status_code data,
      api_get net past u = Ok (status_code, Ok data)) ->
  forall (page c : nat) (past : list event),
    is_ok (fst (pages_loop key net fuel page c past)) = true.
Proof.
  intros Hapi. induction fuel as [|fuel IH]; intros page c past;
    cbn [pages_loop];
    (destruct (c <? IMAGES_TO_DOWNLOAD)%nat; [|reflexivity]);
    [reflexivity|].
  rewrite andthen_invoke.
  destruct (Hapi past (page_url key page)) as (status_code & data & ->).
  destruct (negb (status_code =? 200)%Z); [reflexivity|].
  rewrite andthen_lift.
  destruct data as [[|h hits]|]; try reflexivity.
  rewrite andthen_eq.
  destruct (hits_loop_cases (h :: hits) c
              ((past ++ [get_page (page_url key page)]) ++ []))
    as (_ & k1 & Hk1 & _).
  cbn zeta in Hk1. rewrite Hk1. cbv zeta. cbn [fst snd].
  destruct (50 <? page + 1)%nat; [reflexivity|apply IH].
Qed.

(** How a run starts: the calls on the folder, then the early return or
    the loop from page 1 and the count of the images present. *)
Lemma fetch_cases (fuel : nat) (past : list event) :
  exists t,
    Forall is_folder_call t /\ page_requests t = [] /\ saved_paths t = [] /\
    ((exists e,
        fetch key net fuel past = (Raise e, t) /\
        ((os_path_exists net ORIGINALS_FOLDER = false /\
          os_makedirs net ORIGINALS_FOLDER = Raise e) \/
         os_listdir net ORIGINALS_FOLDER = Raise e)) \/
     ((IMAGES_TO_DOWNLOAD <= existing_images net)%nat /\
      fetch key net fuel past
      = (Ok (AlreadyEnough (existing_images net)), t)) \/
     ((existing_images net < IMAGES_TO_DOWNLOAD)%nat /\
      fetch key net fuel past
      = (fst (pages_loop key net fuel 1 (existing_images net) (past ++ t)),
         t ++ snd (pages_loop key net fuel 1 (existing_images net)
                     (past ++ t))))).
Proof.
  unfold fetch, existing_images. rewrite andthen_invoke. cbn [fst snd].
  destruct (os_path_exists net ORIGINALS_FOLDER) eqn:Hex; cbn [negb].
  - rewrite andthen_done, andthen_invoke.
    destruct (os_listdir net ORIGINALS_FOLDER) as [listing|e] eqn:Hls.
    + destruct (IMAGES_TO_DOWNLOAD <=? _)%nat eqn:Hn.
      * apply Nat.leb_le in Hn.
        exists [do_exists ORIGINALS_FOLDER; do_listdir ORIGINALS_FOLDER].
        split; [repeat constructor|]. split; [reflexivity|].
        split; [reflexivity|]. right. left. split; [exact Hn|reflexivity].
      * apply Nat.leb_gt in Hn.
        exists [do_exists ORIGINALS_FOLDER; do_listdir ORIGINALS_FOLDER].
        split; [repeat constructor|]. split; [reflexivity|].
        split; [reflexivity|]. right. right. split; [exact Hn|].
        now rewrite <- !app_assoc.
    + exists [do_exists ORIGINALS_FOLDER; do_listdir ORIGINALS_FOLDER].
      split; [repeat constructor|]. split; [reflexivity|].
      split; [reflexivity|]. left. exists e. split; [reflexivity|now right].
  - rewrite andthen_invoke.
    destruct (os_makedirs net ORIGINALS_FOLDER) as [[]|e] eqn:Hmk.
    + rewrite andthen_invoke.
      destruct (os_listdir net ORIGINALS_FOLDER) as [listing|e] eqn:Hls.
      * destruct (IMAGES_TO_DOWNLOAD <=? _)%nat eqn:Hn.
        -- apply Nat.leb_le in Hn.
           exists [do_exists ORIGINALS_FOLDER; do_makedirs ORIGINALS_FOLDER;
                   do_listdir ORIGINALS_FOLDER].
           split; [repeat constructor|]. split; [reflexivity|].
           split; [reflexivity|]. right. left.
           split; [exact Hn|reflexivity].
        -- apply Nat.leb_gt in Hn.
           exists [do_exists ORIGINALS_FOLDER; do_makedirs ORIGINALS_FOLDER;
                   do_listdir ORIGINALS_FOLDER].
           split; [repeat constructor|]. split; [reflexivity|].
           split; [reflexivity|]. right. right. split; [exact Hn|].
           now rewrite <- !app_assoc.
      * exists [do_exists ORIGINALS_FOLDER; do_makedirs ORIGINALS_FOLDER;
                do_listdir ORIGINALS_FOLDER].
        split; [repeat constructor|]. split; [reflexivity|].
        split; [reflexivity|]. left. exists e.
        split; [reflexivity|now right].
    + exists [do_exists ORIGINALS_FOLDER; do_makedirs ORIGINALS_FOLDER].
      split; [repeat constructor|]. split; [reflexivity|].
      split; [reflexivity|]. left. exists e.
      split; [reflexivity|left; now split].
Qed.

(** X20: the [while] loop of [fetch_images_from_pixabay] ends within 50
    rounds: a run allowed 50 rounds or more is the run allowed exactly 50,
    and it does not end for lack of rounds. *)
Theorem download_loop_ends_within_50_rounds (fuel : nat)
    (past : list event) :
  (50 <= fuel)%nat ->
  fetch key net fuel past = fetch_images_from_pixabay key net past /\
  fst (fetch key net fuel past) <> Ok OutOfFuel.
Proof.
  intros Hfuel. split.
  - unfold fetch_images_from_pixabay, fetch.
    apply andthen_ext. intros present past1.
    apply andthen_ext. intros u past2.
    apply andthen_ext. intros listing past3.
    destruct (IMAGES_TO_DOWNLOAD <=? _)%nat; [reflexivity|].
    apply pages_loop_fuel; lia.
  - destruct (fetch_cases fuel past)
      as (t & _ & _ & _ & [(e & -> & _)|[[_ ->]|[_ ->]]]);
      cbn [fst]; try discriminate.
    destruct (pages_loop_cases fuel 1 (existing_images net) (past ++ t))
      as [_ (k & _ & _ & Hok)]; [lia|lia|].
    cbn zeta in Hok. intros Hout. rewrite Hout in Hok.
    specialize (Hok eq_refl). discriminate.
Qed.

(** X21: the API requests of a run are for the pages 1, 2, ..., j in this
    order, with j at most 50. *)
Theorem api_pages_are_consecutive (past : list event) :
  exists j,
    (j <= 50)%nat /\
    page_requests (snd (fetch_images_from_pixabay key net past))
    = map (page_url key) (seq 1 j).
Proof.
  unfold fetch_images_from_pixabay.
  destruct (fetch_cases 50 past)
    as (t & _ & Hp & _ & [(e & -> & _)|[[_ ->]|[_ ->]]]); cbn [snd].
  - exists 0%nat. split; [lia|exact Hp].
  - exists 0%nat. split; [lia|exact Hp].
  - destruct (pages_loop_cases 50 1 (existing_images net) (past ++ t))
      as [(j & Hj & Hpj) _]; [lia|lia|].
    cbn zeta in Hpj. exists j. split; [lia|].
    now rewrite page_requests_app, Hp, Hpj.
Qed.

(** X22: the images that a run saves continue the numbering of the images
    present: with [n] images present it saves [art_(n+1).jpg],
    [art_(n+2).jpg], ... in this order, never beyond [art_600.jpg], and the
    count it ends with is [n] plus the number of images saved. *)
Theorem saved_names_continue_the_count (past : list event) :
  exists k,
    (existing_images net + k
     <= Nat.max (existing_images net) IMAGES_TO_DOWNLOAD)%nat /\
    saved_paths (snd (fetch_images_from_pixabay key net past))
    = map art_path (seq (existing_images net + 1) k) /\
    forall n,
      fst (fetch_images_from_pixabay key net past) = Ok (Completed n) ->
      n = (existing_images net + k)%nat.
Proof.
  unfold fetch_images_from_pixabay.
  destruct (fetch_cases 50 past)
    as (t & _ & _ & Hs & [(e & -> & _)|[[_ ->]|[_ ->]]]); cbn [fst snd].
  - exists 0%nat. rewrite Nat.add_0_r. split; [apply Nat.le_max_l|].
    split; [exact Hs|discriminate].
  - exists 0%nat. rewrite Nat.add_0_r. split; [apply Nat.le_max_l|].
    split; [exact Hs|discriminate].
  - destruct (pages_loop_cases 50 1 (existing_images net) (past ++ t))
      as [_ (k & Hk & Hsk & Hok)]; [lia|lia|].
    cbn zeta in Hsk, Hok. exists k. split; [exact Hk|].
    split; [now rewrite saved_images_app, Hs, Hsk|].
    intros n Hn. rewrite Hn in Hok. specialize (Hok eq_refl).
    now inversion Hok.
Qed.

(** X23: with 600 images or more already present, a run calls nothing but
    the folder: no request is sent and no image is opened or saved; when
    it returns, it is by the early [return]. *)
Theorem enough_images_means_no_download (past : list event) :
  (IMAGES_TO_DOWNLOAD <= existing_images net)%nat ->
  Forall is_folder_call (snd (fetch_images_from_pixabay key net past)) /\
  (is_ok (fst (fetch_images_from_pixabay key net past)) = true ->
   fst (fetch_images_from_pixabay key net past)
   = Ok (AlreadyEnough (existing_images net))).
Proof.
  intros Hn. unfold fetch_images_from_pixabay.
  destruct (fetch_cases 50 past)
    as (t & Hf & _ & _ & [(e & -> & _)|[[_ ->]|[Hlt _]]]); cbn [fst snd].
  - split; [exact Hf|discriminate].
  - split; [exact Hf|reflexivity].
  - lia.
Qed.

(** X24: a run is not stopped by a failing image: when the folder can be
    listed (and created if absent) and every API request returns with a
    body of the expected shape, the run returns, whatever the downloads,
    PIL and the saving of the images do. *)
Theorem failed_downloads_do_not_stop_the_run (past : list event) :
  (os_path_exists net ORIGINALS_FOLDER = true \/
   os_makedirs net ORIGINALS_FOLDER = Ok tt) ->
  is_ok (os_listdir net ORIGINALS_FOLDER) = true ->
  (forall past u, exists status_code data,
      api_get net past u = Ok (status_code, Ok data)) ->
  fst (fetch_images_from_pixabay key net past)
  = Ok (AlreadyEnough (existing_images net)) \/
  exists n, fst (fetch_images_from_pixabay key net past) = Ok (Completed n).
Proof.
  intros Hdir Hls Hapi. unfold fetch_images_from_pixabay.
  destruct (fetch_cases 50 past)
    as (t & _ & _ & _ & [(e & _ & Hbad)|[[_ ->]|[_ ->]]]); cbn [fst].
  - exfalso. destruct Hbad as [[Hex Hmk]|Hraise].
    + destruct Hdir as [Hdir|Hdir]; congruence.
    + rewrite Hraise in Hls. discriminate.
  - now left.
  - right.
    destruct (pages_loop_cases 50 1 (existing_images net) (past ++ t))
      as [_ (k & _ & _ & Hok)]; [lia|lia|].
    cbn zeta in Hok. exists (existing_images net + k)%nat.
    apply Hok. now apply pages_loop_returns.
Qed.

End Loop.

End FetchFacts.

(** ** Runs of the generator and of the download on sample libraries *)

Module ScriptRuns.
Import Script Manipulate MoreSamples.

Example tables_agree :
  Manipulate.MANIPULATION_TYPES = Utils.MANIPULATION_TYPES.
Proof. reflexivity. Qed.

(** On a full disk the run stops at the first save that fails. *)
Example generator_on_full_disk :
  fst (apply_manipulations full_disk_lib []) = Raise OSError /\
  saved_paths (snd (apply_manipulations full_disk_lib []))
  = ["manipulated/aa.jpg"; "manipulated/ab.jpg"; "manipulated/ac.jpg"].
Proof. vm_compute. split; reflexivity. Qed.

(** With two originals the collage of the first one cannot draw three
    files: the run ends there, after the scratch file and the variants
    [a] to [k] of the first original. *)
Example collage_needs_three_originals :
  fst (apply_manipulations small_lib []) = Raise ValueError /\
  saved_paths (snd (apply_manipulations small_lib []))
  = ["manipulated/aa.jpg"; "manipulated/ab.jpg"; "manipulated/ac.jpg";
     "manipulated/ad.jpg"; "manipulated/ae.jpg"; "manipulated/af.jpg";
     "manipulated/ag.jpg"; "manipulated/ah.jpg"; "manipulated/ai.jpg";
     "manipulated/aj.jpg"; "temp.jpg"; "manipulated/ak.jpg"].
Proof. vm_compute. split; reflexivity. Qed.

Example generator_on_gallery :
  fst (apply_manipulations gallery_lib []) = Ok tt /\
  List.length (saved_paths (snd (apply_manipulations gallery_lib [])))
  = 45%nat.
Proof. vm_compute. split; reflexivity. Qed.

Example download_on_small_net :
  fst (FetchImages.fetch_images_from_pixabay sample_key small_net [])
  = Ok (FetchImages.Completed 4) /\
  FetchImages.saved_paths
    (snd (FetchImages.fetch_images_from_pixabay sample_key small_net []))
  = ["originals/art_3.jpg"; "originals/art_4.jpg"] /\
  FetchImages.page_requests
    (snd (FetchImages.fetch_images_from_pixabay sample_key small_net []))
  = [FetchImages.page_url sample_key 1; FetchImages.page_url sample_key 2].
Proof. vm_compute. repeat split. Qed.

Lemma variants_written_on_success_witness :
  saved_paths (snd (apply_manipulations gallery_lib []))
  = written_files MANIPULATION_TYPES "manipulated"
      (sorted (filter is_source_image gallery_listing)).
Proof.
  apply (ManipulateFacts.variants_written_on_success gallery_lib
           MANIPULATION_TYPES "originals" "manipulated" gallery_listing []).
  - reflexivity.
  - vm_compute. reflexivity.
Defined.

Lemma written_files_are_an_initial_segment_witness :
  initial_segment
    (saved_paths (snd (apply_manipulations full_disk_lib [])))
    (written_files MANIPULATION_TYPES "manipulated"
       (sorted (filter is_source_image gallery_listing))).
Proof.
  apply (ManipulateFacts.written_files_are_an_initial_segment full_disk_lib
           MANIPULATION_TYPES "originals" "manipulated" gallery_listing []).
  reflexivity.
Defined.

Lemma detect_looks_for_what_manipulate_writes_witness :
  Report.tested_paths
    (snd (Detect.evaluate generated_world Utils.MANIPULATION_TYPES
            "originals" "manipulated" "results"))
  = filter (fun p => negb (is_scratch p))
      (saved_paths (snd (apply_manipulations gallery_lib []))).
Proof.
  apply (ManipulateFacts.detect_looks_for_what_manipulate_writes
           generated_world gallery_lib Utils.MANIPULATION_TYPES
           "results" gallery_listing []).
  - reflexivity.
  - reflexivity.
  - intros f [<-|[<-|[<-|[<-|[]]]]]; reflexivity.
  - vm_compute. reflexivity.
  - vm_compute. reflexivity.
Defined.

Lemma download_loop_ends_within_50_rounds_witness :
  FetchImages.fetch sample_key small_net 60 []
  = FetchImages.fetch_images_from_pixabay sample_key small_net [] /\
  fst (FetchImages.fetch sample_key small_net 60 [])
  <> Ok FetchImages.OutOfFuel.
Proof.
  apply (FetchFacts.download_loop_ends_within_50_rounds sample_key small_net
           60 []).
  lia.
Defined.

Lemma enough_images_means_no_download_witness :
  Forall FetchImages.is_folder_call
    (snd (FetchImages.fetch_images_from_pixabay sample_key stocked_net []))
  /\ (is_ok (fst (FetchImages.fetch_images_from_pixabay sample_key
                    stocked_net [])) = true ->
      fst (FetchImages.fetch_images_from_pixabay sample_key stocked_net [])
      = Ok (FetchImages.AlreadyEnough
              (FetchImages.existing_images stocked_net))).
Proof.
  apply (FetchFacts.enough_images_means_no_download sample_key stocked_net
           []).
  apply Nat.leb_le. vm_compute. reflexivity.
Defined.

Lemma failed_downloads_do_not_stop_the_run_witness :
  fst (FetchImages.fetch_images_from_pixabay sample_key small_net [])
  = Ok (FetchImages.AlreadyEnough (FetchImages.existing_images small_net))
  \/ exists n,
       fst (FetchImages.fetch_images_from_pixabay sample_key small_net [])
       = Ok (FetchImages.Completed n).
Proof.
  apply (FetchFacts.failed_downloads_do_not_stop_the_run sample_key
           small_net []).
  - left. reflexivity.
  - reflexivity.
  - intros past u. unfold small_net, FetchImages.api_get.
    destruct (String.eqb u (FetchImages.page_url sample_key 1));
      eexists; eexists; reflexivity.
Defined.

End ScriptRuns.
